(** * download_lesson_study.py: a shallow embedding and its properties

    The script computes the current Sabbath-school lesson (quarter and week
    of quarter) from a calendar date, cleans stale audio files, searches six
    YouTube channels for the lesson, downloads the audio of the URLs found
    and fetches the daily audio files of the week.

    Part I embeds the Python code: the [datetime] arithmetic, the [str]
    methods, [glob] and [re.search] it relies on, a working directory with
    its console and its providers, and then the functions of the script, each
    under the name it has there.  Part II proves the properties. *)

From Stdlib Require Import ZArith NArith List Bool Lia String Ascii.
From Stdlib Require Decimal DecimalZ.
Import ListNotations.
Local Open Scope Z_scope.

(* ================================================================== *)
(** * Part I: the embedding                                            *)
(* ================================================================== *)

(** ** Python strings

    A [str] is a sequence of Unicode code points. *)

Definition char := N.
Bind Scope N_scope with char.
Definition pystr := list char.

(** An ASCII literal as a [str]. *)
Definition py (s : string) : pystr := map N_of_ascii (list_ascii_of_string s).

Module Str.
Local Open Scope N_scope.

Definition char_eqb (a b : char) : bool := N.eqb a b.

Definition LF : char := 10.
Definition CR : char := 13.
Definition PIPE : char := 124.
Definition SLASH : char := 47.
Definition QUOTE : char := 39.           (* ' *)
Definition DQUOTE : char := 34.          (* straight double quote *)
Definition LDQUOTE : char := 8220.       (* left curly double quote *)
Definition RDQUOTE : char := 8221.       (* right curly double quote *)
Definition EN_DASH : char := 8211.
Definition EM_DASH : char := 8212.
Definition STAR : char := 42.
Definition DOT : char := 46.

Fixpoint eqb (a b : pystr) : bool :=
  match a, b with
  | [], [] => true
  | x :: a', y :: b' => char_eqb x y && eqb a' b'
  | _, _ => false
  end.

(** [str.isspace] on one code point; also what [\s] matches in [re]. *)
Definition isspace (c : char) : bool :=
  ((9 <=? c) && (c <=? 13)) || ((28 <=? c) && (c <=? 32))
  || (c =? 133) || (c =? 160) || (c =? 5760)
  || ((8192 <=? c) && (c <=? 8202))
  || (c =? 8232) || (c =? 8233) || (c =? 8239) || (c =? 8287) || (c =? 12288).

Fixpoint lstrip_by (p : char -> bool) (s : pystr) : pystr :=
  match s with
  | [] => []
  | c :: s' => if p c then lstrip_by p s' else s
  end.

Definition rstrip_by (p : char -> bool) (s : pystr) : pystr :=
  rev (lstrip_by p (rev s)).

Definition strip_by (p : char -> bool) (s : pystr) : pystr :=
  rstrip_by p (lstrip_by p s).

(** [s.strip()] *)
Definition strip (s : pystr) : pystr := strip_by isspace s.

(** [c in chars] *)
Definition contains (c : char) (chars : pystr) : bool := existsb (char_eqb c) chars.

(** [s.strip(chars)] *)
Definition strip_chars (chars : pystr) (s : pystr) : pystr :=
  strip_by (fun c => contains c chars) s.

(** [s.split(sep)] for a separator of one character: never empty. *)
Fixpoint split (sep : char) (s : pystr) : list pystr :=
  match s with
  | [] => [[]]
  | c :: s' =>
    if char_eqb c sep then [] :: split sep s'
    else match split sep s' with
         | seg :: rest => (c :: seg) :: rest
         | [] => [[c]]
         end
  end.

(** [l[0]] and [l[-1]] on the result of a split *)
Definition first (l : list pystr) : pystr := hd [] l.
Definition last (l : list pystr) : pystr := List.last l [].

(** The line boundaries of [str.splitlines]. *)
Definition is_linebreak (c : char) : bool :=
  ((10 <=? c) && (c <=? 13)) || ((28 <=? c) && (c <=? 30))
  || (c =? 133) || (c =? 8232) || (c =? 8233).

(** [s.splitlines()]: the lines without their ends; a carriage return
    followed by a line feed is one boundary. *)
Fixpoint splitlines (s : pystr) : list pystr :=
  match s with
  | [] => []
  | c :: s' =>
    if is_linebreak c then
      [] :: (if c =? 13
             then match s' with
                  | d :: s'' => if d =? 10 then splitlines s'' else splitlines s'
                  | [] => splitlines s'
                  end
             else splitlines s')
    else match splitlines s' with
         | [] => [[c]]
         | l :: ls => (c :: l) :: ls
         end
  end.

(** Reading in text mode translates "\r\n" and "\r" to "\n". *)
Fixpoint universal_newlines (s : pystr) : pystr :=
  match s with
  | [] => []
  | c :: s' =>
    if c =? 13
    then 10 :: match s' with
               | d :: s'' => if d =? 10 then universal_newlines s''
                             else universal_newlines s'
               | [] => universal_newlines s'
               end
    else c :: universal_newlines s'
  end.

Fixpoint uint_digits (u : Decimal.uint) : pystr :=
  match u with
  | Decimal.Nil => []
  | Decimal.D0 u => 48 :: uint_digits u
  | Decimal.D1 u => 49 :: uint_digits u
  | Decimal.D2 u => 50 :: uint_digits u
  | Decimal.D3 u => 51 :: uint_digits u
  | Decimal.D4 u => 52 :: uint_digits u
  | Decimal.D5 u => 53 :: uint_digits u
  | Decimal.D6 u => 54 :: uint_digits u
  | Decimal.D7 u => 55 :: uint_digits u
  | Decimal.D8 u => 56 :: uint_digits u
  | Decimal.D9 u => 57 :: uint_digits u
  end.

(** [str(n)] for an int *)
Definition of_Z (n : Z) : pystr :=
  match Z.to_int n with
  | Decimal.Pos u => uint_digits u
  | Decimal.Neg u => 45 :: uint_digits u
  end.

(** ["%0<width>d" % n] for a non-negative int *)
Definition zfill (width : nat) (n : Z) : pystr :=
  let s := of_Z n in repeat 48 (width - List.length s) ++ s.

(** A value in a condition: [None] and the empty string are false. *)
Definition truthy (s : option pystr) : bool :=
  match s with
  | Some (_ :: _) => true
  | _ => false
  end.

(** [fnmatch] for patterns made of literal characters and [*]. *)
Fixpoint fnmatch (pat name : pystr) : bool :=
  match pat with
  | [] => match name with [] => true | _ => false end
  | p :: pat' =>
    if p =? STAR
    then (fix any (name : pystr) : bool :=
            fnmatch pat' name
            || match name with
               | [] => false
               | _ :: name' => any name'
               end) name
    else match name with
         | [] => false
         | c :: name' => char_eqb p c && fnmatch pat' name'
         end
  end.

(** A name that [glob] treats as hidden: it starts with a dot. *)
Definition ishidden (name : pystr) : bool :=
  match name with
  | c :: _ => c =? DOT
  | [] => false
  end.

End Str.

(** ** Exceptions and results *)

Inductive requests_exception :=
| Timeout
| ConnectionError
| HTTPError
| OtherRequestException.

Inductive exn :=
| ValueError
| OverflowError
| EnvironmentError
| FileNotFoundError (name : pystr)
| HttpError                               (* googleapiclient.errors.HttpError *)
| KeyError
| RequestsError (r : requests_exception)  (* requests.exceptions.RequestException *)
| OtherException.

Inductive result (A : Type) :=
| Ok (a : A)
| Raise (e : exn).
Arguments Ok {A} a.
Arguments Raise {A} e.

(** ** The [datetime] module

    Proleptic Gregorian calendar, as in CPython's [_pydatetime]. *)

Module Calendar.

Definition MINYEAR : Z := 1.
Definition MAXYEAR : Z := 9999.
Definition MAXORDINAL : Z := 3652059.

Definition DAYS_IN_MONTH : list Z :=
  [-1; 31; 28; 31; 30; 31; 30; 31; 31; 30; 31; 30; 31].
Definition DAYS_BEFORE_MONTH : list Z :=
  [-1; 0; 31; 59; 90; 120; 151; 181; 212; 243; 273; 304; 334].

Definition tbl (t : list Z) (i : Z) : Z := nth (Z.to_nat i) t 0.

Definition is_leap (year : Z) : bool :=
  (year mod 4 =? 0) && (negb (year mod 100 =? 0) || (year mod 400 =? 0)).

Definition days_before_year (year : Z) : Z :=
  let y := year - 1 in y * 365 + y / 4 - y / 100 + y / 400.

Definition days_in_month (year month : Z) : Z :=
  if (month =? 2) && is_leap year then 29 else tbl DAYS_IN_MONTH month.

Definition days_before_month (year month : Z) : Z :=
  tbl DAYS_BEFORE_MONTH month + (if (2 <? month) && is_leap year then 1 else 0).

Definition ymd2ord (year month day : Z) : Z :=
  days_before_year year + days_before_month year month + day.

Definition DI400Y : Z := 146097.
Definition DI100Y : Z := 36524.
Definition DI4Y : Z := 1461.

(** Month and day from the zero-based day of the year. *)
Definition yday2md (leapyear : bool) (n : Z) : Z * Z :=
  let month := Z.shiftr (n + 50) 5 in
  let preceding :=
    tbl DAYS_BEFORE_MONTH month + (if (2 <? month) && leapyear then 1 else 0) in
  if n <? preceding then
    let month' := month - 1 in
    let preceding' :=
      preceding - (tbl DAYS_IN_MONTH month'
                   + (if (month' =? 2) && leapyear then 1 else 0)) in
    (month', n - preceding' + 1)
  else (month, n - preceding + 1).

Definition ord2ymd (n : Z) : Z * Z * Z :=
  let n := n - 1 in
  let n400 := n / DI400Y in
  let n := n mod DI400Y in
  let n100 := n / DI100Y in
  let n := n mod DI100Y in
  let n4 := n / DI4Y in
  let n := n mod DI4Y in
  let n1 := n / 365 in
  let n := n mod 365 in
  let year := n400 * 400 + 1 + (n100 * 100 + n4 * 4 + n1) in
  if (n1 =? 4) || (n100 =? 4) then (year - 1, 12, 31)
  else
    let leapyear := (n1 =? 3) && (negb (n4 =? 24) || (n100 =? 3)) in
    let '(month, day) := yday2md leapyear n in
    (year, month, day).

Record datetime := mkdatetime {
  year : Z; month : Z; day : Z;
  hour : Z; minute : Z; second : Z; microsecond : Z
}.

Definition valid_date (y m d : Z) : bool :=
  (MINYEAR <=? y) && (y <=? MAXYEAR) && (1 <=? m) && (m <=? 12)
  && (1 <=? d) && (d <=? days_in_month y m).

Definition valid_time (h mi s us : Z) : bool :=
  (0 <=? h) && (h <? 24) && (0 <=? mi) && (mi <? 60)
  && (0 <=? s) && (s <? 60) && (0 <=? us) && (us <? 1000000).

Definition valid_datetime (d : datetime) : bool :=
  valid_date (year d) (month d) (day d)
  && valid_time (hour d) (minute d) (second d) (microsecond d).

(** [datetime(year, month, day)]: the constructor checks its fields. *)
Definition datetime_new (y m d : Z) : result datetime :=
  if valid_date y m d then Ok (mkdatetime y m d 0 0 0 0) else Raise ValueError.

Definition toordinal (d : datetime) : Z := ymd2ord (year d) (month d) (day d).

(** [weekday()]: Monday is 0, Sunday is 6. *)
Definition weekday_of_ordinal (n : Z) : Z := (n + 6) mod 7.
Definition weekday (d : datetime) : Z := weekday_of_ordinal (toordinal d).

(** [timedelta], normalised: 0 <= seconds < 86400, 0 <= microseconds < 10^6. *)
Record timedelta := mktimedelta { days : Z; seconds : Z; microseconds : Z }.

Definition timedelta_new (d s us : Z) : timedelta :=
  let s := s + us / 1000000 in
  let us := us mod 1000000 in
  let d := d + s / 86400 in
  let s := s mod 86400 in
  mktimedelta d s us.

Definition day_seconds (d : datetime) : Z :=
  second d + minute d * 60 + hour d * 3600.

(** [d + timedelta(days=k)] (and [d - timedelta(days=k)] as [k] negated):
    the time of day is kept, the date must stay in range. *)
Definition add_days (d : datetime) (k : Z) : result datetime :=
  let n := toordinal d + k in
  if (0 <? n) && (n <=? MAXORDINAL) then
    let '(y, m, dd) := ord2ymd n in
    Ok (mkdatetime y m dd (hour d) (minute d) (second d) (microsecond d))
  else Raise OverflowError.

(** [a - b] for two datetimes. *)
Definition sub (a b : datetime) : timedelta :=
  timedelta_new (toordinal a - toordinal b)
                (day_seconds a - day_seconds b)
                (microsecond a - microsecond b).

(** A checker for [yday2md]: month and day are in range and add up to the
    day of the year. *)
Definition yday_ok (leap : bool) (n : Z) : bool :=
  let '(m, d) := yday2md leap n in
  (1 <=? m) && (m <=? 12) && (1 <=? d)
  && (d <=? (if (m =? 2) && leap then 29 else tbl DAYS_IN_MONTH m))
  && (tbl DAYS_BEFORE_MONTH m + (if (2 <? m) && leap then 1 else 0) + d =? n + 1).

End Calendar.
Import Calendar.

(** ** get_quarter_and_week *)

Definition get_quarter_and_week (date : datetime) : result (Z * Z) :=
  let month := month date in
  let '(quarter_start_month, quarter) :=
    if (1 <=? month) && (month <=? 3) then (1, 1)
    else if (4 <=? month) && (month <=? 6) then (4, 2)
    else if (7 <=? month) && (month <=? 9) then (7, 3)
    else (10, 4) in
  match datetime_new (year date) quarter_start_month 1 with
  | Raise e => Raise e
  | Ok quarter_start =>
    let quarter_start_weekday := weekday quarter_start in
    let days_since_saturday := (quarter_start_weekday - 5) mod 7 in
    match add_days quarter_start (- days_since_saturday) with
    | Raise e => Raise e
    | Ok week_start_date =>
      let day_difference := days (sub date week_start_date) in
      let week_of_quarter := day_difference / 7 + 1 in
      Ok (quarter, week_of_quarter)
    end
  end.


(** ** The world of a run

    The working directory is a list of regular files, name and content, in
    the order the directory is listed; text files are held decoded, names
    are compared as on a POSIX system, and a file that is there can be
    removed and written.  The trace records what is printed and every call
    to a provider. *)

Inductive event :=
| Print (text : pystr)
| PrintExn (text : pystr) (e : exn)      (* [text] followed by [str(e)] *)
| YtSearch (query : pystr)               (* ydl.extract_info(query, download=False) *)
| ApiSearch (query channel_id : pystr)   (* youtube.search().list(...).execute() *)
| YdlDownload (url : pystr)              (* ydl.download([url]) *)
| HttpHead (url : pystr)                 (* requests.head(url, timeout=10) *)
| HttpGet (url : pystr).                 (* requests.get(url, stream=True, timeout=10) *)

Record world := mkworld {
  files : list (pystr * pystr);
  trace : list event
}.

(** What [requests.get] hands back: the status, the chunks that arrive and
    the error that ends the stream early, if any. *)
Record response := mkresponse {
  status_code : Z;
  chunks : list pystr;
  broken : option exn
}.

(** Everything outside the script: the Unicode table of decimal digits used
    by [\d] and [int], what the C library writes for [%Y] when the year is
    below 1000 (glibc writes the number as it is, other libraries pad it to
    four digits), and the providers.  A provider returns or raises; which
    exceptions it raises is left open. *)
Record platform := mkplatform {
  unicode_decimal : char -> option Z;
  strftime_small_year : Z -> pystr;
  (* the 'entries' of the search result, if present; each with its 'title', if present *)
  extract_info : pystr -> result (option (list (option pystr)));
  (* the 'items' of the response for (q, channelId); each with its id.videoId, if present *)
  youtube_search : pystr -> pystr -> result (list (option pystr));
  (* the stem of the audio file saved; formats 139/140 are saved as .m4a *)
  ydl_download : pystr -> result pystr;
  (* the status code of the response *)
  requests_head : pystr -> result Z;
  requests_get : pystr -> result response
}.

(** [download_date.strftime('%Y-%m-%d')]: the month and the day are
    zero-padded to two digits; a year from 1000 on is written in full. *)
Definition strftime_Ymd (P : platform) (d : datetime) : pystr :=
  (if 1000 <=? year d then Str.of_Z (year d) else strftime_small_year P (year d))
  ++ py "-" ++ Str.zfill 2 (month d) ++ py "-" ++ Str.zfill 2 (day d).

Module Fs.

Definition dir := list (pystr * pystr).

Definition names (fs : dir) : list pystr := map fst fs.

Definition mem (name : pystr) (fs : dir) : bool :=
  existsb (fun e => Str.eqb (fst e) name) fs.

Fixpoint lookup (name : pystr) (fs : dir) : option pystr :=
  match fs with
  | [] => None
  | (n, c) :: fs' => if Str.eqb n name then Some c else lookup name fs'
  end.

Definition delete (name : pystr) (fs : dir) : dir :=
  filter (fun e => negb (Str.eqb (fst e) name)) fs.

(** Change the content of [name], creating the file if it is not there. *)
Fixpoint update (name : pystr) (f : option pystr -> pystr) (fs : dir) : dir :=
  match fs with
  | [] => [(name, f None)]
  | (n, c) :: fs' =>
    if Str.eqb n name then (n, f (Some c)) :: fs' else (n, c) :: update name f fs'
  end.

Fixpoint nodup_names (l : list pystr) : bool :=
  match l with
  | [] => true
  | n :: l' => negb (existsb (Str.eqb n) l') && nodup_names l'
  end.

(** No two files of a directory have the same name. *)
Definition wf (fs : dir) : bool := nodup_names (names fs).

End Fs.

(** ** A state and exception monad for the script *)

Definition M (A : Type) : Type := world -> result A * world.

Definition ret {A} (a : A) : M A := fun w => (Ok a, w).

Definition bind {A B} (m : M A) (k : A -> M B) : M B :=
  fun w =>
    match m w with
    | (Ok a, w') => k a w'
    | (Raise e, w') => (Raise e, w')
    end.

Definition raise {A} (e : exn) : M A := fun w => (Raise e, w).

Definition lift {A} (r : result A) : M A := fun w => (r, w).

(** [try: m  except <those of catches> as e: h e] *)
Definition try_except {A} (catches : exn -> bool) (m : M A) (h : exn -> M A) : M A :=
  fun w =>
    match m w with
    | (Raise e, w') => if catches e then h e w' else (Raise e, w')
    | r => r
    end.

Declare Scope monad_scope.
Delimit Scope monad_scope with monad.
Notation "x <- m ;; k" := (bind m (fun x => k))
  (at level 61, m at next level, right associativity) : monad_scope.
Notation "m ;; k" := (bind m (fun _ => k))
  (at level 61, right associativity) : monad_scope.
Notation "' pat <- m ;; k" := (bind m (fun x => match x with pat => k end))
  (at level 61, pat pattern, m at next level, right associativity) : monad_scope.
Local Open Scope monad_scope.

Fixpoint for_each {A} (l : list A) (body : A -> M unit) : M unit :=
  match l with
  | [] => ret tt
  | x :: l' => body x ;; for_each l' body
  end.

Definition emit (ev : event) : M unit :=
  fun w => (Ok tt, mkworld (files w) (trace w ++ [ev])).

(** [print(text)]: the console takes every string (an encoding that covers
    the text printed; a file name that cannot be encoded is outside this
    model). *)
Definition print (text : pystr) : M unit := emit (Print text).
Definition print_exn (text : pystr) (e : exn) : M unit := emit (PrintExn text e).

(** [except Exception], [except OSError], [except requests.exceptions.RequestException] *)
Definition Exception (e : exn) : bool := true.

Definition OSError (e : exn) : bool :=
  match e with
  | EnvironmentError | FileNotFoundError _ | RequestsError _ => true
  | _ => false
  end.

Definition RequestException (e : exn) : bool :=
  match e with
  | RequestsError _ => true
  | _ => false
  end.

(** *** The file system calls *)

Definition os_path_exists (name : pystr) : M bool :=
  fun w => (Ok (Fs.mem name (files w)), w).

Definition os_remove (name : pystr) : M unit :=
  fun w =>
    if Fs.mem name (files w)
    then (Ok tt, mkworld (Fs.delete name (files w)) (trace w))
    else (Raise (FileNotFoundError name), w).

(** [with open(name, 'w') as f: f.write(data)], also for 'wb': the file is
    created or truncated. *)
Definition open_write (name data : pystr) : M unit :=
  fun w =>
    match name with
    | [] => (Raise (FileNotFoundError name), w)
    | _ => (Ok tt, mkworld (Fs.update name (fun _ => data) (files w)) (trace w))
    end.

(** [with open(name, 'a') as f: f.write(data)], also for a write to a file
    that is already open. *)
Definition open_append (name data : pystr) : M unit :=
  fun w =>
    match name with
    | [] => (Raise (FileNotFoundError name), w)
    | _ =>
      (Ok tt, mkworld (Fs.update name
                         (fun old => match old with Some c => c ++ data | None => data end)
                         (files w))
                      (trace w))
    end.

(** [with open(name, 'r') as f: f.read()]: a file of the directory is a
    regular file whose content decodes; it is held as the text read. *)
Definition open_read (name : pystr) : M pystr :=
  fun w =>
    match Fs.lookup name (files w) with
    | Some c => (Ok (Str.universal_newlines c), w)
    | None => (Raise (FileNotFoundError name), w)
    end.

(** [glob.glob(pattern)] in the working directory: the names that match, in
    listing order; a hidden name only matches a pattern that starts with a
    dot. *)
Definition glob_names (pattern : pystr) (fs : Fs.dir) : list pystr :=
  filter (fun n => (Str.ishidden pattern || negb (Str.ishidden n)) && Str.fnmatch pattern n)
         (Fs.names fs).

Definition glob (pattern : pystr) : M (list pystr) :=
  fun w => (Ok (glob_names pattern (files w)), w).

(** ** The lesson pattern

    [re.search(r"(\d{4})\s*Q(\d)\s*Lesson\s*(\d+)", file_name)]: the
    leftmost match.  Each [\s*] is followed by a character that is no
    space and the last [\d+] ends the pattern, so the greedy match is the
    only one at a given start. *)

Module Re.
Section WithDigits.

Variable decimal : char -> option Z.

Definition isdigit (c : char) : bool :=
  match decimal c with
  | Some _ => true
  | None => false
  end.

(** Exactly [n] digits at the head of [s], and what follows. *)
Fixpoint digits_exactly (n : nat) (s : pystr) : option (pystr * pystr) :=
  match n with
  | O => Some ([], s)
  | S n' =>
    match s with
    | c :: s' =>
      if isdigit c
      then match digits_exactly n' s' with
           | Some (g, rest) => Some (c :: g, rest)
           | None => None
           end
      else None
    | [] => None
    end
  end.

(** The longest run of digits at the head of [s]. *)
Fixpoint digits_many (s : pystr) : pystr :=
  match s with
  | c :: s' => if isdigit c then c :: digits_many s' else []
  | [] => []
  end.

(** The literal [lit] at the head of [s], and what follows. *)
Fixpoint literal (lit s : pystr) : option pystr :=
  match lit with
  | [] => Some s
  | l :: lit' =>
    match s with
    | c :: s' => if Str.char_eqb l c then literal lit' s' else None
    | [] => None
    end
  end.

Definition spaces (s : pystr) : pystr := Str.lstrip_by Str.isspace s.

(** The three groups of a match that starts at the head of [s]. *)
Definition match_here (s : pystr) : option (pystr * pystr * pystr) :=
  match digits_exactly 4 s with
  | None => None
  | Some (g1, s1) =>
    match literal (py "Q") (spaces s1) with
    | None => None
    | Some s2 =>
      match digits_exactly 1 s2 with
      | None => None
      | Some (g2, s3) =>
        match literal (py "Lesson") (spaces s3) with
        | None => None
        | Some s4 =>
          match digits_many (spaces s4) with
          | [] => None
          | g3 => Some (g1, g2, g3)
          end
        end
      end
    end
  end.

Fixpoint search (s : pystr) : option (pystr * pystr * pystr) :=
  match match_here s with
  | Some g => Some g
  | None =>
    match s with
    | [] => None
    | _ :: s' => search s'
    end
  end.

(** [int(g)] for a group of digits *)
Definition int (g : pystr) : Z :=
  fold_left (fun acc c => acc * 10 + match decimal c with Some v => v | None => 0 end) g 0.

End WithDigits.
End Re.

(** The decimal digits of ASCII, for concrete runs. *)
Definition ascii_decimal (c : char) : option Z :=
  if ((48 <=? c) && (c <=? 57))%N then Some (Z.of_N c - 48) else None.

(** ** The configuration of the script *)

Inductive environment_kind := production | test.

Definition environment : environment_kind := production.

(** A query format: literal text and the four replacement fields. *)
Inductive field :=
| Lit (text : pystr)
| lesson_title_field
| lesson_number_field
| quarter_field
| year_field.

Record channel := mkchannel {
  id : pystr;
  query_format : list field
}.

Definition CHANNEL_IDS : list (pystr * channel) :=
  [ (py "3abn",
     mkchannel (py "UCw_AthKfwqB3XYpboTFZFmg")
       [lesson_title_field; Lit (py " | Sabbath School Panel by 3ABN - Lesson ");
        lesson_number_field; Lit (py " Q"); quarter_field; Lit (py " "); year_field]);
    (py "itiswritten",
     mkchannel (py "UCtWyoUrGPAkZgnp2486Ir4w")
       [Lit (py "Sabbath School - "); year_field; Lit (py " Q"); quarter_field;
        Lit (py " Lesson "); lesson_number_field; Lit (py ": "); lesson_title_field]);
    (py "hopess",
     mkchannel (py "UCm34NbuHzE9t9hHutOxwIOA")
       [Lit (py "Lesson "); lesson_number_field; Lit (py ": "); lesson_title_field]);
    (py "claudiocarneiro",
     mkchannel (py "UCvJRu-jirSkv6yuxakirENg")
       [year_field; Lit (py " Q"); quarter_field; Lit (py " Lesson "); lesson_number_field;
        Lit (py " " ++ [Str.EN_DASH] ++ py " "); lesson_title_field;
        Lit (py " " ++ [Str.EN_DASH] ++ py " Audio by Percy Harrold")]);
    (py "HopeLives365",
     mkchannel (py "UCOuDMda3jxj-g_iI1P2d2zw")
       [Lit (py "Sabbath School with Mark Finley | Lesson "); lesson_number_field;
        Lit (py " " ++ [Str.EM_DASH] ++ py " Q"); quarter_field;
        Lit (py " " ++ [Str.EN_DASH] ++ py " "); year_field]);
    (py "egwhiteaudio",
     mkchannel (py "UCPS3A-60tKmKTCKWZMT9upA")
       [year_field; Lit (py " Q"); quarter_field; Lit (py " Lesson "); lesson_number_field;
        Lit (py " " ++ [Str.EN_DASH] ++ py " EGW Notes " ++ [Str.EN_DASH] ++ py " ");
        lesson_title_field]) ].

Definition TEST_URLS : list (pystr * pystr) :=
  [ (py "3abn", py "https://www.youtube.com/watch?v=-eZepvX6UVw");
    (py "itiswritten", py "https://www.youtube.com/watch?v=t_VM__8B1vk");
    (py "hopess", py "https://www.youtube.com/watch?v=K83lvzmelOo");
    (py "claudiocarneiro", py "https://www.youtube.com/watch?v=qJSuxbIi3Bg");
    (py "HopeLives365", py "https://www.youtube.com/watch?v=Ivpr9P-OA4A");
    (py "egwhiteaudio", py "https://www.youtube.com/watch?v=kOQosyJhrIE") ].

(** [query_format.format(lesson_number=..., quarter=..., year=..., lesson_title=...)] *)
Definition format (fmt : list field) (lesson_number quarter year : Z)
    (lesson_title : pystr) : pystr :=
  List.concat (map (fun f =>
                 match f with
                 | Lit text => text
                 | lesson_title_field => lesson_title
                 | lesson_number_field => Str.of_Z lesson_number
                 | quarter_field => Str.of_Z quarter
                 | year_field => Str.of_Z year
                 end) fmt).

(** ** The functions of the script *)

Section Script.

Variable P : platform.

Definition search_videos_on_youtube (query channel_name channel_id : pystr)
  : M (option pystr) :=
  match environment with
  | production =>
    try_except Exception
      (emit (ApiSearch query channel_id) ;;
       videos <- lift (youtube_search P query channel_id) ;;
       match videos with
       | Some video_id :: _ =>
         ret (Some (py "https://www.youtube.com/watch?v=" ++ video_id))
       | _ =>
         print (py "No results found for query: " ++ query) ;;
         ret None
       end)
      (fun e =>
         match e with
         | HttpError =>
           print_exn (py "An HTTP error occurred: ") e ;; ret None
         | KeyError =>
           print_exn (py "Expected key missing in the response: ") e ;; ret None
         | _ =>
           print_exn (py "An unexpected error occurred: ") e ;; ret None
         end)
  | test =>
    let video_url := Fs.lookup channel_name TEST_URLS in
    if Str.truthy video_url then
      print (py "Simulated URL found for " ++ channel_name ++ py ": "
             ++ match video_url with Some u => u | None => [] end) ;;
      ret video_url
    else
      print (py "No test URL found for " ++ channel_name ++ py ". Returning None.") ;;
      ret None
  end.

Definition get_lesson_title (lesson_number quarter year : Z) : M (option pystr) :=
  let query := py "Sabbath School Panel by 3ABN - Lesson " ++ Str.of_Z lesson_number
               ++ py " Q" ++ Str.of_Z quarter ++ py " " ++ Str.of_Z year in
  try_except Exception
    (emit (YtSearch (py "ytsearch:" ++ query)) ;;
     search_results <- lift (extract_info P (py "ytsearch:" ++ query)) ;;
     match search_results with
     | None | Some [] =>
       print (py "No results found for: " ++ query) ;;
       ret None
     | Some (entry :: _) =>
       match entry with
       | None => raise KeyError
       | Some video_title =>
         print (py "Found video title: " ++ video_title) ;;
         if Str.contains Str.PIPE video_title then
           let lesson_title := Str.strip (Str.first (Str.split Str.PIPE video_title)) in
           let lesson_title :=
             Str.strip_chars [Str.QUOTE]
               (Str.strip_chars [Str.RDQUOTE]
                  (Str.strip_chars [Str.LDQUOTE]
                     (Str.strip_chars [Str.DQUOTE] lesson_title))) in
           print (py "Extracted lesson title: " ++ lesson_title) ;;
           ret (Some lesson_title)
         else
           print (py "No '|' found in the title, using the full title.") ;;
           ret (Some (Str.strip video_title))
       end
     end)
    (fun e =>
       print_exn (py "An error occurred while fetching the lesson title: ") e ;;
       ret None).

Definition search_and_save_urls (lesson_number quarter year : Z) (url_file : pystr)
  : M unit :=
  ex <- os_path_exists url_file ;;
  (if ex then
     print (py "Deleting existing " ++ url_file ++ py "...") ;;
     os_remove url_file
   else ret tt) ;;
  lesson_title <- get_lesson_title lesson_number quarter year ;;
  if negb (Str.truthy lesson_title) then
    print (py "Failed to fetch a valid lesson title. Skipping search.")
  else
    let lesson_title := match lesson_title with Some t => t | None => [] end in
    for_each CHANNEL_IDS (fun '(channel_name, channel_data) =>
      let query := format (query_format channel_data)
                          lesson_number quarter year lesson_title in
      let channel_id := id channel_data in
      print (py "Searching " ++ channel_name ++ py " for: " ++ query) ;;
      video_url <- search_videos_on_youtube query channel_name channel_id ;;
      if Str.truthy video_url then
        let video_url := match video_url with Some u => u | None => [] end in
        print (py "Found video URL: " ++ video_url) ;;
        open_append url_file (video_url ++ [Str.LF])
      else ret tt).

(** [ydl.download([url])]: the provider saves an .m4a file or fails. *)
Definition ydl_download_call (url : pystr) : M unit :=
  emit (YdlDownload url) ;;
  stem <- lift (ydl_download P url) ;;
  open_write (stem ++ py ".m4a") [].

(** The body of the loop of [download_audio_from_urls] for one [url];
    [downloaded_urls] is the set read from the ledger before the loop. *)
Definition download_one (downloaded_file : pystr) (downloaded_urls : list pystr)
    (url : pystr) : M unit :=
  if negb (existsb (Str.eqb url) downloaded_urls) then
    try_except Exception
      (print (py "Downloading audio from: " ++ url) ;;
       ydl_download_call url ;;
       open_append downloaded_file (url ++ [Str.LF]))
      (fun e => print_exn (py "Error downloading " ++ url ++ py ": ") e)
  else
    print (py "Already downloaded: " ++ url).

Definition download_audio_from_urls (url_file downloaded_file : pystr) : M unit :=
  ex <- os_path_exists downloaded_file ;;
  (if negb ex then open_write downloaded_file [] else ret tt) ;;
  content <- open_read downloaded_file ;;
  let downloaded_urls := Str.splitlines content in
  content <- open_read url_file ;;
  let urls := Str.splitlines content in
  for_each urls (download_one downloaded_file downloaded_urls).

Definition delete_audio_files : M unit :=
  mp3 <- glob (py "*.mp3") ;;
  m4a <- glob (py "*.m4a") ;;
  let audio_files := mp3 ++ m4a in
  for_each audio_files (fun audio_file =>
    try_except OSError
      (os_remove audio_file ;;
       print (py "Deleted: " ++ audio_file))
      (fun e => print_exn (py "Error deleting " ++ audio_file ++ py ": ") e)) ;;
  for_each [py "downloaded.txt"; py "urls.txt"] (fun file_name =>
    ex <- os_path_exists file_name ;;
    if ex then
      try_except OSError
        (os_remove file_name ;;
         print (py "Deleted: " ++ file_name))
        (fun e => print_exn (py "Error deleting " ++ file_name ++ py ": ") e)
    else ret tt).

(** Whether the lesson of a file is strictly older than the current one. *)
Definition older (file_year file_quarter file_lesson_number
                  current_year current_quarter current_lesson_number : Z) : bool :=
  (file_year <? current_year)
  || ((file_year =? current_year) && (file_quarter <? current_quarter))
  || ((file_year =? current_year) && (file_quarter =? current_quarter)
      && (file_lesson_number <? current_lesson_number)).

(** The loop over [lesson_files], left by [break] after the purge. *)
Fixpoint compare_lesson_files (lesson_files : list pystr)
    (current_year current_quarter current_lesson_number : Z) : M unit :=
  match lesson_files with
  | [] => ret tt
  | file_name :: rest =>
    match Re.search (unicode_decimal P) file_name with
    | Some (g1, g2, g3) =>
      let file_year := Re.int (unicode_decimal P) g1 in
      let file_quarter := Re.int (unicode_decimal P) g2 in
      let file_lesson_number := Re.int (unicode_decimal P) g3 in
      if older file_year file_quarter file_lesson_number
               current_year current_quarter current_lesson_number
      then
        print (py "Current lesson is greater than " ++ file_name
               ++ py ". Deleting all .mp3, .m4a, 'downloaded.txt', and 'urls.txt' files.") ;;
        delete_audio_files
      else
        print (file_name ++ py " is up-to-date. Continuing execution.") ;;
        compare_lesson_files rest current_year current_quarter current_lesson_number
    | None =>
      print (py "File " ++ file_name ++ py " does not match the lesson pattern.") ;;
      compare_lesson_files rest current_year current_quarter current_lesson_number
    end
  end.

Definition compare_and_cleanup_lesson_files
    (current_year current_quarter current_lesson_number : Z) : M unit :=
  mp3 <- glob (py "*Lesson*.mp3") ;;
  m4a <- glob (py "*Lesson*.m4a") ;;
  let lesson_files := mp3 ++ m4a in
  match lesson_files with
  | [] => print (py "No previous lesson files found.")
  | _ =>
    compare_lesson_files lesson_files current_year current_quarter current_lesson_number
  end.

Definition download_file (url : pystr) : M unit :=
  let local_filename := Str.last (Str.split Str.SLASH url) in
  ex <- os_path_exists local_filename ;;
  if ex then
    print (py "File " ++ local_filename ++ py " already exists. Skipping download.")
  else
    try_except Exception
      (print (py "Downloading " ++ url) ;;
       emit (HttpGet url) ;;
       response <- lift (requests_get P url) ;;
       (if (400 <=? status_code response) && (status_code response <? 600)
        then raise (RequestsError HTTPError) else ret tt) ;;
       open_write local_filename [] ;;
       for_each (chunks response) (fun chunk =>
         match chunk with
         | [] => ret tt
         | _ => open_append local_filename chunk
         end) ;;
       match broken response with
       | Some e => raise e
       | None => print (py "Downloaded: " ++ local_filename)
       end)
      (fun e =>
         match e with
         | RequestsError Timeout => print (py "Request timed out: " ++ url)
         | RequestsError ConnectionError =>
           print (py "Connection error occurred for: " ++ url)
         | RequestsError HTTPError => print_exn (py "HTTP error occurred: ") e
         | _ => print_exn (py "Error downloading " ++ url ++ py ": ") e
         end).

(** The body of the loop of [download_daily_lesson_audio_files] for the
    day [i] of the week. *)
Definition probe_day (last_saturday : datetime) (i : Z) : M unit :=
  download_date <- lift (add_days last_saturday i) ;;
  let formatted_date := strftime_Ymd P download_date in
  let url := py "https://d7dlhz1yjc01y.cloudfront.net/audio/en/lessons/"
             ++ formatted_date ++ py ".mp3" in
  try_except RequestException
    (emit (HttpHead url) ;;
     match requests_head P url with
     | Raise e => raise e
     | Ok status =>
       if status =? 200 then
         ex <- os_path_exists (formatted_date ++ py ".mp3") ;;
         if negb ex then download_file url
         else print (py "File " ++ formatted_date
                     ++ py ".mp3 already exists. Skipping download.")
       else print (py "File not found for " ++ formatted_date ++ py ". Skipping.")
     end)
    (fun e => print_exn (py "Error checking availability for " ++ url ++ py ": ") e).

(** [today] is what [datetime.today()] returns. *)
Definition download_daily_lesson_audio_files (today : datetime) : M unit :=
  last_saturday <- lift (add_days today (- ((weekday today + 2) mod 7))) ;;
  for_each [0; 1; 2; 3; 4; 5; 6] (probe_day last_saturday).

(** The main block; [today] and [today'] are the two readings of the clock,
    the second one taken by the daily fetcher. *)
Definition main (today today' : datetime) : M unit :=
  '(current_quarter, current_lesson_number) <- lift (get_quarter_and_week today) ;;
  let current_year := year today in
  print (py "Current Year: " ++ Str.of_Z current_year ++ py ", Quarter: "
         ++ Str.of_Z current_quarter ++ py ", Lesson: "
         ++ Str.of_Z current_lesson_number) ;;
  compare_and_cleanup_lesson_files current_year current_quarter current_lesson_number ;;
  search_and_save_urls current_lesson_number current_quarter current_year (py "urls.txt") ;;
  download_audio_from_urls (py "urls.txt") (py "downloaded.txt") ;;
  download_daily_lesson_audio_files today'.

(** The whole script: the module level checks the API key, then the main
    block runs. *)
Definition script (YOUTUBE_API_KEY : option pystr) (today today' : datetime) : M unit :=
  if negb (Str.truthy YOUTUBE_API_KEY) then raise EnvironmentError
  else main today today'.

End Script.

(** ** Sample platforms, directories and titles

    Used to run the script on concrete inputs. *)

(** Nothing is found and every provider fails. *)
Definition silent_platform : platform :=
  mkplatform ascii_decimal Str.of_Z
    (fun _ => Ok None)
    (fun _ _ => Ok [])
    (fun _ => Raise OtherException)
    (fun _ => Ok 404)
    (fun _ => Raise (RequestsError ConnectionError)).

(** The title lookup answers with [video_title]; the search fails for the
    channels hopess (an HTTP error) and 3abn (no item) and finds a video for
    the other four; every download and every probe succeeds. *)
Definition sample_platform (video_title : pystr) : platform :=
  mkplatform ascii_decimal Str.of_Z
    (fun _ => Ok (Some [Some video_title]))
    (fun _ channel_id =>
       if Str.eqb channel_id (py "UCm34NbuHzE9t9hHutOxwIOA") then Raise HttpError
       else if Str.eqb channel_id (py "UCw_AthKfwqB3XYpboTFZFmg") then Ok []
       else Ok [Some (firstn 6 channel_id)])
    (fun url => Ok (py "audio of " ++ Str.last (Str.split 61 url)))
    (fun _ => Ok 200)
    (fun _ => Ok (mkresponse 200 [py "ID3"; []; py "data"] None)).

Definition empty_world : world := mkworld [] [].

Definition title_3abn : pystr :=
  py "Lesson 5 | Sabbath School Panel by 3ABN - Lesson 5 Q1 2025".

(** ['"Hello"' | 3ABN]: straight double quotes inside straight single ones. *)
Definition title_nested_quotes : pystr :=
  [Str.QUOTE; Str.DQUOTE] ++ py "Hello" ++ [Str.DQUOTE; Str.QUOTE] ++ py " | 3ABN".

(** The title extraction as the specification words it: the segment before
    the first pipe, or the whole title without a pipe, with the surrounding
    whitespace and then any of the four quote marks trimmed. *)
Definition spec_lesson_title (video_title : pystr) : pystr :=
  if Str.contains Str.PIPE video_title then
    Str.strip_chars [Str.QUOTE; Str.DQUOTE; Str.LDQUOTE; Str.RDQUOTE]
      (Str.strip (Str.first (Str.split Str.PIPE video_title)))
  else Str.strip video_title.

(** The query of the title lookup. *)
Definition title_query (lesson_number quarter year : Z) : pystr :=
  py "ytsearch:Sabbath School Panel by 3ABN - Lesson " ++ Str.of_Z lesson_number
  ++ py " Q" ++ Str.of_Z quarter ++ py " " ++ Str.of_Z year.

(** ** Reading a trace *)

Definition is_api_search (e : event) : bool :=
  match e with ApiSearch _ _ => true | _ => false end.

Definition is_download (e : event) : bool :=
  match e with YdlDownload _ => true | _ => false end.

Definition is_head (e : event) : bool :=
  match e with HttpHead _ => true | _ => false end.

(** The calls of one kind in a trace, in order. *)
Definition calls (kind : event -> bool) (evs : list event) : list event :=
  filter kind evs.

(** The URL that the search of a channel yields: the first item of the
    answer, when the provider answers and that item has a video id.  The
    channels with such a URL are the successful ones. *)
Definition found_url (P : platform) (query channel_id : pystr) : option pystr :=
  match youtube_search P query channel_id with
  | Ok (Some video_id :: _) => Some (py "https://www.youtube.com/watch?v=" ++ video_id)
  | _ => None
  end.

(** The query and the channel id of each configured channel, in
    configuration order. *)
Definition channel_queries (lesson_number quarter year : Z) (lesson_title : pystr)
  : list (pystr * pystr) :=
  map (fun entry => (format (query_format (snd entry))
                            lesson_number quarter year lesson_title,
                     id (snd entry)))
      CHANNEL_IDS.

(** The URLs found for a list of queries, in order. *)
Definition found_urls (P : platform) (queries : list (pystr * pystr)) : list pystr :=
  flat_map (fun qc => match found_url P (fst qc) (snd qc) with
                      | Some url => [url]
                      | None => []
                      end) queries.

(** A text file of the given lines, each ended by a line feed. *)
Definition text_of_lines (lines : list pystr) : pystr :=
  List.concat (map (fun l => l ++ [Str.LF]) lines).

(** A directory and, after it, the file [name] with the given lines when
    there is at least one. *)
Definition with_lines (base : Fs.dir) (name : pystr) (lines : list pystr) : Fs.dir :=
  base ++ match lines with
          | [] => []
          | _ => [(name, text_of_lines lines)]
          end.

(** ** Reading a cleanup *)

(** The (year, quarter, lesson number) that [compare_lesson_files] reads in a
    file name, if the lesson pattern is found in it. *)
Definition parsed_lesson (P : platform) (file_name : pystr) : option (Z * Z * Z) :=
  match Re.search (unicode_decimal P) file_name with
  | Some (g1, g2, g3) =>
    Some (Re.int (unicode_decimal P) g1,
          Re.int (unicode_decimal P) g2,
          Re.int (unicode_decimal P) g3)
  | None => None
  end.

(** The strict lexicographic order on triples. *)
Definition lex_lt (a b : Z * Z * Z) : Prop :=
  let '(a1, a2, a3) := a in
  let '(b1, b2, b3) := b in
  a1 < b1 \/ (a1 = b1 /\ (a2 < b2 \/ (a2 = b2 /\ a3 < b3))).

(** A file is stale when its name holds a lesson older than the current one. *)
Definition stale (P : platform) (current_year current_quarter current_lesson_number : Z)
    (file_name : pystr) : bool :=
  match parsed_lesson P file_name with
  | Some (file_year, file_quarter, file_lesson_number) =>
    older file_year file_quarter file_lesson_number
          current_year current_quarter current_lesson_number
  | None => false
  end.

(** The files that the cleanup scans, and those that the purge lists. *)
Definition lesson_files (fs : Fs.dir) : list pystr :=
  glob_names (py "*Lesson*.mp3") fs ++ glob_names (py "*Lesson*.m4a") fs.

Definition audio_files (fs : Fs.dir) : list pystr :=
  glob_names (py "*.mp3") fs ++ glob_names (py "*.m4a") fs.

(** The names that a purge removes: the audio files that are not hidden and
    the two state files. *)
Definition purged_name (name : pystr) : bool :=
  (negb (Str.ishidden name)
   && (Str.fnmatch (py "*.mp3") name || Str.fnmatch (py "*.m4a") name))
  || Str.eqb name (py "downloaded.txt") || Str.eqb name (py "urls.txt").

Definition purge (fs : Fs.dir) : Fs.dir :=
  filter (fun e => negb (purged_name (fst e))) fs.

(** What is printed for a file that is compared and kept. *)
Definition compared_message (P : platform) (file_name : pystr) : event :=
  match parsed_lesson P file_name with
  | Some _ => Print (file_name ++ py " is up-to-date. Continuing execution.")
  | None => Print (py "File " ++ file_name ++ py " does not match the lesson pattern.")
  end.

Definition stale_message (file_name : pystr) : event :=
  Print (py "Current lesson is greater than " ++ file_name
         ++ py ". Deleting all .mp3, .m4a, 'downloaded.txt', and 'urls.txt' files.").

Definition deleted_message (file_name : pystr) : event :=
  Print (py "Deleted: " ++ file_name).

(** A stale lesson file, and a hidden one beside it. *)
Definition stale_directory : Fs.dir :=
  [ (py "2024 Q4 Lesson 1.mp3", py "ID3");
    (py ".2024 Q4 Lesson 2.mp3", py "ID3");
    (py "2025 Q1 Lesson 7.m4a", []);
    (py "notes.txt", py "keep");
    (py "urls.txt", py "https://www.youtube.com/watch?v=UCtWyo" ++ [Str.LF]) ].

(** ** Reading a ledger *)

(** A line: no character at which [splitlines] would cut. *)
Definition is_line (l : pystr) : bool := forallb (fun c => negb (Str.is_linebreak c)) l.

(** The lines of a text file as the script reads them. *)
Definition read_lines (content : pystr) : list pystr :=
  Str.splitlines (Str.universal_newlines content).

(** The ledger holds exactly the given lines, each ended by a line feed; no
    ledger is a ledger without lines. *)
Definition ledger_of (fs : Fs.dir) (lines : list pystr) : Prop :=
  forallb is_line lines = true
  /\ match Fs.lookup (py "downloaded.txt") fs with
     | Some content => content = text_of_lines lines
     | None => lines = []
     end.

Definition already_message (url : pystr) : event :=
  Print (py "Already downloaded: " ++ url).

(** A URL store with one URL and a ledger whose last line has no line feed. *)
Definition unterminated_ledger : Fs.dir :=
  [ (py "urls.txt", py "https://www.youtube.com/watch?v=UCtWyo" ++ [Str.LF]);
    (py "downloaded.txt", py "https://www.youtube.com/watch?v=UCvJRu") ].

(** The same store with the ledger as the script writes it. *)
Definition terminated_ledger : Fs.dir :=
  [ (py "urls.txt",
     text_of_lines [py "https://www.youtube.com/watch?v=UCtWyo";
                    py "https://www.youtube.com/watch?v=UCvJRu"]);
    (py "downloaded.txt", text_of_lines [py "https://www.youtube.com/watch?v=UCvJRu"]) ].

(** ** Reading a daily fetch *)

(** A computation is quiet for a kind of event when it adds no event of
    that kind to the trace. *)
Definition quiet {A} (kind : event -> bool) (m : M A) : Prop :=
  forall w, exists evs, trace (snd (m w)) = trace w ++ evs /\ calls kind evs = [].

(** The decimal digit of the units of [n]. *)
Definition digit (n : Z) : char := Z.to_N (48 + n mod 10).

(** The ISO 8601 date YYYY-MM-DD, digit by digit. *)
Definition iso_date (d : datetime) : pystr :=
  [ digit (year d / 1000); digit (year d / 100); digit (year d / 10); digit (year d);
    45%N;
    digit (month d / 10); digit (month d);
    45%N;
    digit (day d / 10); digit (day d) ].

(** The URL of the daily audio file of a date. *)
Definition daily_url (d : datetime) : pystr :=
  py "https://d7dlhz1yjc01y.cloudfront.net/audio/en/lessons/" ++ iso_date d ++ py ".mp3".

(** The zero-padded decimal of [n] on four and on two digits agrees with the
    digits taken one by one. *)
Definition zfill4_ok (n : Z) : bool :=
  Str.eqb (Str.zfill 4 n) [digit (n / 1000); digit (n / 100); digit (n / 10); digit n].

Definition zfill2_ok (n : Z) : bool :=
  Str.eqb (Str.zfill 2 n) [digit (n / 10); digit n].

(** ** Reading the calls of a plain download *)

Definition is_get (e : event) : bool :=
  match e with HttpGet _ => true | _ => false end.

(** What [download_file url] may add to the trace: printed lines and the
    GET of [url]; every other event is foreign to it. *)
Definition foreign_to_download (url : pystr) (e : event) : bool :=
  match e with
  | Print _ | PrintExn _ _ => false
  | HttpGet u => negb (Str.eqb u url)
  | _ => true
  end.

(** The probe of a URL answers 200. *)
Definition head_ok (P : platform) (url : pystr) : bool :=
  match requests_head P url with
  | Ok status => status =? 200
  | Raise _ => false
  end.

(** A GET of a URL whose probe does not answer 200. *)
Definition unprobed_get (P : platform) (e : event) : bool :=
  match e with
  | HttpGet url => negb (head_ok P url)
  | _ => false
  end.

(** The download provider completes for a URL. *)
Definition download_succeeds (P : platform) (url : pystr) : bool :=
  match ydl_download P url with
  | Ok _ => true
  | Raise _ => false
  end.

(** A platform whose plain-file download breaks after two chunks. *)
Definition broken_stream_platform : platform :=
  mkplatform ascii_decimal Str.of_Z
    (fun _ => Ok None)
    (fun _ _ => Ok [])
    (fun _ => Raise OtherException)
    (fun _ => Ok 200)
    (fun _ => Ok (mkresponse 200 [py "ID3"; py "da"] (Some (RequestsError ConnectionError)))).

(** ** Reading a run of the main block *)

(** The probe keeps to the exceptions of Requests, which all derive from
    [RequestException]: the network errors that the loop of the daily
    fetcher handles. *)
Definition probe_contained (P : platform) : Prop :=
  forall url e, requests_head P url = Raise e -> RequestException e = true.

(** The title lookup gave a title and at least one channel has a video for
    it. *)
Definition finds_a_url (P : platform) (lesson_number quarter year : Z)
    (lesson_title : option pystr) : bool :=
  match lesson_title with
  | Some (c :: t) =>
    match found_urls P (channel_queries lesson_number quarter year (c :: t)) with
    | [] => false
    | _ :: _ => true
    end
  | _ => false
  end.
(* ================================================================== *)
(** * Part II: properties                                              *)
(* ================================================================== *)

(** ** Calendar arithmetic *)

Lemma yday_ok_all (leap : bool) :
  forallb (fun k => yday_ok leap (Z.of_nat k)) (seq 0 365) = true.
Proof. destruct leap; vm_compute; reflexivity. Qed.

Lemma yday2md_spec (leap : bool) (n : Z) :
  0 <= n < 365 -> yday_ok leap n = true.
Proof.
  intros Hn.
  pose proof (yday_ok_all leap) as H.
  rewrite forallb_forall in H.
  specialize (H (Z.to_nat n)).
  rewrite Z2Nat.id in H by lia.
  apply H. apply in_seq. lia.
Qed.

(** The year part of [ord2ymd]: with the quotients taken in turn, the days
    before the year found are what is left of the ordinal. *)
Lemma year_split (a b c e r : Z) :
  0 <= a -> 0 <= b <= 3 -> 0 <= c <= 24 -> 0 <= e <= 3 -> 0 <= r < 365 ->
  let y := a * 400 + 1 + (b * 100 + c * 4 + e) in
  days_before_year y = 146097 * a + 36524 * b + 1461 * c + 365 * e
  /\ is_leap y = (e =? 3) && (negb (c =? 24) || (b =? 3)).
Proof.
  intros Ha Hb Hc He Hr y. subst y. unfold days_before_year, is_leap.
  split.
  - cbv zeta. Z.div_mod_to_equations. lia.
  - destruct (Z.eqb_spec e 3), (Z.eqb_spec c 24), (Z.eqb_spec b 3); cbn [negb andb orb];
    repeat match goal with
    | |- context [?x =? 0] => destruct (Z.eqb_spec x 0)
    end; cbn [negb andb orb]; try reflexivity; exfalso;
    Z.div_mod_to_equations; lia.
Qed.

Ltac dec31 :=
  change (12 =? 2) with false; change (2 <? 12) with true;
  change (tbl DAYS_IN_MONTH 12) with 31;
  change (tbl DAYS_BEFORE_MONTH 12) with 334;
  cbn [andb]; unfold MINYEAR, MAXYEAR;
  split; [rewrite !andb_true_iff, !Z.leb_le; lia | lia].

Lemma ord2ymd_spec (n : Z) :
  1 <= n <= MAXORDINAL ->
  let '(y, m, d) := ord2ymd n in
  valid_date y m d = true /\ ymd2ord y m d = n.
Proof.
  unfold MAXORDINAL. intros Hn. unfold ord2ymd, DI400Y, DI100Y, DI4Y.
  cbv zeta.
  set (n0 := n - 1).
  assert (Hn0 : 0 <= n0 < 3652059) by (subst n0; lia).
  assert (Hnn : n = n0 + 1) by (subst n0; lia).
  pose proof (Z.div_mod n0 146097 ltac:(lia)) as E1.
  pose proof (Z.mod_pos_bound n0 146097 ltac:(lia)) as B1.
  set (a := n0 / 146097) in *. set (r1 := n0 mod 146097) in *.
  pose proof (Z.div_mod r1 36524 ltac:(lia)) as E2.
  pose proof (Z.mod_pos_bound r1 36524 ltac:(lia)) as B2.
  set (b := r1 / 36524) in *. set (r2 := r1 mod 36524) in *.
  pose proof (Z.div_mod r2 1461 ltac:(lia)) as E3.
  pose proof (Z.mod_pos_bound r2 1461 ltac:(lia)) as B3.
  set (c := r2 / 1461) in *. set (r3 := r2 mod 1461) in *.
  pose proof (Z.div_mod r3 365 ltac:(lia)) as E4.
  pose proof (Z.mod_pos_bound r3 365 ltac:(lia)) as B4.
  set (e := r3 / 365) in *. set (r := r3 mod 365) in *.
  assert (Ha : 0 <= a <= 24) by lia.
  assert (Hb : 0 <= b <= 4) by lia.
  assert (Hc : 0 <= c <= 24) by lia.
  assert (He : 0 <= e <= 4) by lia.
  clearbody a r1 b r2 c r3 e r n0.
  destruct (Z.eqb_spec e 4) as [He4|He4]; [|destruct (Z.eqb_spec b 4) as [Hb4|Hb4]];
    cbn [orb].
  - (* the last day of a leap year that ends a four-year cycle *)
    assert (r = 0) by lia. assert (c <= 23) by lia. assert (b <= 3) by lia.
    replace (a * 400 + 1 + (b * 100 + c * 4 + e) - 1)
      with (a * 400 + 1 + (b * 100 + c * 4 + 3)) by lia.
    destruct (year_split a b c 3 0) as [Hd Hl]; try lia.
    cbv zeta in Hd, Hl.
    replace ((3 =? 3) && (negb (c =? 24) || (b =? 3))) with true in Hl
      by (destruct (Z.eqb_spec c 24); [lia | reflexivity]).
    unfold valid_date, ymd2ord, days_in_month, days_before_month.
    rewrite Hd, Hl. dec31.
  - (* the last day of a year that ends a four-hundred-year cycle *)
    assert (c = 0 /\ e = 0 /\ r = 0) as (-> & -> & ->) by lia. subst b.
    replace (a * 400 + 1 + (4 * 100 + 0 * 4 + 0) - 1)
      with (a * 400 + 1 + (3 * 100 + 24 * 4 + 3)) by lia.
    destruct (year_split a 3 24 3 0) as [Hd Hl]; try lia.
    cbv zeta in Hd, Hl.
    change ((3 =? 3) && (negb (24 =? 24) || (3 =? 3))) with true in Hl.
    unfold valid_date, ymd2ord, days_in_month, days_before_month.
    rewrite Hd, Hl. dec31.
  - destruct (year_split a b c e r) as [Hd Hl]; try lia.
    cbv zeta in Hd, Hl.
    set (leap := (e =? 3) && (negb (c =? 24) || (b =? 3))) in *.
    pose proof (yday2md_spec leap r B4) as Hy. unfold yday_ok in Hy.
    destruct (yday2md leap r) as [m d].
    rewrite !andb_true_iff in Hy. destruct Hy as ((((H1 & H2) & H3) & H4) & H5).
    unfold valid_date, ymd2ord, days_in_month, days_before_month.
    rewrite Hd, Hl. unfold MINYEAR, MAXYEAR. split; [|lia].
    rewrite H1, H2, H3, H4. rewrite !andb_true_iff, !Z.leb_le. lia.
Qed.

(** Evaluate the table look-ups and comparisons whose arguments are numerals. *)
Ltac calc_closed :=
  repeat match goal with
  | |- context [tbl ?t (Zpos ?p)] =>
      let v := eval vm_compute in (tbl t (Zpos p)) in change (tbl t (Zpos p)) with v
  | |- context [Zpos ?p =? Zpos ?q] =>
      let v := eval vm_compute in (Zpos p =? Zpos q) in change (Zpos p =? Zpos q) with v
  | |- context [Zpos ?p <? Zpos ?q] =>
      let v := eval vm_compute in (Zpos p <? Zpos q) in change (Zpos p <? Zpos q) with v
  | |- context [Zpos ?p <=? Zpos ?q] =>
      let v := eval vm_compute in (Zpos p <=? Zpos q) in change (Zpos p <=? Zpos q) with v
  end; cbn [andb orb negb].

Lemma valid_date_bounds (y m d : Z) :
  valid_date y m d = true ->
  1 <= y <= 9999 /\ 1 <= m <= 12 /\ 1 <= d <= days_in_month y m.
Proof.
  unfold valid_date, MINYEAR, MAXYEAR. rewrite !andb_true_iff, !Z.leb_le. lia.
Qed.

Lemma month_cases (m : Z) :
  1 <= m <= 12 ->
  m = 1 \/ m = 2 \/ m = 3 \/ m = 4 \/ m = 5 \/ m = 6 \/
  m = 7 \/ m = 8 \/ m = 9 \/ m = 10 \/ m = 11 \/ m = 12.
Proof. lia. Qed.

(** A date lies 0 to 91 days after the first day of its quarter. *)
Lemma quarter_offset (y m d qsm : Z) :
  valid_date y m d = true ->
  (qsm = 1 \/ qsm = 4 \/ qsm = 7 \/ qsm = 10) -> qsm <= m <= qsm + 2 ->
  0 <= ymd2ord y m d - ymd2ord y qsm 1 <= 91.
Proof.
  intros Hv Hq Hm. apply valid_date_bounds in Hv. destruct Hv as (_ & Hm12 & Hd).
  revert Hd. unfold ymd2ord, days_before_month, days_in_month.
  destruct (month_cases m Hm12) as [?|[?|[?|[?|[?|[?|[?|[?|[?|[?|[?|?]]]]]]]]]]];
    subst m;
    first [ assert (qsm = 1) by lia | assert (qsm = 4) by lia
          | assert (qsm = 7) by lia | assert (qsm = 10) by lia ];
    subst qsm; calc_closed; destruct (is_leap y); calc_closed; lia.
Qed.

Lemma quarter_start_ordinal_bounds (y qsm : Z) :
  1 <= y <= 9999 -> (qsm = 1 \/ qsm = 4 \/ qsm = 7 \/ qsm = 10) ->
  valid_date y qsm 1 = true
  /\ 1 <= ymd2ord y qsm 1 <= MAXORDINAL
  /\ (2 <= y \/ 4 <= qsm -> 91 <= ymd2ord y qsm 1).
Proof.
  intros Hy Hq.
  unfold valid_date, ymd2ord, days_before_month, days_in_month, days_before_year,
    MINYEAR, MAXYEAR, MAXORDINAL.
  destruct Hq as [?|[?|[?|?]]]; subst qsm; calc_closed;
    (split; [rewrite !andb_true_iff, !Z.leb_le; lia|]);
    destruct (is_leap y); cbv zeta; Z.div_mod_to_equations; lia.
Qed.

(** Moving an ordinal back to the Saturday on or before it. *)
Lemma saturday_before (n : Z) :
  let off := (weekday_of_ordinal n - 5) mod 7 in
  weekday_of_ordinal (n - off) = 5 /\ 0 <= off <= 6.
Proof.
  unfold weekday_of_ordinal. cbv zeta. Z.div_mod_to_equations. lia.
Qed.

(** The days of a difference of datetimes, when the right one is at midnight. *)
Lemma sub_days_midnight (a b : datetime) :
  valid_datetime a = true ->
  hour b = 0 -> minute b = 0 -> second b = 0 -> microsecond b = 0 ->
  days (sub a b) = toordinal a - toordinal b.
Proof.
  unfold valid_datetime, valid_time, sub, timedelta_new, day_seconds.
  rewrite !andb_true_iff, !Z.leb_le, !Z.ltb_lt.
  intros (_ & H) -> -> -> ->. cbn [days].
  Z.div_mod_to_equations. lia.
Qed.

(** ** The period calculator *)

(** What [get_quarter_and_week] computes, in ordinals: the quarter start is
    moved back to its Saturday, and the call fails exactly when that Saturday
    lies before the first representable day. *)
Lemma get_quarter_and_week_eq (date : datetime) :
  valid_datetime date = true ->
  let q := (month date + 2) / 3 in
  let qs := ymd2ord (year date) (3 * q - 2) 1 in
  let ws := qs - (weekday_of_ordinal qs - 5) mod 7 in
  get_quarter_and_week date =
    if 0 <? ws then Ok (q, (toordinal date - ws) / 7 + 1) else Raise OverflowError.
Proof.
  intros Hv. pose proof Hv as Hv'.
  unfold valid_datetime in Hv'. apply andb_true_iff in Hv'. destruct Hv' as [Hd _].
  pose proof (valid_date_bounds _ _ _ Hd) as (Hy & Hm & _).
  cbv zeta. unfold get_quarter_and_week.
  set (m := month date) in *. set (y := year date) in *.
  assert (Hq : exists qsm q,
     (if (1 <=? m) && (m <=? 3) then (1, 1)
      else if (4 <=? m) && (m <=? 6) then (4, 2)
      else if (7 <=? m) && (m <=? 9) then (7, 3) else (10, 4)) = (qsm, q)
     /\ (m + 2) / 3 = q /\ qsm = 3 * q - 2
     /\ (qsm = 1 \/ qsm = 4 \/ qsm = 7 \/ qsm = 10)).
  { destruct (Z.leb_spec 1 m), (Z.leb_spec m 3); cbn [andb]; try lia;
      [ exists 1, 1; repeat split; try lia; Z.div_mod_to_equations; lia |].
    destruct (Z.leb_spec 4 m), (Z.leb_spec m 6); cbn [andb]; try lia;
      [ exists 4, 2; repeat split; try lia; Z.div_mod_to_equations; lia |].
    destruct (Z.leb_spec 7 m), (Z.leb_spec m 9); cbn [andb]; try lia;
      [ exists 7, 3; repeat split; try lia; Z.div_mod_to_equations; lia |].
    exists 10, 4; repeat split; try lia; Z.div_mod_to_equations; lia. }
  destruct Hq as (qsm & q & -> & -> & Hqsm & Hband). rewrite <- Hqsm.
  destruct (quarter_start_ordinal_bounds y qsm Hy Hband) as (Hvq & Hqs & _).
  unfold datetime_new. rewrite Hvq.
  set (qstart := mkdatetime y qsm 1 0 0 0 0).
  change (weekday qstart) with (weekday_of_ordinal (ymd2ord y qsm 1)).
  unfold add_days. change (toordinal qstart) with (ymd2ord y qsm 1).
  change (hour qstart) with 0. change (minute qstart) with 0.
  change (second qstart) with 0. change (microsecond qstart) with 0.
  set (qs := ymd2ord y qsm 1) in *.
  pose proof (saturday_before qs) as Hsat. cbv zeta in Hsat.
  set (off := (weekday_of_ordinal qs - 5) mod 7) in *.
  replace (qs + - off) with (qs - off) by lia.
  destruct (Z.ltb_spec 0 (qs - off)) as [Hpos|Hneg]; cbn [andb]; [|reflexivity].
  replace (qs - off <=? MAXORDINAL) with true by (symmetry; apply Z.leb_le; lia).
  pose proof (ord2ymd_spec (qs - off) ltac:(lia)) as Hord.
  destruct (ord2ymd (qs - off)) as [[y' m'] d']. destruct Hord as [_ Hord].
  rewrite sub_days_midnight by (try reflexivity; exact Hv).
  unfold toordinal at 2. cbn [year month day]. rewrite Hord. reflexivity.
Qed.

Lemma quarter_of_month_facts (m : Z) :
  1 <= m <= 12 ->
  let q := (m + 2) / 3 in
  let qsm := 3 * q - 2 in
  (qsm = 1 \/ qsm = 4 \/ qsm = 7 \/ qsm = 10) /\ qsm <= m <= qsm + 2 /\ 1 <= q <= 4.
Proof. intros Hm. cbv zeta. Z.div_mod_to_equations. lia. Qed.

(** The facts behind both period theorems, for a date whose call returns. *)
Lemma get_quarter_and_week_facts (date : datetime) :
  valid_datetime date = true ->
  let q := (month date + 2) / 3 in
  let qs := ymd2ord (year date) (3 * q - 2) 1 in
  let ws := qs - (weekday_of_ordinal qs - 5) mod 7 in
  1 <= q <= 4
  /\ (3 * q - 2 <= month date <= 3 * q)
  /\ valid_date (year date) (3 * q - 2) 1 = true
  /\ weekday_of_ordinal ws = 5
  /\ ws <= qs < ws + 7
  /\ 0 <= toordinal date - qs <= 91
  /\ qs <= MAXORDINAL
  /\ (2 <= year date \/ 4 <= month date -> 1 <= ws)
  /\ (ws <= 0 -> year date = 1 /\ month date <= 3).
Proof.
  intros Hv. unfold valid_datetime in Hv. apply andb_true_iff in Hv.
  destruct Hv as [Hd _].
  pose proof (valid_date_bounds _ _ _ Hd) as (Hy & Hm & _).
  pose proof (quarter_of_month_facts _ Hm) as (Hband & Hin & Hq). cbv zeta in *.
  set (q := (month date + 2) / 3) in *.
  destruct (quarter_start_ordinal_bounds (year date) (3 * q - 2) Hy Hband)
    as (Hvq & Hqs & Hlate).
  pose proof (quarter_offset _ _ _ (3 * q - 2) Hd Hband Hin) as Hoff.
  set (qs := ymd2ord (year date) (3 * q - 2) 1) in *.
  pose proof (saturday_before qs) as [Hsat Hrange]. cbv zeta in Hsat, Hrange.
  set (off := (weekday_of_ordinal qs - 5) mod 7) in *.
  unfold toordinal. repeat split; try lia; try assumption.
  all: destruct (Z.le_gt_cases 2 (year date)), (Z.le_gt_cases 4 (month date));
    try lia; assert (91 <= qs) by (apply Hlate; lia); lia.
Qed.

(** C1 (amended): for every valid datetime from 0001-04-01 on,
    [get_quarter_and_week] returns the quarter of the month band
    ([1-3] -> 1, [4-6] -> 2, [7-9] -> 3, [10-12] -> 4) and the week
    [floor((date - weekStart) / 7) + 1 >= 1], where [weekStart] is the
    Saturday on or before the first day of the quarter's first month (that
    day itself if it is a Saturday); and 2025-02-03 gives quarter 1, week 6.
    (For the first quarter of year 1 that Saturday is not representable and
    the call raises OverflowError.) *)
Theorem get_quarter_and_week_spec :
  (forall date : datetime,
      valid_datetime date = true ->
      2 <= year date \/ 4 <= month date ->
      exists quarter week quarter_start week_start,
        get_quarter_and_week date = Ok (quarter, week)
        /\ ((1 <= month date <= 3 /\ quarter = 1)
            \/ (4 <= month date <= 6 /\ quarter = 2)
            \/ (7 <= month date <= 9 /\ quarter = 3)
            \/ (10 <= month date <= 12 /\ quarter = 4))
        /\ datetime_new (year date) (3 * quarter - 2) 1 = Ok quarter_start
        /\ valid_datetime week_start = true
        /\ weekday week_start = 5
        /\ toordinal week_start <= toordinal quarter_start < toordinal week_start + 7
        /\ week = (toordinal date - toordinal week_start) / 7 + 1
        /\ 1 <= week)
  /\ (forall h mi s us,
         valid_time h mi s us = true ->
         get_quarter_and_week (mkdatetime 2025 2 3 h mi s us) = Ok (1, 6)).
Proof.
  split.
  - intros date Hv Hlate.
    pose proof (get_quarter_and_week_eq date Hv) as Heq.
    pose proof (get_quarter_and_week_facts date Hv)
      as (Hq & Hin & Hvq & Hsat & Hws & Hoff & Hmax & Hpos & _).
    cbv zeta in *.
    set (q := (month date + 2) / 3) in *.
    set (qs := ymd2ord (year date) (3 * q - 2) 1) in *.
    set (ws := qs - (weekday_of_ordinal qs - 5) mod 7) in *.
    specialize (Hpos Hlate).
    replace (0 <? ws) with true in Heq by (symmetry; apply Z.ltb_lt; lia).
    pose proof (ord2ymd_spec ws ltac:(lia)) as Hord.
    destruct (ord2ymd ws) as [[y' m'] d'] eqn:E. destruct Hord as [Hvw Hord].
    exists q, ((toordinal date - ws) / 7 + 1),
      (mkdatetime (year date) (3 * q - 2) 1 0 0 0 0), (mkdatetime y' m' d' 0 0 0 0).
    unfold datetime_new, valid_datetime, weekday, toordinal in *.
    cbn [year month day hour minute second microsecond].
    rewrite Hvq, Hvw, Hord. fold qs.
    repeat split; try assumption; try lia.
    Z.div_mod_to_equations; lia.
  - intros h mi s us Ht.
    rewrite get_quarter_and_week_eq
      by (unfold valid_datetime; cbn [year month day hour minute second microsecond];
          rewrite Ht; reflexivity).
    reflexivity.
Qed.

Lemma get_quarter_and_week_spec_witness :
  exists quarter week quarter_start week_start,
    get_quarter_and_week (mkdatetime 2025 11 4 9 30 15 250) = Ok (quarter, week)
    /\ ((1 <= 11 <= 3 /\ quarter = 1) \/ (4 <= 11 <= 6 /\ quarter = 2)
        \/ (7 <= 11 <= 9 /\ quarter = 3) \/ (10 <= 11 <= 12 /\ quarter = 4))
    /\ datetime_new 2025 (3 * quarter - 2) 1 = Ok quarter_start
    /\ valid_datetime week_start = true
    /\ weekday week_start = 5
    /\ toordinal week_start <= toordinal quarter_start < toordinal week_start + 7
    /\ week = (ymd2ord 2025 11 4 - toordinal week_start) / 7 + 1
    /\ 1 <= week.
Proof.
  apply (proj1 get_quarter_and_week_spec (mkdatetime 2025 11 4 9 30 15 250)).
  - reflexivity.
  - cbn. lia.
Defined.

(** C1 (as stated) fails on the first day of year 1: its quarter starts on a
    Monday, the Saturday before is not a representable date, and the call
    raises instead of returning a period. *)
Lemma get_quarter_and_week_year_one :
  valid_datetime (mkdatetime 1 1 1 0 0 0 0) = true
  /\ get_quarter_and_week (mkdatetime 1 1 1 0 0 0 0) = Raise OverflowError.
Proof. split; reflexivity. Qed.

(** C10: for every valid datetime, the week of quarter that
    [get_quarter_and_week] returns is at most 14 (and at least 1); the call
    returns unless the date is in the first quarter of year 1. *)
Theorem week_of_quarter_at_most_14 (date : datetime) :
  valid_datetime date = true ->
  match get_quarter_and_week date with
  | Ok (_, week) => 1 <= week <= 14
  | Raise e => e = OverflowError /\ year date = 1 /\ month date <= 3
  end.
Proof.
  intros Hv.
  rewrite (get_quarter_and_week_eq date Hv).
  pose proof (get_quarter_and_week_facts date Hv)
    as (Hq & Hin & Hvq & Hsat & Hws & Hoff & Hmax & _ & Hneg).
  cbv zeta in *.
  set (q := (month date + 2) / 3) in *.
  set (qs := ymd2ord (year date) (3 * q - 2) 1) in *.
  set (ws := qs - (weekday_of_ordinal qs - 5) mod 7) in *.
  destruct (Z.ltb_spec 0 ws).
  - Z.div_mod_to_equations; lia.
  - split; [reflexivity | apply Hneg; lia].
Qed.

Lemma week_of_quarter_at_most_14_witness :
  match get_quarter_and_week (mkdatetime 2025 12 31 23 59 59 999999) with
  | Ok (_, week) => 1 <= week <= 14
  | Raise e => e = OverflowError /\ 2025 = 1 /\ 12 <= 3
  end.
Proof.
  apply (week_of_quarter_at_most_14 (mkdatetime 2025 12 31 23 59 59 999999)).
  reflexivity.
Defined.

(** ** Strings *)

Lemma str_eqb_eq (a b : pystr) : Str.eqb a b = true <-> a = b.
Proof.
  revert b. induction a as [|x a IH]; intros [|y b]; cbn; split;
    try discriminate; try reflexivity.
  - rewrite andb_true_iff. intros [Hx Hab]. apply N.eqb_eq in Hx.
    apply IH in Hab. congruence.
  - intros [= -> ->]. rewrite andb_true_iff. split.
    + apply N.eqb_refl.
    + apply IH. reflexivity.
Qed.

Lemma str_eqb_refl (a : pystr) : Str.eqb a a = true.
Proof. apply str_eqb_eq. reflexivity. Qed.

Lemma str_eqb_neq (a b : pystr) : Str.eqb a b = false <-> a <> b.
Proof.
  rewrite <- str_eqb_eq. destruct (Str.eqb a b); split; congruence.
Qed.

Lemma contains_false (c : char) (s : pystr) :
  Str.contains c s = false <-> ~ In c s.
Proof.
  unfold Str.contains. induction s as [|x s IH]; cbn.
  - tauto.
  - rewrite orb_false_iff, IH. unfold Str.char_eqb. rewrite N.eqb_neq.
    split; [intros [H1 H2] [H|H]; congruence | intros H; split; intro; apply H; auto ].
Qed.

(** Splitting at a separator: the first segment ends at the first separator,
    the last one starts after the last. *)
Lemma split_nonempty (sep : char) (s : pystr) : Str.split sep s <> [].
Proof.
  induction s as [|c s IH]; cbn; [discriminate|].
  destruct (Str.char_eqb c sep); [discriminate|].
  destruct (Str.split sep s); [congruence | discriminate].
Qed.

Lemma split_no_sep (sep : char) (s : pystr) :
  ~ In sep s -> Str.split sep s = [s].
Proof.
  induction s as [|c s IH]; cbn; intros H; [reflexivity|].
  destruct (N.eqb_spec c sep) as [->|Hc]; unfold Str.char_eqb.
  - exfalso. apply H. now left.
  - apply N.eqb_neq in Hc. rewrite Hc. rewrite IH; [reflexivity|].
    intros Hin. apply H. now right.
Qed.

Lemma split_first (sep : char) (seg rest : pystr) :
  ~ In sep seg -> Str.first (Str.split sep (seg ++ sep :: rest)) = seg.
Proof.
  induction seg as [|c seg IH]; cbn; intros H.
  - unfold Str.char_eqb. rewrite N.eqb_refl. reflexivity.
  - destruct (N.eqb_spec c sep) as [->|Hc]; unfold Str.char_eqb.
    + exfalso. apply H. now left.
    + apply N.eqb_neq in Hc. rewrite Hc.
      assert (Hseg : ~ In sep seg) by (intros Hin; apply H; now right).
      specialize (IH Hseg). unfold Str.first in IH.
      destruct (Str.split sep (seg ++ sep :: rest)) eqn:E.
      * exfalso. exact (split_nonempty _ _ E).
      * cbn in *. congruence.
Qed.

Lemma split_last_app (sep : char) (prefix name : pystr) :
  ~ In sep name -> Str.last (Str.split sep (prefix ++ sep :: name)) = name.
Proof.
  intros Hname. induction prefix as [|c prefix IH]; cbn.
  - unfold Str.char_eqb. rewrite N.eqb_refl. rewrite split_no_sep by assumption.
    reflexivity.
  - unfold Str.last in *.
    destruct (Str.char_eqb c sep).
    + destruct (Str.split sep (prefix ++ sep :: name)) eqn:E.
      * exfalso. exact (split_nonempty _ _ E).
      * exact IH.
    + destruct (Str.split sep (prefix ++ sep :: name)) as [|seg [|seg' more]] eqn:E.
      * exfalso. exact (split_nonempty _ _ E).
      * cbn in IH. subst seg.
        (* one segment only: impossible, the separator is in the string *)
        exfalso. clear -E Hname.
        assert (Hlen : forall s, (1 < List.length (Str.split sep (s ++ sep :: name)))%nat).
        { induction s as [|d s IHs]; cbn.
          - unfold Str.char_eqb. rewrite N.eqb_refl. cbn.
            pose proof (split_nonempty sep name).
            destruct (Str.split sep name); [congruence | cbn; lia].
          - destruct (Str.char_eqb d sep); cbn.
            + pose proof (split_nonempty sep (s ++ sep :: name)).
              destruct (Str.split sep (s ++ sep :: name)); [congruence | cbn; lia].
            + destruct (Str.split sep (s ++ sep :: name)); cbn in *; lia. }
        specialize (Hlen prefix). rewrite E in Hlen. cbn in Hlen. lia.
      * exact IH.
Qed.

Lemma split_last_whole (sep : char) (name : pystr) :
  ~ In sep name -> Str.last (Str.split sep name) = name.
Proof. intros H. rewrite split_no_sep by assumption. reflexivity. Qed.

(** ** The plain-file downloader *)

(** C9: for every URL, if a local file named as the last path segment of the
    URL exists, [download_file] returns after printing one line: it issues
    no network request and leaves every file, that one included, as it
    was. *)
Theorem download_file_keeps_existing (P : platform) (prefix name url : pystr) (w : world) :
  ~ In Str.SLASH name ->
  url = name \/ url = prefix ++ Str.SLASH :: name ->
  Fs.mem name (files w) = true ->
  download_file P url w
  = (Ok tt,
     mkworld (files w)
             (trace w ++ [Print (py "File " ++ name
                                 ++ py " already exists. Skipping download.")])).
Proof.
  intros Hname Hurl Hmem.
  assert (Hlast : Str.last (Str.split Str.SLASH url) = name).
  { destruct Hurl as [->| ->]; [apply split_last_whole | apply split_last_app]; assumption. }
  unfold download_file. rewrite Hlast.
  unfold bind, os_path_exists. rewrite Hmem. reflexivity.
Qed.

Lemma download_file_keeps_existing_witness :
  download_file silent_platform
    (py "https://d7dlhz1yjc01y.cloudfront.net/audio/en/lessons/2025-01-04.mp3")
    (mkworld [(py "2025-01-04.mp3", py "ID3")] [])
  = (Ok tt,
     mkworld [(py "2025-01-04.mp3", py "ID3")]
             ([] ++ [Print (py "File " ++ py "2025-01-04.mp3"
                            ++ py " already exists. Skipping download.")])).
Proof.
  apply (download_file_keeps_existing silent_platform
           (py "https://d7dlhz1yjc01y.cloudfront.net/audio/en/lessons")
           (py "2025-01-04.mp3")).
  - apply contains_false. reflexivity.
  - right. reflexivity.
  - reflexivity.
Defined.

(** ** The title lookup *)

(** Unfold the monad and the primitive calls. *)
Ltac run_monad :=
  cbv beta iota zeta delta
    [try_except bind emit lift print print_exn ret raise Exception OSError
     RequestException os_path_exists]; cbn [files trace].

Lemma title_query_eq (n q y : Z) :
  py "ytsearch:" ++ (py "Sabbath School Panel by 3ABN - Lesson " ++ Str.of_Z n
                     ++ py " Q" ++ Str.of_Z q ++ py " " ++ Str.of_Z y)
  = title_query n q y.
Proof. reflexivity. Qed.

(** [get_lesson_title] never raises and never touches a file; what it
    returns and what it adds to the trace do not depend on the world. *)
Lemma get_lesson_title_run (P : platform) (n q y : Z) :
  exists title evs,
    (forall w, get_lesson_title P n q y w
               = (Ok title, mkworld (files w) (trace w ++ evs)))
    /\ (forall query channel_id, ~ In (ApiSearch query channel_id) evs).
Proof.
  unfold get_lesson_title. rewrite title_query_eq.
  set (txt := py "Sabbath School Panel by 3ABN - Lesson " ++ _).
  destruct (extract_info P (title_query n q y)) as [[[|[video_title|] rest]|]|e];
    run_monad;
    [ | destruct (Str.contains Str.PIPE video_title) | | | ];
    eexists _, _;
    (split;
     [ intros w; run_monad; rewrite <- ?app_assoc; cbn [app]; reflexivity
     | cbn; intros ? ? H; intuition discriminate ]).
Qed.

(** C4 (amended): for every raw title the lookup returns, with a pipe the
    extracted title is the segment before the first pipe with surrounding
    whitespace trimmed and then, in this order and one kind per pass,
    straight double, left curly double, right curly double and straight
    single quotes trimmed from both ends; with no pipe it is the whole title
    with surrounding whitespace trimmed.  The title
    [Lesson 5 | Sabbath School Panel by 3ABN - Lesson 5 Q1 2025] gives
    [Lesson 5] and [Simple Title] gives [Simple Title]. *)
Theorem get_lesson_title_extracts (P : platform) (n q y : Z)
    (video_title : pystr) (rest : list (option pystr)) (w : world) :
  extract_info P (title_query n q y) = Ok (Some (Some video_title :: rest)) ->
  (forall seg tail,
      video_title = seg ++ Str.PIPE :: tail -> ~ In Str.PIPE seg ->
      fst (get_lesson_title P n q y w)
      = Ok (Some (Str.strip_chars [Str.QUOTE]
                    (Str.strip_chars [Str.RDQUOTE]
                       (Str.strip_chars [Str.LDQUOTE]
                          (Str.strip_chars [Str.DQUOTE] (Str.strip seg)))))))
  /\ (~ In Str.PIPE video_title ->
      fst (get_lesson_title P n q y w) = Ok (Some (Str.strip video_title)))
  /\ (video_title = title_3abn ->
      fst (get_lesson_title P n q y w) = Ok (Some (py "Lesson 5")))
  /\ (video_title = py "Simple Title" ->
      fst (get_lesson_title P n q y w) = Ok (Some (py "Simple Title"))).
Proof.
  intros HP.
  assert (Hrun : fst (get_lesson_title P n q y w)
                 = Ok (Some (if Str.contains Str.PIPE video_title
                             then Str.strip_chars [Str.QUOTE]
                                    (Str.strip_chars [Str.RDQUOTE]
                                       (Str.strip_chars [Str.LDQUOTE]
                                          (Str.strip_chars [Str.DQUOTE]
                                             (Str.strip (Str.first
                                                (Str.split Str.PIPE video_title))))))
                             else Str.strip video_title))).
  { unfold get_lesson_title. rewrite title_query_eq, HP. run_monad.
    destruct (Str.contains Str.PIPE video_title); reflexivity. }
  rewrite Hrun. repeat split.
  - intros seg tail -> Hseg.
    replace (Str.contains Str.PIPE (seg ++ Str.PIPE :: tail)) with true.
    + rewrite split_first by assumption. reflexivity.
    + symmetry. unfold Str.contains. apply existsb_exists. exists Str.PIPE.
      split; [apply in_elt | reflexivity].
  - intros Hno. apply contains_false in Hno. rewrite Hno. reflexivity.
  - intros ->. reflexivity.
  - intros ->. reflexivity.
Qed.

Lemma get_lesson_title_extracts_witness :
  fst (get_lesson_title (sample_platform title_3abn) 5 1 2025 empty_world)
  = Ok (Some (py "Lesson 5")).
Proof.
  apply (fun H => proj1 (proj2 (proj2
           (get_lesson_title_extracts (sample_platform title_3abn) 5 1 2025
              title_3abn [] empty_world H)))).
  - reflexivity.
  - reflexivity.
Defined.

(** C4 (as stated) fails on the title ['"Hello"' | 3ABN]: the pass for
    straight double quotes runs before the one for straight single quotes,
    so the double quotes uncovered last stay, where the specification has
    all four kinds trimmed. *)
Lemma get_lesson_title_nested_quotes :
  fst (get_lesson_title (sample_platform title_nested_quotes) 5 1 2025 empty_world)
  = Ok (Some ([Str.DQUOTE] ++ py "Hello" ++ [Str.DQUOTE]))
  /\ spec_lesson_title title_nested_quotes = py "Hello".
Proof. split; reflexivity. Qed.

(** ** The working directory *)

Lemma mem_delete (name : pystr) (fs : Fs.dir) : Fs.mem name (Fs.delete name fs) = false.
Proof.
  unfold Fs.mem, Fs.delete. induction fs as [|[n c] fs IH]; cbn; [reflexivity|].
  destruct (Str.eqb n name) eqn:E; cbn; [exact IH|]. rewrite E. exact IH.
Qed.

Lemma delete_absent (name : pystr) (fs : Fs.dir) :
  Fs.mem name fs = false -> Fs.delete name fs = fs.
Proof.
  unfold Fs.mem, Fs.delete. induction fs as [|[n c] fs IH]; cbn; [reflexivity|].
  rewrite orb_false_iff. intros [E H]. rewrite E. cbn. now rewrite IH.
Qed.

(** ** The search orchestrator *)

(** C7: when the title lookup returns no title (none, or an empty one),
    [search_and_save_urls] returns normally after printing the failure; it
    calls the search provider for no channel and appends nothing: the URL
    store, deleted at the start if it was there, does not exist afterwards. *)
Theorem search_and_save_urls_without_title (P : platform) (n q y : Z)
    (url_file : pystr) (title : option pystr) (evs : list event) :
  (forall w, get_lesson_title P n q y w
             = (Ok title, mkworld (files w) (trace w ++ evs))) ->
  Str.truthy title = false ->
  forall w,
    let printed :=
      (if Fs.mem url_file (files w)
       then [Print (py "Deleting existing " ++ url_file ++ py "...")] else [])
      ++ evs
      ++ [Print (py "Failed to fetch a valid lesson title. Skipping search.")] in
    search_and_save_urls P n q y url_file w
    = (Ok tt, mkworld (Fs.delete url_file (files w)) (trace w ++ printed))
    /\ Fs.mem url_file (Fs.delete url_file (files w)) = false
    /\ (forall query channel_id, ~ In (ApiSearch query channel_id) printed).
Proof.
  intros Htitle Hfalsy w printed. subst printed. split; [|split].
  - unfold search_and_save_urls. run_monad. unfold os_remove. cbn [files trace].
    destruct (Fs.mem url_file (files w)) eqn:Hmem.
    + rewrite Hmem. rewrite Htitle. cbn [files trace]. rewrite Hfalsy. cbn [negb].
      cbn [files trace]. rewrite <- !app_assoc. reflexivity.
    + rewrite Htitle. rewrite Hfalsy. cbn [negb files trace].
      rewrite delete_absent by assumption. rewrite <- !app_assoc. reflexivity.
  - apply mem_delete.
  - intros query channel_id Hin.
    destruct (get_lesson_title_run P n q y) as (title' & evs' & Hrun & Hno).
    assert (evs' = evs).
    { specialize (Hrun empty_world). rewrite Htitle in Hrun. cbn in Hrun. congruence. }
    subst evs'.
    apply in_app_or in Hin. destruct Hin as [Hin|Hin].
    + destruct (Fs.mem url_file (files w)); cbn in Hin; intuition discriminate.
    + apply in_app_or in Hin. destruct Hin as [Hin|Hin].
      * exact (Hno _ _ Hin).
      * cbn in Hin. intuition discriminate.
Qed.

Lemma search_and_save_urls_without_title_witness :
  search_and_save_urls silent_platform 6 1 2025 (py "urls.txt")
    (mkworld [(py "urls.txt", py "old"); (py "notes.txt", [])] [])
  = (Ok tt,
     mkworld [(py "notes.txt", [])]
       [Print (py "Deleting existing urls.txt...");
        YtSearch (title_query 6 1 2025);
        Print (py "No results found for: Sabbath School Panel by 3ABN - Lesson 6 Q1 2025");
        Print (py "Failed to fetch a valid lesson title. Skipping search.")]).
Proof.
  apply (fun H1 H2 => proj1
           (search_and_save_urls_without_title silent_platform 6 1 2025 (py "urls.txt")
              None
              [YtSearch (title_query 6 1 2025);
               Print (py "No results found for: Sabbath School Panel by 3ABN - Lesson 6 Q1 2025")]
              H1 H2
              (mkworld [(py "urls.txt", py "old"); (py "notes.txt", [])] []))).
  - intros w. unfold get_lesson_title. run_monad. cbn. rewrite <- app_assoc. reflexivity.
  - reflexivity.
Defined.

Lemma update_absent (name : pystr) (f : option pystr -> pystr) (fs : Fs.dir) :
  Fs.mem name fs = false -> Fs.update name f fs = fs ++ [(name, f None)].
Proof.
  unfold Fs.mem. induction fs as [|[n c] fs IH]; cbn; [reflexivity|].
  rewrite orb_false_iff. intros [E H]. rewrite E. now rewrite IH.
Qed.

Lemma update_last (name : pystr) (f : option pystr -> pystr) (fs : Fs.dir) (c : pystr) :
  Fs.mem name fs = false ->
  Fs.update name f (fs ++ [(name, c)]) = fs ++ [(name, f (Some c))].
Proof.
  unfold Fs.mem. induction fs as [|[n c'] fs IH]; cbn.
  - now rewrite str_eqb_refl.
  - rewrite orb_false_iff. intros [E H]. rewrite E. now rewrite IH.
Qed.

Lemma text_of_lines_snoc (lines : list pystr) (l : pystr) :
  text_of_lines (lines ++ [l]) = text_of_lines lines ++ l ++ [Str.LF].
Proof.
  unfold text_of_lines. rewrite map_app, concat_app. cbn. now rewrite app_nil_r.
Qed.

(** Appending a line to the file kept by [with_lines]. *)
Lemma append_with_lines (base : Fs.dir) (name : pystr) (lines : list pystr)
    (l : pystr) (tr : list event) :
  name <> [] -> Fs.mem name base = false ->
  open_append name (l ++ [Str.LF]) (mkworld (with_lines base name lines) tr)
  = (Ok tt, mkworld (with_lines base name (lines ++ [l])) tr).
Proof.
  intros Hname Hmem. unfold open_append. destruct name as [|c name]; [congruence|].
  cbn [files trace]. f_equal. f_equal. unfold with_lines.
  destruct lines as [|l0 lines].
  - rewrite app_nil_r. cbn [app]. rewrite update_absent by assumption.
    unfold text_of_lines. cbn. now rewrite app_nil_r.
  - rewrite update_last by assumption.
    destruct ((l0 :: lines) ++ [l]) eqn:E; [destruct lines; discriminate|].
    rewrite <- E. now rewrite text_of_lines_snoc.
Qed.

(** One call of [search_videos_on_youtube]: it never raises, touches no
    file, calls the provider once and returns the URL found, if any. *)
Lemma search_videos_on_youtube_run (P : platform) (query channel_name channel_id : pystr) :
  exists evs,
    (forall w, search_videos_on_youtube P query channel_name channel_id w
               = (Ok (found_url P query channel_id),
                  mkworld (files w) (trace w ++ evs)))
    /\ calls is_api_search evs = [ApiSearch query channel_id].
Proof.
  unfold search_videos_on_youtube, found_url, environment.
  destruct (youtube_search P query channel_id) as [[|[video_id|] rest]|e]; run_monad;
    try destruct e; run_monad;
    eexists; (split; [intros w; rewrite <- ?app_assoc; cbn [app]; reflexivity
                     | reflexivity]).
Qed.

Lemma lookup_app_absent (name : pystr) (base rest : Fs.dir) :
  Fs.mem name base = false -> Fs.lookup name (base ++ rest) = Fs.lookup name rest.
Proof.
  unfold Fs.mem. induction base as [|[n c] base IH]; cbn; [reflexivity|].
  rewrite orb_false_iff. intros [E H]. rewrite E. now apply IH.
Qed.

Lemma lookup_with_lines (base : Fs.dir) (name : pystr) (lines : list pystr) :
  Fs.mem name base = false ->
  Fs.lookup name (with_lines base name lines)
  = match lines with
    | [] => None
    | _ => Some (text_of_lines lines)
    end.
Proof.
  intros H. unfold with_lines. rewrite lookup_app_absent by assumption.
  destruct lines; cbn; [reflexivity|]. now rewrite str_eqb_refl.
Qed.

Lemma no_api_search_calls (evs : list event) :
  (forall query channel_id, ~ In (ApiSearch query channel_id) evs) ->
  calls is_api_search evs = [].
Proof.
  unfold calls. induction evs as [|e evs IH]; intros H; cbn; [reflexivity|].
  destruct e; cbn; try (apply IH; intros ? ? Hin; eapply H; right; exact Hin).
  exfalso. eapply H. left. reflexivity.
Qed.

(** The loop over the channels, from a directory whose URL store holds
    [lines]: each channel is searched once, in order, and each URL found is
    appended as a line. *)
Lemma channel_loop (P : platform) (n q y : Z) (title url_file : pystr)
    (chans : list (pystr * channel)) :
  url_file <> [] ->
  forall (base : Fs.dir) (lines : list pystr) (tr : list event),
    Fs.mem url_file base = false ->
    let queries :=
      map (fun entry => (format (query_format (snd entry)) n q y title, id (snd entry)))
          chans in
    exists evs,
      for_each chans
        (fun '(channel_name, channel_data) =>
           let query := format (query_format channel_data) n q y title in
           let channel_id := id channel_data in
           print (py "Searching " ++ channel_name ++ py " for: " ++ query) ;;
           video_url <- search_videos_on_youtube P query channel_name channel_id ;;
           if Str.truthy video_url then
             let video_url := match video_url with Some u => u | None => [] end in
             print (py "Found video URL: " ++ video_url) ;;
             open_append url_file (video_url ++ [Str.LF])
           else ret tt)%monad
        (mkworld (with_lines base url_file lines) tr)
      = (Ok tt,
         mkworld (with_lines base url_file (lines ++ found_urls P queries)) (tr ++ evs))
      /\ calls is_api_search evs = map (fun qc => ApiSearch (fst qc) (snd qc)) queries.
Proof.
  intros Hname. induction chans as [|[channel_name channel_data] chans IH];
    intros base lines tr Hbase queries; subst queries.
  - exists []. cbn. rewrite !app_nil_r. split; reflexivity.
  - cbn [for_each map fst snd].
    set (rest := for_each chans _).
    set (query := format (query_format channel_data) n q y title).
    destruct (search_videos_on_youtube_run P query channel_name (id channel_data))
      as (evs1 & Hrun & Hcalls).
    unfold found_urls. cbn [flat_map fst snd]. fold (found_urls P).
    run_monad. rewrite Hrun. run_monad.
    destruct (found_url P query (id channel_data)) as [url|] eqn:Hfound.
    + assert (Htruthy : Str.truthy (Some url) = true).
      { unfold found_url in Hfound.
        destruct (youtube_search P query (id channel_data)) as [[|[v|] ?]|?];
          try discriminate. injection Hfound as <-. reflexivity. }
      rewrite Htruthy. run_monad.
      rewrite append_with_lines by assumption.
      destruct (IH base (lines ++ [url]) ((tr ++
           [Print (py "Searching " ++ channel_name ++ py " for: " ++ query)]) ++ evs1 ++
           [Print (py "Found video URL: " ++ url)]) Hbase) as (evs2 & Hloop & Hcalls2).
      cbv zeta in Hloop. subst rest. rewrite <- !app_assoc in *. cbn [app] in *.
      rewrite Hloop.
      eexists. split.
      * rewrite <- ?app_assoc. cbn [app]. reflexivity.
      * unfold calls in *.
        repeat (progress (rewrite ?filter_app; cbn [filter is_api_search app])).
        rewrite Hcalls. cbn [app]. rewrite Hcalls2. reflexivity.
    + cbn [Str.truthy].
      destruct (IH base lines ((tr ++
           [Print (py "Searching " ++ channel_name ++ py " for: " ++ query)]) ++ evs1)
           Hbase) as (evs2 & Hloop & Hcalls2).
      cbv zeta in Hloop. subst rest. rewrite Hloop.
      eexists. split.
      * rewrite <- !app_assoc. cbn [app]. reflexivity.
      * unfold calls in *.
        repeat (progress (rewrite ?filter_app; cbn [filter is_api_search app])).
        rewrite Hcalls. cbn [app]. rewrite Hcalls2. reflexivity.
Qed.

(** C5: when the title lookup succeeds (it returns a non-empty title),
    [search_and_save_urls] queries each of the six configured channels once,
    in configuration order, whatever the provider answers for the others;
    the URL store then holds exactly the URLs of the successful channels,
    one per line, in configuration order (and does not exist when no channel
    is successful). *)
Theorem search_and_save_urls_channels (P : platform) (n q y : Z)
    (url_file title : pystr) (evs : list event) :
  url_file <> [] ->
  (forall w, get_lesson_title P n q y w
             = (Ok (Some title), mkworld (files w) (trace w ++ evs))) ->
  title <> [] ->
  forall w,
    let queries := channel_queries n q y title in
    let urls := found_urls P queries in
    exists w',
      search_and_save_urls P n q y url_file w = (Ok tt, w')
      /\ List.length queries = 6%nat
      /\ (exists evs',
             trace w' = trace w ++ evs'
             /\ calls is_api_search evs'
                = map (fun qc => ApiSearch (fst qc) (snd qc)) queries)
      /\ files w' = with_lines (Fs.delete url_file (files w)) url_file urls
      /\ Fs.lookup url_file (files w')
         = match urls with
           | [] => None
           | _ => Some (text_of_lines urls)
           end.
Proof.
  intros Hname Htitle Hne w queries urls.
  assert (Hno : calls is_api_search evs = []).
  { apply no_api_search_calls.
    destruct (get_lesson_title_run P n q y) as (title' & evs0 & Hrun & Hno).
    specialize (Hrun empty_world). rewrite Htitle in Hrun. cbn in Hrun.
    injection Hrun as _ <-. exact Hno. }
  assert (Htruthy : Str.truthy (Some title) = true) by (destruct title; [congruence | reflexivity]).
  pose proof (mem_delete url_file (files w)) as Hbase.
  set (del := if Fs.mem url_file (files w)
              then [Print (py "Deleting existing " ++ url_file ++ py "...")] else []).
  destruct (channel_loop P n q y title url_file CHANNEL_IDS Hname
              (Fs.delete url_file (files w)) [] (trace w ++ del ++ evs) Hbase)
    as (evs2 & Hloop & Hcalls).
  cbv zeta in Hloop.
  fold (channel_queries n q y title) in Hloop, Hcalls. fold queries in Hloop, Hcalls.
  cbn [app] in Hloop. fold urls in Hloop.
  unfold with_lines at 1 in Hloop. rewrite app_nil_r in Hloop.
  exists (mkworld (with_lines (Fs.delete url_file (files w)) url_file urls)
                  (trace w ++ del ++ evs ++ evs2)).
  split; [|split; [reflexivity|split; [|split]]].
  - unfold search_and_save_urls. run_monad. unfold os_remove. cbn [files trace].
    subst del.
    destruct (Fs.mem url_file (files w)) eqn:Hmem.
    + rewrite Hmem. rewrite Htitle. cbn [files trace]. rewrite Htruthy. cbn [negb].
      rewrite <- !app_assoc in *. cbn [app] in *. exact Hloop.
    + rewrite Htitle. rewrite Htruthy. cbn [negb files trace].
      rewrite (delete_absent _ _ Hmem) in *.
      rewrite <- !app_assoc in *. cbn [app] in *. exact Hloop.
  - cbn [trace]. exists (del ++ evs ++ evs2). split.
    + reflexivity.
    + unfold calls in *. rewrite !filter_app, Hno, Hcalls.
      subst del. destruct (Fs.mem url_file (files w)); reflexivity.
  - reflexivity.
  - cbn [files]. apply lookup_with_lines. exact Hbase.
Qed.

Lemma search_and_save_urls_channels_witness :
  let w := mkworld [(py "urls.txt", py "old"); (py "notes.txt", [])] [] in
  let queries := channel_queries 5 1 2025 (py "Lesson 5") in
  let urls := found_urls (sample_platform title_3abn) queries in
  exists w',
    search_and_save_urls (sample_platform title_3abn) 5 1 2025 (py "urls.txt") w
    = (Ok tt, w')
    /\ List.length queries = 6%nat
    /\ (exists evs',
           trace w' = trace w ++ evs'
           /\ calls is_api_search evs'
              = map (fun qc => ApiSearch (fst qc) (snd qc)) queries)
    /\ files w' = with_lines (Fs.delete (py "urls.txt") (files w)) (py "urls.txt") urls
    /\ Fs.lookup (py "urls.txt") (files w')
       = match urls with
         | [] => None
         | _ => Some (text_of_lines urls)
         end.
Proof.
  apply (search_and_save_urls_channels (sample_platform title_3abn) 5 1 2025
           (py "urls.txt") (py "Lesson 5")
           [YtSearch (title_query 5 1 2025);
            Print (py "Found video title: " ++ title_3abn);
            Print (py "Extracted lesson title: Lesson 5")]).
  - discriminate.
  - intros w. unfold get_lesson_title. run_monad. cbn. rewrite <- !app_assoc. reflexivity.
  - discriminate.
Defined.

(** Two of the six channels fail: the URL store holds the four URLs of the
    others, in configuration order. *)
Example search_and_save_urls_four_of_six :
  Fs.lookup (py "urls.txt")
    (files (snd (search_and_save_urls (sample_platform title_3abn) 5 1 2025
                   (py "urls.txt") empty_world)))
  = Some (text_of_lines [py "https://www.youtube.com/watch?v=UCtWyo";
                         py "https://www.youtube.com/watch?v=UCvJRu";
                         py "https://www.youtube.com/watch?v=UCOuDM";
                         py "https://www.youtube.com/watch?v=UCPS3A"]).
Proof. vm_compute. reflexivity. Qed.

Lemma mem_lookup (name : pystr) (fs : Fs.dir) :
  Fs.mem name fs = match Fs.lookup name fs with Some _ => true | None => false end.
Proof.
  unfold Fs.mem. induction fs as [|[n c] fs IH]; cbn; [reflexivity|].
  destruct (Str.eqb n name); [reflexivity | exact IH].
Qed.

Lemma lookup_update_same (name : pystr) (f : option pystr -> pystr) (fs : Fs.dir) :
  Fs.lookup name (Fs.update name f fs) = Some (f (Fs.lookup name fs)).
Proof.
  induction fs as [|[n c] fs IH]; cbn.
  - now rewrite str_eqb_refl.
  - destruct (Str.eqb n name) eqn:E; cbn; rewrite E; [reflexivity | exact IH].
Qed.

Lemma lookup_update_other (name other : pystr) (f : option pystr -> pystr) (fs : Fs.dir) :
  other <> name ->
  Fs.lookup name (Fs.update other f fs) = Fs.lookup name fs.
Proof.
  intros Hneq. induction fs as [|[n c] fs IH]; cbn.
  - apply str_eqb_neq in Hneq. now rewrite Hneq.
  - destruct (Str.eqb n other) eqn:E; cbn.
    + apply str_eqb_eq in E. subst n. apply str_eqb_neq in Hneq. now rewrite Hneq.
    + destruct (Str.eqb n name); [reflexivity | exact IH].
Qed.

(** ** The download orchestrator without a URL store *)

(** When the URL store does not exist, [download_audio_from_urls] raises
    [FileNotFoundError]: only the ledger is created when absent. *)
Lemma download_audio_from_urls_missing_store (P : platform)
    (url_file downloaded_file : pystr) (w : world) :
  url_file <> downloaded_file -> downloaded_file <> [] ->
  Fs.mem url_file (files w) = false ->
  fst (download_audio_from_urls P url_file downloaded_file w)
  = Raise (FileNotFoundError url_file).
Proof.
  intros Hneq Hne Hmem. rewrite mem_lookup in Hmem.
  destruct (Fs.lookup url_file (files w)) eqn:Hstore; [discriminate|].
  unfold download_audio_from_urls. run_monad.
  unfold open_write, open_read. destruct downloaded_file as [|c d]; [congruence|].
  set (ledger := c :: d) in *.
  destruct (Fs.mem ledger (files w)) eqn:Hledger; cbn [negb files trace].
  - rewrite mem_lookup in Hledger.
    destruct (Fs.lookup ledger (files w)); [|discriminate].
    rewrite Hstore. reflexivity.
  - rewrite lookup_update_same. cbv beta iota. cbn [files trace].
    rewrite lookup_update_other by congruence. rewrite Hstore. reflexivity.
Qed.

(** C2 (the code at the failing input): with the API key set, an empty
    working directory and a title lookup with no result, the URL store is
    never written; the download orchestrator raises [FileNotFoundError] when
    it opens it and the daily fetcher never runs: no probe is made. *)
Theorem script_stops_without_url_store :
  let run := script silent_platform (Some (py "key"))
               (mkdatetime 2025 2 3 10 0 0 0) (mkdatetime 2025 2 3 10 0 1 0)
               empty_world in
  fst run = Raise (FileNotFoundError (py "urls.txt"))
  /\ calls is_head (trace (snd run)) = [].
Proof. vm_compute. split; reflexivity. Qed.

(** ** Patterns of [glob] *)

Lemma fnmatch_star_cons (pat : pystr) (c : char) (name : pystr) :
  Str.fnmatch (Str.STAR :: pat) (c :: name)
  = Str.fnmatch pat (c :: name) || Str.fnmatch (Str.STAR :: pat) name.
Proof. reflexivity. Qed.

Lemma fnmatch_star_nil (pat : pystr) :
  Str.fnmatch (Str.STAR :: pat) [] = Str.fnmatch pat [].
Proof. cbn. now rewrite orb_false_r. Qed.

(** A pattern without a star matches itself only. *)
Lemma fnmatch_literal (pat name : pystr) :
  ~ In Str.STAR pat -> (Str.fnmatch pat name = true <-> name = pat).
Proof.
  revert name. induction pat as [|p pat IH]; intros name Hlit.
  - destruct name; cbn; split; congruence.
  - assert (Hp : (p =? Str.STAR)%N = false).
    { apply N.eqb_neq. intros ->. apply Hlit. now left. }
    assert (Hpat : ~ In Str.STAR pat) by (intros H; apply Hlit; now right).
    cbn. rewrite Hp. destruct name as [|c name]; [split; discriminate|].
    rewrite andb_true_iff. unfold Str.char_eqb. rewrite N.eqb_eq, (IH name Hpat).
    split; [intros [-> ->]; reflexivity | intros [= -> ->]; auto].
Qed.

(** A star and then a pattern without a star: the names that end with it. *)
Lemma fnmatch_star_suffix (suffix name : pystr) :
  ~ In Str.STAR suffix ->
  (Str.fnmatch (Str.STAR :: suffix) name = true <-> exists stem, name = stem ++ suffix).
Proof.
  intros Hlit. induction name as [|c name IH].
  - rewrite fnmatch_star_nil, (fnmatch_literal suffix [] Hlit). split.
    + intros <-. now exists [].
    + intros [stem H]. symmetry in H. apply app_eq_nil in H. symmetry. apply H.
  - rewrite fnmatch_star_cons, orb_true_iff, (fnmatch_literal suffix _ Hlit), IH. split.
    + intros [->|[stem ->]]; [now exists [] | now exists (c :: stem)].
    + intros [[|d stem] H]; cbn in H.
      * left. exact H.
      * right. injection H as -> ->. now exists stem.
Qed.

(** ** Directories as filtered lists *)

Lemma mem_filter_names (keep : pystr -> bool) (name : pystr) (fs : Fs.dir) :
  Fs.mem name (filter (fun e => keep (fst e)) fs) = Fs.mem name fs && keep name.
Proof.
  unfold Fs.mem. induction fs as [|[n c] fs IH]; cbn; [reflexivity|].
  destruct (Str.eqb n name) eqn:E.
  - apply str_eqb_eq in E. subst n.
    destruct (keep name) eqn:K; cbn.
    + now rewrite str_eqb_refl.
    + rewrite IH, ?K. now rewrite andb_false_r.
  - destruct (keep n); cbn; [rewrite E|]; exact IH.
Qed.

Lemma lookup_filter_names (keep : pystr -> bool) (name : pystr) (fs : Fs.dir) :
  keep name = true ->
  Fs.lookup name (filter (fun e => keep (fst e)) fs) = Fs.lookup name fs.
Proof.
  intros K. induction fs as [|[n c] fs IH]; cbn; [reflexivity|].
  destruct (Str.eqb n name) eqn:E.
  - apply str_eqb_eq in E. subst n. rewrite K. cbn. now rewrite str_eqb_refl.
  - destruct (keep n); cbn; [rewrite E|]; exact IH.
Qed.

Lemma filter_fuse {A} (p q : A -> bool) (l : list A) :
  filter p (filter q l) = filter (fun x => q x && p x) l.
Proof.
  induction l as [|x l IH]; cbn; [reflexivity|].
  destruct (q x); cbn; [destruct (p x)|]; now rewrite IH.
Qed.

Lemma filter_true {A} (l : list A) : filter (fun _ => true) l = l.
Proof. induction l as [|x l IH]; cbn; [reflexivity | now rewrite IH]. Qed.

Lemma mem_In (name : pystr) (fs : Fs.dir) :
  Fs.mem name fs = true <-> In name (Fs.names fs).
Proof.
  unfold Fs.mem, Fs.names. rewrite existsb_exists, in_map_iff. split.
  - intros (e & He & Heq). apply str_eqb_eq in Heq. now exists e.
  - intros (e & Heq & He). exists e. split; [exact He|]. now apply str_eqb_eq.
Qed.

Lemma existsb_eqb_In (name : pystr) (l : list pystr) :
  existsb (Str.eqb name) l = true <-> In name l.
Proof.
  rewrite existsb_exists. split.
  - intros (m & Hm & E). apply str_eqb_eq in E. now subst.
  - intros H. exists name. split; [exact H | apply str_eqb_refl].
Qed.

Lemma nodup_names_NoDup (l : list pystr) :
  Fs.nodup_names l = true -> NoDup l.
Proof.
  induction l as [|n l IH]; cbn; [constructor|].
  rewrite andb_true_iff, negb_true_iff. intros [Hn Hl]. constructor.
  - intros Hin. apply existsb_eqb_In in Hin. congruence.
  - now apply IH.
Qed.

Lemma mem_delete_other (name other : pystr) (fs : Fs.dir) :
  name <> other -> Fs.mem name (Fs.delete other fs) = Fs.mem name fs.
Proof.
  intros Hneq. unfold Fs.delete.
  rewrite (mem_filter_names (fun n => negb (Str.eqb n other))).
  apply str_eqb_neq in Hneq. rewrite Hneq. apply andb_true_r.
Qed.

(** ** The purge *)

(** Removing the files of a list without repetition, all of them present:
    every removal succeeds and is printed. *)
Lemma remove_loop (l : list pystr) :
  forall (fs : Fs.dir) (tr : list event),
    NoDup l -> (forall n, In n l -> Fs.mem n fs = true) ->
    for_each l
      (fun audio_file =>
         try_except OSError
           (os_remove audio_file ;; print (py "Deleted: " ++ audio_file))
           (fun e => print_exn (py "Error deleting " ++ audio_file ++ py ": ") e))%monad
      (mkworld fs tr)
    = (Ok tt,
       mkworld (filter (fun e => negb (existsb (Str.eqb (fst e)) l)) fs)
               (tr ++ map deleted_message l)).
Proof.
  induction l as [|n l IH]; intros fs tr Hnd Hin.
  - cbn. rewrite app_nil_r, filter_true. reflexivity.
  - cbn [for_each]. set (rest := for_each l _).
    run_monad. unfold os_remove. cbn [files trace].
    rewrite (Hin n (or_introl eq_refl)). cbn [files trace].
    inversion Hnd as [|? ? Hn Hl]; subst.
    subst rest. rewrite IH.
    + f_equal. f_equal.
      * unfold Fs.delete. rewrite filter_fuse. apply filter_ext. intros e.
        cbn [existsb]. rewrite negb_orb. reflexivity.
      * rewrite <- app_assoc. reflexivity.
    + exact Hl.
    + intros m Hm. rewrite mem_delete_other.
      * apply Hin. now right.
      * intros ->. contradiction.
Qed.

Lemma mp3_not_m4a (name : pystr) :
  Str.fnmatch (py "*.mp3") name = true -> Str.fnmatch (py "*.m4a") name = true -> False.
Proof.
  change (py "*.mp3") with (Str.STAR :: py ".mp3").
  change (py "*.m4a") with (Str.STAR :: py ".m4a").
  rewrite !fnmatch_star_suffix by (apply contains_false; reflexivity).
  intros [a ->] [b H].
  change (py ".mp3") with (py ".mp" ++ [51%N]) in H.
  change (py ".m4a") with (py ".m4" ++ [97%N]) in H.
  rewrite !app_assoc in H. apply app_inj_tail in H. destruct H as [_ H]. discriminate.
Qed.

(** The names that the purge lists: in the directory, not hidden, ending in
    .mp3 or .m4a. *)
Lemma audio_files_In (fs : Fs.dir) (name : pystr) :
  In name (audio_files fs)
  <-> In name (Fs.names fs)
      /\ negb (Str.ishidden name)
         && (Str.fnmatch (py "*.mp3") name || Str.fnmatch (py "*.m4a") name) = true.
Proof.
  unfold audio_files, glob_names. rewrite in_app_iff, !filter_In.
  change (Str.ishidden (py "*.mp3")) with false.
  change (Str.ishidden (py "*.m4a")) with false. cbn [orb].
  rewrite !andb_true_iff, orb_true_iff. tauto.
Qed.

Lemma audio_files_NoDup (fs : Fs.dir) : Fs.wf fs = true -> NoDup (audio_files fs).
Proof.
  intros Hwf. apply nodup_names_NoDup in Hwf.
  unfold audio_files, glob_names.
  apply NoDup_app; try (apply NoDup_filter; exact Hwf).
  intros name H1 H2. apply filter_In in H1, H2.
  destruct H1 as [_ H1], H2 as [_ H2]. apply andb_true_iff in H1, H2.
  exact (mp3_not_m4a name (proj2 H1) (proj2 H2)).
Qed.

Lemma state_file_not_audio (fs : Fs.dir) (name : pystr) :
  name = py "downloaded.txt" \/ name = py "urls.txt" -> ~ In name (audio_files fs).
Proof.
  intros Hname Hin. apply audio_files_In in Hin. destruct Hin as [_ Hin].
  destruct Hname as [-> | ->]; vm_compute in Hin; discriminate.
Qed.

(** One state file: removed, and the removal printed, if it is there. *)
Lemma remove_if_exists (file_name : pystr) (fs : Fs.dir) (tr : list event) :
  (ex <- os_path_exists file_name ;;
   if ex then
     try_except OSError
       (os_remove file_name ;; print (py "Deleted: " ++ file_name))
       (fun e => print_exn (py "Error deleting " ++ file_name ++ py ": ") e)
   else ret tt)%monad (mkworld fs tr)
  = (Ok tt,
     mkworld (Fs.delete file_name fs)
             (tr ++ if Fs.mem file_name fs then [deleted_message file_name] else [])).
Proof.
  run_monad. unfold os_remove. cbn [files trace].
  destruct (Fs.mem file_name fs) eqn:Hmem.
  - cbn [files trace]. rewrite Hmem. reflexivity.
  - rewrite delete_absent by assumption. now rewrite app_nil_r.
Qed.

(** [delete_audio_files] in a directory without repeated names: it returns
    normally with the directory purged and one line printed per file
    removed. *)
Lemma delete_audio_files_run (fs : Fs.dir) (tr : list event) :
  Fs.wf fs = true ->
  delete_audio_files (mkworld fs tr)
  = (Ok tt,
     mkworld (purge fs)
       (tr ++ map deleted_message
                 (audio_files fs
                  ++ filter (fun n => Fs.mem n fs) [py "downloaded.txt"; py "urls.txt"]))).
Proof.
  intros Hwf. unfold delete_audio_files.
  unfold bind at 1. unfold glob at 1. cbn [files trace].
  unfold bind at 1. unfold glob at 1. cbn [files trace].
  fold (audio_files fs).
  unfold bind at 1. rewrite remove_loop.
  2: now apply audio_files_NoDup.
  2: { intros n Hn. apply mem_In. apply audio_files_In in Hn. tauto. }
  set (keep := fun n : pystr => negb (existsb (Str.eqb n) (audio_files fs))).
  assert (Hkeep : forall name, name = py "downloaded.txt" \/ name = py "urls.txt" ->
                               keep name = true).
  { intros name Hname. unfold keep. apply negb_true_iff.
    destruct (existsb (Str.eqb name) (audio_files fs)) eqn:E; [|reflexivity].
    apply existsb_eqb_In in E. exfalso. exact (state_file_not_audio fs name Hname E). }
  set (fs1 := filter (fun e => negb (existsb (Str.eqb (fst e)) (audio_files fs))) fs).
  assert (Hm1 : forall name, name = py "downloaded.txt" \/ name = py "urls.txt" ->
                             Fs.mem name fs1 = Fs.mem name fs).
  { intros name Hname. subst fs1. rewrite (mem_filter_names keep).
    rewrite (Hkeep name Hname). apply andb_true_r. }
  assert (Hfinal : Fs.delete (py "urls.txt") (Fs.delete (py "downloaded.txt") fs1)
                   = purge fs).
  { subst fs1. unfold Fs.delete, purge. rewrite !filter_fuse.
    apply filter_ext_in. intros [n c] Hin. cbn [fst]. unfold purged_name.
    assert (Hv : existsb (Str.eqb n) (audio_files fs)
                 = negb (Str.ishidden n)
                   && (Str.fnmatch (py "*.mp3") n || Str.fnmatch (py "*.m4a") n)).
    { destruct (existsb (Str.eqb n) (audio_files fs)) eqn:E.
      - apply existsb_eqb_In, audio_files_In in E. destruct E as [_ E]. now rewrite E.
      - destruct (negb (Str.ishidden n)
                  && (Str.fnmatch (py "*.mp3") n || Str.fnmatch (py "*.m4a") n)) eqn:V;
          [|reflexivity].
        assert (Hin' : In n (audio_files fs)).
        { apply audio_files_In. split; [|exact V].
          unfold Fs.names. apply in_map_iff. now exists (n, c). }
        apply existsb_eqb_In in Hin'. congruence. }
    rewrite Hv, !negb_orb, <- ?andb_assoc. reflexivity. }
  cbn [for_each].
  unfold bind at 1. rewrite remove_if_exists. cbv beta iota.
  unfold bind at 1. rewrite remove_if_exists. cbv beta iota.
  unfold ret. rewrite Hfinal.
  rewrite mem_delete_other by discriminate.
  rewrite !Hm1 by auto.
  rewrite map_app. cbn [filter].
  destruct (Fs.mem (py "downloaded.txt") fs), (Fs.mem (py "urls.txt") fs);
    cbn [map app]; rewrite <- ?app_assoc, ?app_nil_r; reflexivity.
Qed.

(** ** The cleanup *)

Lemma older_lex_lt (fy fq fl cy cq cl : Z) :
  older fy fq fl cy cq cl = true <-> lex_lt (fy, fq, fl) (cy, cq, cl).
Proof.
  unfold older, lex_lt.
  rewrite !orb_true_iff, !andb_true_iff, !Z.ltb_lt, !Z.eqb_eq. tauto.
Qed.

(** The scan up to the first stale file: the files before it are compared and
    kept, then the purge runs; the files after it are not looked at. *)
Lemma compare_loop (P : platform) (cy cq cl : Z) (pre : list pystr) (f : pystr)
    (post : list pystr) :
  (forall g, In g pre -> stale P cy cq cl g = false) ->
  stale P cy cq cl f = true ->
  forall w,
    compare_lesson_files P (pre ++ f :: post) cy cq cl w
    = delete_audio_files
        (mkworld (files w)
                 (trace w ++ map (compared_message P) pre ++ [stale_message f])).
Proof.
  intros Hpre Hf. induction pre as [|g pre IH]; intros w.
  - cbn [app map compare_lesson_files].
    unfold stale, parsed_lesson in Hf.
    destruct (Re.search (unicode_decimal P) f) as [[[g1 g2] g3]|]; [|discriminate].
    rewrite Hf. run_monad. reflexivity.
  - cbn [app map compare_lesson_files].
    assert (Hg := Hpre g (or_introl eq_refl)).
    unfold stale, parsed_lesson in Hg. unfold compared_message, parsed_lesson.
    destruct (Re.search (unicode_decimal P) g) as [[[g1 g2] g3]|].
    + rewrite Hg. run_monad. rewrite IH by (intros; apply Hpre; now right).
      cbn [files trace]. rewrite <- !app_assoc. reflexivity.
    + run_monad. rewrite IH by (intros; apply Hpre; now right).
      cbn [files trace]. rewrite <- !app_assoc. reflexivity.
Qed.

(** What the purge reaches, in a directory of regular files with distinct
    names: when [compare_and_cleanup_lesson_files] scans the matching audio
    files in order and meets the first file whose parsed
    (year, quarter, lesson number) is lexicographically strictly less than
    the current one, it deletes the .mp3 and .m4a files that [glob] lists,
    those whose name does not start with a dot, plus the URL store and the
    downloaded ledger if present, and stops scanning: the files after it are
    not compared.  The other files stay as they are. *)
Theorem cleanup_purges_on_first_stale (P : platform) (cy cq cl : Z) (w : world)
    (pre : list pystr) (f : pystr) (post : list pystr) :
  Fs.wf (files w) = true ->
  lesson_files (files w) = pre ++ f :: post ->
  (forall g, In g pre -> stale P cy cq cl g = false) ->
  stale P cy cq cl f = true ->
  let fs' := purge (files w) in
  compare_and_cleanup_lesson_files P cy cq cl w
  = (Ok tt,
     mkworld fs'
       (trace w ++ map (compared_message P) pre ++ [stale_message f]
        ++ map deleted_message
             (audio_files (files w)
              ++ filter (fun n => Fs.mem n (files w))
                        [py "downloaded.txt"; py "urls.txt"])))
  /\ (exists fy fq fl,
         parsed_lesson P f = Some (fy, fq, fl) /\ lex_lt (fy, fq, fl) (cy, cq, cl))
  /\ (forall stem ext,
         ext = py ".mp3" \/ ext = py ".m4a" ->
         Str.ishidden (stem ++ ext) = false ->
         Fs.mem (stem ++ ext) fs' = false)
  /\ Fs.mem (py "urls.txt") fs' = false
  /\ Fs.mem (py "downloaded.txt") fs' = false
  /\ (forall name, purged_name name = false ->
                   Fs.lookup name fs' = Fs.lookup name (files w)).
Proof.
  intros Hwf Hscan Hpre Hf fs'. subst fs'.
  split; [|split; [|split; [|split; [|split]]]].
  - unfold compare_and_cleanup_lesson_files.
    unfold bind at 1. unfold glob at 1. cbn [files trace].
    unfold bind at 1. unfold glob at 1. cbn [files trace].
    fold (lesson_files (files w)). rewrite Hscan.
    destruct (pre ++ f :: post) eqn:E; [destruct pre; discriminate|]. rewrite <- E.
    rewrite (compare_loop P cy cq cl pre f post Hpre Hf).
    rewrite delete_audio_files_run by assumption.
    rewrite <- !app_assoc. reflexivity.
  - unfold stale in Hf. destruct (parsed_lesson P f) as [[[fy fq] fl]|]; [|discriminate].
    exists fy, fq, fl. split; [reflexivity | now apply older_lex_lt].
  - intros stem ext Hext Hvisible. unfold purge.
    rewrite (mem_filter_names (fun n => negb (purged_name n))).
    apply andb_false_iff. right. apply negb_false_iff.
    unfold purged_name. rewrite Hvisible. cbn [negb andb].
    assert (Hmatch : Str.fnmatch (Str.STAR :: ext) (stem ++ ext) = true).
    { apply fnmatch_star_suffix.
      - destruct Hext as [-> | ->]; apply contains_false; reflexivity.
      - now exists stem. }
    destruct Hext as [-> | ->].
    + change (py "*.mp3") with (Str.STAR :: py ".mp3"). now rewrite Hmatch.
    + change (py "*.m4a") with (Str.STAR :: py ".m4a"). rewrite Hmatch.
      now rewrite orb_true_r.
  - unfold purge. rewrite (mem_filter_names (fun n => negb (purged_name n))).
    apply andb_false_r.
  - unfold purge. rewrite (mem_filter_names (fun n => negb (purged_name n))).
    apply andb_false_r.
  - intros name Hname. unfold purge.
    apply (lookup_filter_names (fun n => negb (purged_name n))). now rewrite Hname.
Qed.

Lemma cleanup_purges_on_first_stale_witness :
  let w := mkworld stale_directory [] in
  compare_and_cleanup_lesson_files silent_platform 2025 1 6 w
  = (Ok tt,
     mkworld (purge stale_directory)
       ([] ++ map (compared_message silent_platform) []
        ++ [stale_message (py "2024 Q4 Lesson 1.mp3")]
        ++ map deleted_message
             (audio_files stale_directory
              ++ filter (fun n => Fs.mem n stale_directory)
                        [py "downloaded.txt"; py "urls.txt"]))).
Proof.
  apply (fun H1 H2 H3 H4 => proj1
           (cleanup_purges_on_first_stale silent_platform 2025 1 6
              (mkworld stale_directory []) [] (py "2024 Q4 Lesson 1.mp3")
              [py "2025 Q1 Lesson 7.m4a"] H1 H2 H3 H4)).
  - reflexivity.
  - reflexivity.
  - intros g [].
  - reflexivity.
Defined.

(** C3 (the code at the failing input): the docstring of
    [delete_audio_files] says that it deletes all .mp3 and .m4a files of the
    current directory, and the line printed before the purge says so too.
    With a stale lesson file and a hidden .mp3 file beside it, the purge runs
    and the hidden .mp3 file is still there afterwards: the files are listed
    with [glob], which leaves out the names that start with a dot. *)
Theorem cleanup_keeps_hidden_audio :
  let run := compare_and_cleanup_lesson_files silent_platform 2025 1 6
               (mkworld stale_directory []) in
  stale silent_platform 2025 1 6 (py "2024 Q4 Lesson 1.mp3") = true
  /\ fst run = Ok tt
  /\ hd_error (trace (snd run)) = Some (stale_message (py "2024 Q4 Lesson 1.mp3"))
  /\ files (snd run) = [ (py ".2024 Q4 Lesson 2.mp3", py "ID3"); (py "notes.txt", py "keep") ]
  /\ Str.fnmatch (py "*.mp3") (py ".2024 Q4 Lesson 2.mp3") = true.
Proof. vm_compute. repeat split; reflexivity. Qed.

(** ** Lines of text files *)

Lemma is_line_cons (c : char) (l : pystr) :
  is_line (c :: l) = true <-> Str.is_linebreak c = false /\ is_line l = true.
Proof. unfold is_line. cbn. rewrite andb_true_iff, negb_true_iff. tauto. Qed.

Lemma is_line_not_CR (c : char) : Str.is_linebreak c = false -> (c =? 13)%N = false.
Proof.
  intros H. destruct (N.eqb_spec c 13) as [->|]; [discriminate H | reflexivity].
Qed.

Lemma splitlines_line (l rest : pystr) :
  is_line l = true -> Str.splitlines (l ++ Str.LF :: rest) = l :: Str.splitlines rest.
Proof.
  induction l as [|c l IH]; intros Hl.
  - reflexivity.
  - apply is_line_cons in Hl. destruct Hl as [Hc Hl].
    cbn [app Str.splitlines]. rewrite Hc, (IH Hl). reflexivity.
Qed.

Lemma universal_newlines_line (l rest : pystr) :
  is_line l = true ->
  Str.universal_newlines (l ++ Str.LF :: rest) = l ++ Str.LF :: Str.universal_newlines rest.
Proof.
  induction l as [|c l IH]; intros Hl.
  - reflexivity.
  - apply is_line_cons in Hl. destruct Hl as [Hc Hl].
    cbn [app Str.universal_newlines]. rewrite (is_line_not_CR c Hc), (IH Hl). reflexivity.
Qed.

(** A file of lines, each ended by a line feed, is read back as these
    lines. *)
Lemma read_lines_text_of_lines (lines : list pystr) :
  forallb is_line lines = true -> read_lines (text_of_lines lines) = lines.
Proof.
  unfold read_lines. induction lines as [|l lines IH]; intros H.
  - reflexivity.
  - cbn in H. apply andb_true_iff in H. destruct H as [Hl Hlines].
    unfold text_of_lines. cbn [map List.concat]. rewrite <- app_assoc. cbn [app].
    fold (text_of_lines lines).
    rewrite universal_newlines_line, splitlines_line by assumption.
    now rewrite (IH Hlines).
Qed.

(** Every line that [splitlines] returns is a line. *)
Lemma splitlines_lines (s : pystr) : forallb is_line (Str.splitlines s) = true.
Proof.
  assert (H : forall n s, (List.length s <= n)%nat ->
                          forallb is_line (Str.splitlines s) = true).
  { clear s. induction n as [|n IH]; intros s Hlen.
    - destruct s; [reflexivity | cbn in Hlen; lia].
    - destruct s as [|c s]; [reflexivity|]. cbn in Hlen.
      cbn [Str.splitlines].
      destruct (Str.is_linebreak c) eqn:Hc.
      + cbn [forallb]. change (is_line []) with true. cbn [andb].
        destruct (c =? 13)%N; [|apply IH; lia].
        destruct s as [|d s]; [reflexivity|].
        destruct (d =? 10)%N; apply IH; cbn in *; lia.
      + specialize (IH s ltac:(lia)).
        destruct (Str.splitlines s) as [|l ls].
        * cbn. unfold is_line. cbn. now rewrite Hc.
        * cbn [forallb] in *. apply andb_true_iff in IH. destruct IH as [Hl Hls].
          rewrite Hls, andb_true_r. apply is_line_cons. now split. }
  apply (H (List.length s)). lia.
Qed.

(** ** The download orchestrator *)

Lemma m4a_not_state_file (stem name : pystr) :
  name = py "downloaded.txt" \/ name = py "urls.txt" -> stem ++ py ".m4a" <> name.
Proof.
  intros Hname H.
  change (py ".m4a") with (py ".m4" ++ [97%N]) in H. rewrite app_assoc in H.
  destruct Hname as [-> | ->].
  - change (py "downloaded.txt") with (py "downloaded.tx" ++ [116%N]) in H.
    apply app_inj_tail in H. destruct H as [_ H]. discriminate.
  - change (py "urls.txt") with (py "urls.tx" ++ [116%N]) in H.
    apply app_inj_tail in H. destruct H as [_ H]. discriminate.
Qed.

(** A URL already in the set read from the ledger: one line is printed. *)
Lemma known_loop (P : platform) (known us : list pystr) :
  (forall u, In u us -> In u known) ->
  forall w,
    for_each us (download_one P (py "downloaded.txt") known) w
    = (Ok tt, mkworld (files w) (trace w ++ map already_message us)).
Proof.
  induction us as [|u us IH]; intros Hknown w.
  - cbn. rewrite app_nil_r. now destruct w.
  - cbn [for_each map]. unfold bind at 1. unfold download_one at 1.
    assert (Hu : existsb (Str.eqb u) known = true)
      by (apply existsb_eqb_In, Hknown; now left).
    rewrite Hu. cbn [negb]. unfold print, emit.
    rewrite IH by (intros; apply Hknown; now right).
    cbn [files trace]. rewrite <- app_assoc. reflexivity.
Qed.

(** One attempt that the provider completes: the audio file is saved and the
    URL is appended to the ledger; the URL store is not touched. *)
Lemma download_one_ok (P : platform) (known : list pystr) (url stem : pystr)
    (w : world) (content : pystr) :
  ~ In url known ->
  ydl_download P url = Ok stem ->
  Fs.lookup (py "downloaded.txt") (files w) = Some content ->
  exists w',
    download_one P (py "downloaded.txt") known url w = (Ok tt, w')
    /\ Fs.lookup (py "downloaded.txt") (files w') = Some (content ++ url ++ [Str.LF])
    /\ Fs.lookup (py "urls.txt") (files w') = Fs.lookup (py "urls.txt") (files w).
Proof.
  intros Hnew Hok Hledger.
  assert (Hu : existsb (Str.eqb url) known = false).
  { destruct (existsb (Str.eqb url) known) eqn:E; [|reflexivity].
    apply existsb_eqb_In in E. contradiction. }
  unfold download_one. rewrite Hu. cbn [negb].
  unfold ydl_download_call. run_monad. rewrite Hok.
  unfold open_write.
  destruct (stem ++ py ".m4a") as [|c name] eqn:E.
  { apply app_eq_nil in E. destruct E as [_ E]. discriminate. }
  rewrite <- E. cbn [files trace]. unfold open_append.
  change (py "downloaded.txt") with (100%N :: py "ownloaded.txt") at 1.
  cbv beta iota. cbn [files trace].
  eexists. split; [reflexivity|]. cbn [files]. split.
  - rewrite lookup_update_same.
    rewrite lookup_update_other by (apply m4a_not_state_file; now left).
    rewrite Hledger. reflexivity.
  - rewrite lookup_update_other by discriminate.
    apply lookup_update_other. apply m4a_not_state_file. now right.
Qed.

(** The loop of a run in which every attempt completes: the ledger gains, in
    order, the URLs that were not in the set read at the start. *)
Lemma download_loop (P : platform) (known us : list pystr) :
  (forall u, In u us -> ~ In u known -> exists stem, ydl_download P u = Ok stem) ->
  forall (w : world) (done : list pystr),
    Fs.lookup (py "downloaded.txt") (files w) = Some (text_of_lines done) ->
    exists w',
      for_each us (download_one P (py "downloaded.txt") known) w = (Ok tt, w')
      /\ Fs.lookup (py "downloaded.txt") (files w')
         = Some (text_of_lines
                   (done ++ filter (fun u => negb (existsb (Str.eqb u) known)) us))
      /\ Fs.lookup (py "urls.txt") (files w') = Fs.lookup (py "urls.txt") (files w).
Proof.
  induction us as [|u us IH]; intros Hok w done Hledger.
  - exists w. cbn. rewrite app_nil_r. auto.
  - cbn [for_each filter]. unfold bind at 1.
    destruct (existsb (Str.eqb u) known) eqn:Hu; cbn [negb].
    + unfold download_one at 1. rewrite Hu. cbn [negb]. unfold print, emit.
      destruct (IH (fun v Hv => Hok v (or_intror Hv))
                   (mkworld (files w)
                            (trace w ++ [Print (py "Already downloaded: " ++ u)]))
                   done Hledger) as (w' & Hrun & Hl & Hs).
      exists w'. auto.
    + assert (Hnew : ~ In u known).
      { intros Hin. apply existsb_eqb_In in Hin. congruence. }
      destruct (Hok u (or_introl eq_refl) Hnew) as [stem Hstem].
      destruct (download_one_ok P known u stem w _ Hnew Hstem Hledger)
        as (w1 & Hrun1 & Hl1 & Hs1).
      rewrite Hrun1.
      rewrite <- text_of_lines_snoc in Hl1.
      destruct (IH (fun v Hv => Hok v (or_intror Hv)) w1 (done ++ [u]) Hl1)
        as (w' & Hrun & Hl & Hs).
      exists w'. rewrite <- app_assoc in Hl. cbn [app] in Hl.
      split; [exact Hrun | split; [exact Hl | congruence]].
Qed.

(** [download_audio_from_urls] up to its loop, when the URL store exists:
    the ledger is created empty if absent, then both files are read. *)
Lemma download_audio_from_urls_eq (P : platform) (w : world) (store : pystr) :
  Fs.lookup (py "urls.txt") (files w) = Some store ->
  download_audio_from_urls P (py "urls.txt") (py "downloaded.txt") w
  = match Fs.lookup (py "downloaded.txt") (files w) with
    | Some content =>
      for_each (read_lines store)
        (download_one P (py "downloaded.txt") (read_lines content)) w
    | None =>
      for_each (read_lines store) (download_one P (py "downloaded.txt") [])
        (mkworld (Fs.update (py "downloaded.txt") (fun _ => []) (files w)) (trace w))
    end.
Proof.
  intros Hstore. unfold download_audio_from_urls, read_lines.
  run_monad. rewrite mem_lookup. unfold open_write, open_read.
  destruct (Fs.lookup (py "downloaded.txt") (files w)) as [content|] eqn:Hledger;
    cbn [negb].
  - rewrite Hledger, Hstore. reflexivity.
  - change (py "downloaded.txt") with (100%N :: py "ownloaded.txt") at 1.
    cbv beta iota. cbn [files trace].
    rewrite lookup_update_same. cbv beta iota. cbn [files trace].
    rewrite lookup_update_other by discriminate. rewrite Hstore. reflexivity.
Qed.

(** C6 (amended): for every URL store and every ledger that is absent or
    made of lines each ended by a line feed (as the script writes it), if a
    first run of [download_audio_from_urls] succeeds for every URL it
    attempts, then a second run on the unchanged URL store and the resulting
    ledger calls the download provider zero times: every URL is found in the
    set read from the ledger and skipped. *)
Theorem second_run_downloads_nothing (P : platform) (w : world)
    (lines : list pystr) (store : pystr) :
  ledger_of (files w) lines ->
  Fs.lookup (py "urls.txt") (files w) = Some store ->
  (forall url, In url (read_lines store) -> ~ In url lines ->
               exists stem, ydl_download P url = Ok stem) ->
  exists w1,
    download_audio_from_urls P (py "urls.txt") (py "downloaded.txt") w = (Ok tt, w1)
    /\ Fs.lookup (py "urls.txt") (files w1) = Some store
    /\ download_audio_from_urls P (py "urls.txt") (py "downloaded.txt") w1
       = (Ok tt, mkworld (files w1) (trace w1 ++ map already_message (read_lines store)))
    /\ calls is_download (map already_message (read_lines store)) = [].
Proof.
  intros [Hlines Hledger] Hstore Hok.
  set (urls := read_lines store) in *.
  set (attempted := filter (fun u => negb (existsb (Str.eqb u) lines)) urls).
  assert (Hfirst : exists w1,
             download_audio_from_urls P (py "urls.txt") (py "downloaded.txt") w
             = (Ok tt, w1)
             /\ Fs.lookup (py "downloaded.txt") (files w1)
                = Some (text_of_lines (lines ++ attempted))
             /\ Fs.lookup (py "urls.txt") (files w1) = Some store).
  { rewrite (download_audio_from_urls_eq P w store Hstore). fold urls.
    destruct (Fs.lookup (py "downloaded.txt") (files w)) as [content|] eqn:E.
    - subst content. rewrite (read_lines_text_of_lines lines Hlines).
      destruct (download_loop P lines urls Hok w lines E) as (w1 & Hrun & Hl & Hs).
      exists w1. split; [exact Hrun | split; [exact Hl | congruence]].
    - subst lines.
      destruct (download_loop P [] urls Hok
                  (mkworld (Fs.update (py "downloaded.txt") (fun _ => []) (files w))
                           (trace w)) [])
        as (w1 & Hrun & Hl & Hs).
      { cbn [files]. now rewrite lookup_update_same. }
      exists w1. split; [exact Hrun | split; [exact Hl|]].
      rewrite Hs. cbn [files]. rewrite lookup_update_other by discriminate.
      exact Hstore. }
  destruct Hfirst as (w1 & Hrun1 & Hledger1 & Hstore1).
  exists w1. split; [exact Hrun1 | split; [exact Hstore1 | split]].
  - rewrite (download_audio_from_urls_eq P w1 store Hstore1), Hledger1. fold urls.
    rewrite read_lines_text_of_lines.
    + apply known_loop. intros u Hu.
      apply in_or_app.
      destruct (existsb (Str.eqb u) lines) eqn:E.
      * left. now apply existsb_eqb_In.
      * right. subst attempted. apply filter_In. split; [exact Hu | now rewrite E].
    + rewrite forallb_app, Hlines. cbn [andb].
      apply forallb_forall. intros u Hu. subst attempted.
      apply filter_In in Hu. destruct Hu as [Hu _].
      pose proof (splitlines_lines (Str.universal_newlines store)) as Hall.
      rewrite forallb_forall in Hall. now apply Hall.
  - unfold calls. clear. generalize urls as us.
    induction us as [|u us IH]; [reflexivity | exact IH].
Qed.

Lemma second_run_downloads_nothing_witness :
  let P := sample_platform title_3abn in
  let store := text_of_lines [py "https://www.youtube.com/watch?v=UCtWyo";
                              py "https://www.youtube.com/watch?v=UCvJRu"] in
  exists w1,
    download_audio_from_urls P (py "urls.txt") (py "downloaded.txt")
      (mkworld terminated_ledger []) = (Ok tt, w1)
    /\ Fs.lookup (py "urls.txt") (files w1) = Some store
    /\ download_audio_from_urls P (py "urls.txt") (py "downloaded.txt") w1
       = (Ok tt, mkworld (files w1) (trace w1 ++ map already_message (read_lines store)))
    /\ calls is_download (map already_message (read_lines store)) = [].
Proof.
  apply (second_run_downloads_nothing (sample_platform title_3abn)
           (mkworld terminated_ledger [])
           [py "https://www.youtube.com/watch?v=UCvJRu"]).
  - split; reflexivity.
  - reflexivity.
  - intros url _ _. eexists. reflexivity.
Defined.

(** C6 (as stated) fails on a ledger whose last line has no line feed: the
    first run appends its URL right after that line, the second run reads
    the two as one line, does not find the URL and downloads it again. *)
Lemma second_run_downloads_again :
  let P := sample_platform title_3abn in
  let url := py "https://www.youtube.com/watch?v=UCtWyo" in
  let run1 := download_audio_from_urls P (py "urls.txt") (py "downloaded.txt")
                (mkworld unterminated_ledger []) in
  let run2 := download_audio_from_urls P (py "urls.txt") (py "downloaded.txt")
                (mkworld (files (snd run1)) []) in
  fst run1 = Ok tt
  /\ calls is_download (trace (snd run1)) = [YdlDownload url]
  /\ Fs.lookup (py "urls.txt") (files (snd run1))
     = Fs.lookup (py "urls.txt") unterminated_ledger
  /\ fst run2 = Ok tt
  /\ calls is_download (trace (snd run2)) = [YdlDownload url].
Proof. vm_compute. repeat split; reflexivity. Qed.

(** ** Dates in ISO format *)

Lemma zfill4_all : forallb (fun k => zfill4_ok (Z.of_nat k)) (seq 1 (Z.to_nat 9999)) = true.
Proof. vm_compute. reflexivity. Qed.

Lemma zfill2_all : forallb (fun k => zfill2_ok (Z.of_nat k)) (seq 1 (Z.to_nat 31)) = true.
Proof. vm_compute. reflexivity. Qed.

Lemma zfill4_digits (n : Z) :
  1 <= n <= 9999 ->
  Str.zfill 4 n = [digit (n / 1000); digit (n / 100); digit (n / 10); digit n].
Proof.
  intros Hn. pose proof zfill4_all as H. rewrite forallb_forall in H.
  specialize (H (Z.to_nat n)). rewrite Z2Nat.id in H by lia.
  apply str_eqb_eq. apply H. apply in_seq. lia.
Qed.

Lemma zfill2_digits (n : Z) :
  1 <= n <= 31 -> Str.zfill 2 n = [digit (n / 10); digit n].
Proof.
  intros Hn. pose proof zfill2_all as H. rewrite forallb_forall in H.
  specialize (H (Z.to_nat n)). rewrite Z2Nat.id in H by lia.
  apply str_eqb_eq. apply H. apply in_seq. lia.
Qed.

Lemma days_in_month_le_31 (y m : Z) : days_in_month y m <= 31.
Proof.
  unfold days_in_month, tbl.
  destruct ((m =? 2) && is_leap y); [lia|].
  unfold DAYS_IN_MONTH. generalize (Z.to_nat m) as n. intros n.
  do 13 (destruct n as [|n]; [cbn; lia|]). destruct n; cbn; lia.
Qed.

Lemma of_Z_four_all :
  forallb (fun k => (List.length (Str.of_Z (Z.of_nat k)) =? 4)%nat)
          (seq 1000 (Z.to_nat 9000)) = true.
Proof. vm_compute. reflexivity. Qed.

Lemma of_Z_four (y : Z) : 1000 <= y <= 9999 -> List.length (Str.of_Z y) = 4%nat.
Proof.
  intros Hy. pose proof of_Z_four_all as H. rewrite forallb_forall in H.
  specialize (H (Z.to_nat y)). rewrite Z2Nat.id in H by lia.
  apply Nat.eqb_eq. apply H. apply in_seq. lia.
Qed.

Lemma of_Z_four_digits (y : Z) :
  1000 <= y <= 9999 ->
  Str.of_Z y = [digit (y / 1000); digit (y / 100); digit (y / 10); digit y].
Proof.
  intros Hy. rewrite <- zfill4_digits by lia.
  unfold Str.zfill. rewrite of_Z_four by exact Hy. reflexivity.
Qed.

(** [strftime('%Y-%m-%d')] is the ISO date, for every valid date with a year
    of four digits. *)
Lemma strftime_iso (P : platform) (d : datetime) :
  valid_datetime d = true -> 1000 <= year d -> strftime_Ymd P d = iso_date d.
Proof.
  unfold valid_datetime. rewrite andb_true_iff. intros [Hd _] Hyear.
  apply valid_date_bounds in Hd. destruct Hd as (Hy & Hm & Hday).
  pose proof (days_in_month_le_31 (year d) (month d)).
  unfold strftime_Ymd, iso_date.
  replace (1000 <=? year d) with true by (symmetry; apply Z.leb_le; exact Hyear).
  rewrite of_Z_four_digits by lia. rewrite !zfill2_digits by lia. reflexivity.
Qed.

(** ** Quiet computations *)

Section Quiet.

Variable kind : event -> bool.

Lemma quiet_unchanged {A} (m : M A) :
  (forall w, trace (snd (m w)) = trace w) -> quiet kind m.
Proof. intros H w. exists []. rewrite H, app_nil_r. auto. Qed.

Lemma quiet_ret {A} (a : A) : quiet kind (ret a).
Proof. now apply quiet_unchanged. Qed.

Lemma quiet_raise {A} (e : exn) : quiet kind (@raise A e).
Proof. now apply quiet_unchanged. Qed.

Lemma quiet_lift {A} (r : result A) : quiet kind (lift r).
Proof. now apply quiet_unchanged. Qed.

Lemma quiet_emit (ev : event) : kind ev = false -> quiet kind (emit ev).
Proof.
  intros H w. exists [ev]. split; [reflexivity|]. unfold calls. cbn. now rewrite H.
Qed.

Lemma quiet_bind {A B} (m : M A) (k : A -> M B) :
  quiet kind m -> (forall a, quiet kind (k a)) -> quiet kind (bind m k).
Proof.
  intros Hm Hk w. unfold bind. destruct (Hm w) as (evs1 & H1 & Hc1).
  destruct (m w) as [[a|e] w1]; cbn [snd] in *.
  - destruct (Hk a w1) as (evs2 & H2 & Hc2). exists (evs1 ++ evs2).
    rewrite H2, H1, app_assoc. split; [reflexivity|].
    unfold calls in *. now rewrite filter_app, Hc1, Hc2.
  - now exists evs1.
Qed.

Lemma quiet_try {A} (catches : exn -> bool) (m : M A) (h : exn -> M A) :
  quiet kind m -> (forall e, quiet kind (h e)) -> quiet kind (try_except catches m h).
Proof.
  intros Hm Hh w. unfold try_except. destruct (Hm w) as (evs1 & H1 & Hc1).
  destruct (m w) as [[a|e] w1]; cbn [snd] in *.
  - now exists evs1.
  - destruct (catches e); [|now exists evs1].
    destruct (Hh e w1) as (evs2 & H2 & Hc2). exists (evs1 ++ evs2).
    rewrite H2, H1, app_assoc. split; [reflexivity|].
    unfold calls in *. now rewrite filter_app, Hc1, Hc2.
Qed.

Lemma quiet_for_each {A} (l : list A) (body : A -> M unit) :
  (forall x, quiet kind (body x)) -> quiet kind (for_each l body).
Proof.
  intros Hbody. induction l as [|x l IH]; cbn [for_each].
  - apply quiet_ret.
  - apply quiet_bind; [apply Hbody | intros _; exact IH].
Qed.

Lemma quiet_os_path_exists (name : pystr) : quiet kind (os_path_exists name).
Proof. now apply quiet_unchanged. Qed.

Lemma quiet_open_write (name data : pystr) : quiet kind (open_write name data).
Proof. apply quiet_unchanged. intros w. unfold open_write. now destruct name. Qed.

Lemma quiet_open_append (name data : pystr) : quiet kind (open_append name data).
Proof. apply quiet_unchanged. intros w. unfold open_append. now destruct name. Qed.

End Quiet.

(** ** The plain-file downloader, continued *)

(** [download_file] never raises. *)
Lemma download_file_ok (P : platform) (url : pystr) (w : world) :
  fst (download_file P url w) = Ok tt.
Proof.
  unfold download_file. unfold bind at 1. unfold os_path_exists at 1.
  destruct (Fs.mem _ (files w)); [reflexivity|].
  unfold try_except.
  match goal with |- context [match ?m ?w0 with _ => _ end] => destruct (m w0) as [[[]|e] w1] end.
  - reflexivity.
  - unfold Exception. destruct e as [| | | | | |[]|]; reflexivity.
Qed.

(** [download_file] makes no probe. *)
Lemma download_file_quiet (P : platform) (url : pystr) :
  quiet is_head (download_file P url).
Proof.
  unfold download_file.
  apply quiet_bind; [apply quiet_os_path_exists|]. intros [|].
  - apply quiet_emit. reflexivity.
  - apply quiet_try.
    + apply quiet_bind; [apply quiet_emit; reflexivity | intros _].
      apply quiet_bind; [apply quiet_emit; reflexivity | intros _].
      apply quiet_bind; [apply quiet_lift | intros response].
      apply quiet_bind.
      { destruct ((400 <=? status_code response) && (status_code response <? 600));
          [apply quiet_raise | apply quiet_ret]. }
      intros _. apply quiet_bind; [apply quiet_open_write | intros _].
      apply quiet_bind.
      { apply quiet_for_each. intros [|c chunk];
          [apply quiet_ret | apply quiet_open_append]. }
      intros _. destruct (broken response);
        [apply quiet_raise | apply quiet_emit; reflexivity].
    + intros e. destruct e as [| | | | | |[]|]; apply quiet_emit; reflexivity.
Qed.

(** ** The daily fetcher *)

Lemma add_days_ok (d : datetime) (k : Z) :
  valid_datetime d = true ->
  1 <= toordinal d + k <= MAXORDINAL ->
  exists d', add_days d k = Ok d'
             /\ valid_datetime d' = true
             /\ toordinal d' = toordinal d + k.
Proof.
  intros Hv Hrange. unfold add_days.
  replace ((0 <? toordinal d + k) && (toordinal d + k <=? MAXORDINAL)) with true
    by (symmetry; rewrite andb_true_iff, Z.ltb_lt, Z.leb_le; lia).
  pose proof (ord2ymd_spec (toordinal d + k) Hrange) as Hord.
  destruct (ord2ymd (toordinal d + k)) as [[y m] dd]. destruct Hord as [Hvd Hord].
  eexists. split; [reflexivity|].
  unfold valid_datetime, toordinal in *.
  cbn [year month day hour minute second microsecond].
  apply andb_true_iff in Hv. destruct Hv as [_ Ht]. rewrite Hvd, Ht. auto.
Qed.

(** The probe of one day: exactly one HEAD request, on the URL of that day;
    an exception of the probe leaves the loop body when it is no
    [RequestException], and only then. *)
Lemma probe_day_run (P : platform) (last_saturday d : datetime) (i : Z) (w : world) :
  add_days last_saturday i = Ok d ->
  exists w' evs,
    probe_day P last_saturday i w
    = (match requests_head P (py "https://d7dlhz1yjc01y.cloudfront.net/audio/en/lessons/"
                              ++ strftime_Ymd P d ++ py ".mp3") with
       | Raise e => if RequestException e then Ok tt else Raise e
       | Ok _ => Ok tt
       end, w')
    /\ trace w' = trace w ++ evs
    /\ calls is_head evs
       = [HttpHead (py "https://d7dlhz1yjc01y.cloudfront.net/audio/en/lessons/"
                    ++ strftime_Ymd P d ++ py ".mp3")].
Proof.
  intros Hadd. unfold probe_day. unfold bind at 1. unfold lift at 1. rewrite Hadd.
  set (url := py "https://d7dlhz1yjc01y.cloudfront.net/audio/en/lessons/"
              ++ strftime_Ymd P d ++ py ".mp3").
  unfold try_except. unfold bind at 1. unfold emit at 1.
  set (w0 := mkworld (files w) (trace w ++ [HttpHead url])).
  destruct (requests_head P url) as [status|e].
  - assert (Hrest : exists w' evs,
               (if status =? 200
                then (ex <- os_path_exists (strftime_Ymd P d ++ py ".mp3") ;;
                      if negb ex then download_file P url
                      else print (py "File " ++ strftime_Ymd P d
                                  ++ py ".mp3 already exists. Skipping download."))%monad
                else print (py "File not found for " ++ strftime_Ymd P d
                            ++ py ". Skipping."))
                 w0 = (Ok tt, w')
               /\ trace w' = trace w0 ++ evs /\ calls is_head evs = []).
    { destruct (status =? 200).
      - unfold bind, os_path_exists.
        destruct (Fs.mem (strftime_Ymd P d ++ py ".mp3") (files w0)); cbn [negb].
        + eexists _, [_]. split; [reflexivity|]. split; reflexivity.
        + pose proof (download_file_ok P url w0) as Hok.
          destruct (download_file_quiet P url w0) as (evs & Htr & Hq).
          destruct (download_file P url w0) as [r w']. cbn [fst snd] in *. subst r.
          now exists w', evs.
      - eexists _, [_]. split; [reflexivity|]. split; reflexivity. }
    destruct Hrest as (w' & evs & Hrun & Htr & Hq). rewrite Hrun.
    exists w', (HttpHead url :: evs). split; [reflexivity|]. split.
    + rewrite Htr. subst w0. cbn [trace]. rewrite <- app_assoc. reflexivity.
    + unfold calls in *. cbn [filter is_head]. now rewrite Hq.
  - unfold raise. destruct (RequestException e).
    + unfold print_exn, emit. cbn [files trace].
      eexists _, _. split; [reflexivity|]. split.
      * cbn [trace]. subst w0. cbn [trace]. rewrite <- app_assoc. reflexivity.
      * reflexivity.
    + exists w0, [HttpHead url]. split; [reflexivity|]. split; reflexivity.
Qed.

(** The loop over the days of the week, when the probe raises network errors
    only. *)
Lemma probe_loop (P : platform) (last_saturday : datetime)
    (offsets : list Z) (dates : list datetime) :
  probe_contained P ->
  Forall2 (fun i d => add_days last_saturday i = Ok d) offsets dates ->
  forall w,
    exists w' evs,
      for_each offsets (probe_day P last_saturday) w = (Ok tt, w')
      /\ trace w' = trace w ++ evs
      /\ calls is_head evs
         = map (fun d => HttpHead
                           (py "https://d7dlhz1yjc01y.cloudfront.net/audio/en/lessons/"
                            ++ strftime_Ymd P d ++ py ".mp3")) dates.
Proof.
  intros Hprobe. induction 1 as [|i d offsets dates Hadd _ IH]; intros w.
  - exists w, []. cbn. rewrite app_nil_r. auto.
  - cbn [for_each map]. unfold bind at 1.
    destruct (probe_day_run P last_saturday d i w Hadd) as (w1 & evs1 & Hrun1 & Ht1 & Hc1).
    rewrite Hrun1.
    assert (Hok : match requests_head P (py "https://d7dlhz1yjc01y.cloudfront.net/audio/en/lessons/"
                                         ++ strftime_Ymd P d ++ py ".mp3") with
                  | Raise e => if RequestException e then Ok tt else Raise e
                  | Ok _ => Ok tt
                  end = Ok tt).
    { destruct (requests_head P _) as [status|e] eqn:Hhead; [reflexivity|].
      now rewrite (Hprobe _ _ Hhead). }
    rewrite Hok.
    destruct (IH w1) as (w' & evs2 & Hrun & Ht2 & Hc2).
    exists w', (evs1 ++ evs2). split; [exact Hrun|]. split.
    + rewrite Ht2, Ht1, app_assoc. reflexivity.
    + unfold calls in *. rewrite filter_app, Hc1, Hc2. reflexivity.
Qed.

Lemma toordinal_in_year (d : datetime) :
  valid_datetime d = true ->
  days_before_year (year d) < toordinal d <= days_before_year (year d) + 366.
Proof.
  unfold valid_datetime. rewrite andb_true_iff. intros [Hd _].
  apply valid_date_bounds in Hd. destruct Hd as (Hy & Hm & Hday).
  unfold toordinal, ymd2ord.
  assert (Hin : 1 <= days_before_month (year d) (month d) + day d
                <= 365 + (if is_leap (year d) then 1 else 0)).
  { revert Hday. unfold days_before_month, days_in_month.
    destruct (month_cases (month d) Hm) as [H|[H|[H|[H|[H|[H|[H|[H|[H|[H|[H|H]]]]]]]]]]];
      rewrite H; calc_closed; destruct (is_leap (year d)); calc_closed; lia. }
  destruct (is_leap (year d)); lia.
Qed.

Lemma toordinal_range (d : datetime) :
  valid_datetime d = true -> 1 <= toordinal d <= MAXORDINAL.
Proof.
  unfold valid_datetime. rewrite andb_true_iff. intros [Hd _].
  apply valid_date_bounds in Hd. destruct Hd as (Hy & Hm & Hday).
  unfold toordinal, ymd2ord, MAXORDINAL.
  assert (Hin : 1 <= days_before_month (year d) (month d) + day d
                <= 365 + (if is_leap (year d) then 1 else 0)).
  { revert Hday. unfold days_before_month, days_in_month.
    destruct (month_cases (month d) Hm) as [H|[H|[H|[H|[H|[H|[H|[H|[H|[H|[H|H]]]]]]]]]]];
      rewrite H; calc_closed; destruct (is_leap (year d)); calc_closed; lia. }
  assert (Hleap : is_leap (year d) = true -> year d <= 9996).
  { unfold is_leap. rewrite andb_true_iff, Z.eqb_eq. intros [H4 _].
    Z.div_mod_to_equations. lia. }
  unfold days_before_year. cbv zeta.
  destruct (is_leap (year d)).
  - specialize (Hleap eq_refl). Z.div_mod_to_equations. lia.
  - Z.div_mod_to_equations. lia.
Qed.

(** A date in a year of up to three digits comes before ordinal 364879, and
    a date from year 1001 on comes after ordinal 365242. *)
Lemma four_digit_year (d : datetime) :
  valid_datetime d = true -> 364878 < toordinal d -> 1000 <= year d.
Proof.
  intros Hv Hord. pose proof (toordinal_in_year d Hv) as [_ Hup].
  unfold days_before_year in Hup. cbv zeta in Hup.
  Z.div_mod_to_equations. lia.
Qed.

Lemma toordinal_from_1001 (d : datetime) :
  valid_datetime d = true -> 1001 <= year d -> 365243 <= toordinal d.
Proof.
  intros Hv Hy. pose proof (toordinal_in_year d Hv) as [Hlow _].
  unfold days_before_year in Hlow. cbv zeta in Hlow.
  Z.div_mod_to_equations. lia.
Qed.

(** The run of the daily fetcher when the dates of the week are
    representable. *)
Lemma daily_run (P : platform) (today saturday : datetime) (dates : list datetime)
    (w : world) :
  probe_contained P ->
  add_days today (- ((weekday today + 2) mod 7)) = Ok saturday ->
  Forall2 (fun i d => add_days saturday i = Ok d) [0; 1; 2; 3; 4; 5; 6] dates ->
  exists w' evs,
    download_daily_lesson_audio_files P today w = (Ok tt, w')
    /\ trace w' = trace w ++ evs
    /\ calls is_head evs
       = map (fun d => HttpHead
                         (py "https://d7dlhz1yjc01y.cloudfront.net/audio/en/lessons/"
                          ++ strftime_Ymd P d ++ py ".mp3")) dates.
Proof.
  intros Hprobe Hsat Hdates. unfold download_daily_lesson_audio_files.
  unfold bind, lift. rewrite Hsat. now apply probe_loop.
Qed.

(** The week of a valid date from 0001-01-06 on: its Saturday and the seven
    dates that the loop computes. *)
Lemma week_of (today : datetime) :
  valid_datetime today = true ->
  6 <= toordinal today ->
  exists (saturday : datetime) (dates : list datetime),
    add_days today (- ((weekday today + 2) mod 7)) = Ok saturday
    /\ Forall2 (fun i d => add_days saturday i = Ok d) [0; 1; 2; 3; 4; 5; 6] dates
    /\ valid_datetime saturday = true
    /\ weekday saturday = 5
    /\ toordinal saturday <= toordinal today < toordinal saturday + 7
    /\ forallb valid_datetime dates = true
    /\ map toordinal dates
       = map (fun i => toordinal saturday + i) [0; 1; 2; 3; 4; 5; 6].
Proof.
  intros Hv Hlate.
  pose proof (toordinal_range today Hv) as Hrange. unfold MAXORDINAL in Hrange.
  set (k := (weekday today + 2) mod 7).
  assert (Hk : 0 <= k <= 6 /\ 6 <= toordinal today - k
               /\ weekday_of_ordinal (toordinal today - k) = 5
               /\ toordinal today - k + 6 <= 3652059).
  { subst k. unfold weekday, weekday_of_ordinal. Z.div_mod_to_equations. lia. }
  destruct Hk as (Hk & Hlow & Hsat & Hhigh).
  destruct (add_days_ok today (- k) Hv) as (saturday & Hadd & Hvs & Hos).
  { unfold MAXORDINAL. lia. }
  assert (Hday : forall i, 0 <= i <= 6 ->
                   exists d, add_days saturday i = Ok d
                             /\ valid_datetime d = true
                             /\ toordinal d = toordinal saturday + i).
  { intros i Hi. apply add_days_ok; [exact Hvs | unfold MAXORDINAL; lia]. }
  destruct (Hday 0 ltac:(lia)) as (d0 & A0 & V0 & O0).
  destruct (Hday 1 ltac:(lia)) as (d1 & A1 & V1 & O1).
  destruct (Hday 2 ltac:(lia)) as (d2 & A2 & V2 & O2).
  destruct (Hday 3 ltac:(lia)) as (d3 & A3 & V3 & O3).
  destruct (Hday 4 ltac:(lia)) as (d4 & A4 & V4 & O4).
  destruct (Hday 5 ltac:(lia)) as (d5 & A5 & V5 & O5).
  destruct (Hday 6 ltac:(lia)) as (d6 & A6 & V6 & O6).
  exists saturday, [d0; d1; d2; d3; d4; d5; d6].
  split; [exact Hadd|].
  split; [repeat constructor; assumption|].
  split; [exact Hvs|].
  split; [unfold weekday; rewrite Hos; replace (toordinal today + - k)
                                         with (toordinal today - k) by lia; exact Hsat|].
  split; [lia|].
  split; [cbn [forallb]; rewrite V0, V1, V2, V3, V4, V5, V6; reflexivity|].
  cbn [map]. congruence.
Qed.



(** ** Trimming

    What [strip] means: the characters to trim are cut at both ends, as far
    as they go, and nothing else is changed. *)

Lemma lstrip_by_spec (p : char -> bool) (s : pystr) :
  exists l, s = l ++ Str.lstrip_by p s
            /\ forallb p l = true
            /\ (forall c t, Str.lstrip_by p s = c :: t -> p c = false).
Proof.
  induction s as [|c s IH]; cbn [Str.lstrip_by].
  - exists []. repeat split. intros ? ? H. discriminate.
  - destruct (p c) eqn:Hc.
    + destruct IH as (l & Hs & Hl & Hhead). exists (c :: l). cbn.
      rewrite Hc, Hl. repeat split; [congruence | exact Hhead].
    + exists []. repeat split. intros c' t [= <- <-]. exact Hc.
Qed.

Lemma rstrip_by_spec (p : char -> bool) (s : pystr) :
  exists r, s = Str.rstrip_by p s ++ r
            /\ forallb p r = true
            /\ (forall t c, Str.rstrip_by p s = t ++ [c] -> p c = false).
Proof.
  unfold Str.rstrip_by.
  destruct (lstrip_by_spec p (rev s)) as (l & Hs & Hl & Hhead).
  exists (rev l). split; [|split].
  - rewrite <- rev_app_distr, <- Hs. now rewrite rev_involutive.
  - rewrite forallb_forall in *. intros x Hx. apply Hl. now apply in_rev.
  - intros t c H. apply (f_equal (@rev char)) in H.
    rewrite rev_involutive, rev_app_distr in H. cbn in H.
    exact (Hhead _ _ H).
Qed.

Lemma strip_by_spec (p : char -> bool) (s : pystr) :
  exists l r,
    s = l ++ Str.strip_by p s ++ r
    /\ forallb p l = true /\ forallb p r = true
    /\ (forall c t, Str.strip_by p s = c :: t -> p c = false)
    /\ (forall t c, Str.strip_by p s = t ++ [c] -> p c = false).
Proof.
  unfold Str.strip_by.
  destruct (lstrip_by_spec p s) as (l & Hs & Hl & Hhead).
  destruct (rstrip_by_spec p (Str.lstrip_by p s)) as (r & Hm & Hr & Hlast).
  exists l, r. split; [|split; [|split; [|split]]]; try assumption.
  - rewrite <- Hm. exact Hs.
  - intros c t H. rewrite H in Hm. cbn in Hm. exact (Hhead _ _ Hm).
Qed.

(** ** Concrete runs *)

Example str_examples :
  Str.split Str.PIPE (py "a|b|c") = [py "a"; py "b"; py "c"]
  /\ Str.split Str.PIPE (py "") = [[]]
  /\ Str.strip (py "  ab c  ") = py "ab c"
  /\ Str.splitlines (Str.LF :: Str.LF :: py "ab" ++ Str.CR :: Str.LF :: py "c" ++ [Str.CR])
     = [[]; []; py "ab"; py "c"]
  /\ Str.universal_newlines (py "a" ++ Str.CR :: Str.LF :: Str.CR :: py "b")
     = py "a" ++ Str.LF :: Str.LF :: py "b"
  /\ Str.of_Z 2025 = py "2025" /\ Str.of_Z 0 = py "0" /\ Str.of_Z (-12) = py "-12"
  /\ Str.zfill 2 3 = py "03" /\ Str.zfill 4 2025 = py "2025".
Proof. repeat split; reflexivity. Qed.

Example glob_examples :
  Str.fnmatch (py "*Lesson*.mp3") (py "2025 Q1 Lesson 5.mp3") = true
  /\ Str.fnmatch (py "*Lesson*.mp3") (py "Lesson.mp3x") = false
  /\ Str.fnmatch (py "*.mp3") (py ".mp3") = true
  /\ glob_names (py "*.mp3") stale_directory = [py "2024 Q4 Lesson 1.mp3"]
  /\ lesson_files stale_directory = [py "2024 Q4 Lesson 1.mp3"; py "2025 Q1 Lesson 7.m4a"].
Proof. repeat split; reflexivity. Qed.

Example lesson_pattern_examples :
  parsed_lesson silent_platform (py "2025 Q1 Lesson 5.mp3") = Some (2025, 1, 5)
  /\ parsed_lesson silent_platform (py "x12024Q4Lesson  12 - panel.m4a") = Some (2024, 4, 12)
  /\ parsed_lesson silent_platform (py "Lesson 5.mp3") = None
  /\ parsed_lesson silent_platform (py "2025 q1 Lesson 5.mp3") = None.
Proof. repeat split; reflexivity. Qed.

(** Week 14 is reached: the third quarter of 2023 starts on a Saturday. *)
Example week_14_reached :
  get_quarter_and_week (mkdatetime 2023 9 30 0 0 0 0) = Ok (3, 14)
  /\ get_quarter_and_week (mkdatetime 2023 7 1 0 0 0 0) = Ok (3, 1).
Proof. split; reflexivity. Qed.

(** A whole run with the sample platform: the stale files are purged, four
    URLs are found and downloaded, the seven days are probed. *)
Example script_sample_run :
  let run := script (sample_platform title_3abn) (Some (py "key"))
               (mkdatetime 2025 1 7 8 0 0 0) (mkdatetime 2025 1 7 8 0 5 0)
               (mkworld stale_directory []) in
  fst run = Ok tt
  /\ List.length (calls is_api_search (trace (snd run))) = 6%nat
  /\ List.length (calls is_download (trace (snd run))) = 4%nat
  /\ calls is_head (trace (snd run))
     = map (fun date =>
              HttpHead (py "https://d7dlhz1yjc01y.cloudfront.net/audio/en/lessons/"
                        ++ date ++ py ".mp3"))
           [py "2025-01-04"; py "2025-01-05"; py "2025-01-06"; py "2025-01-07";
            py "2025-01-08"; py "2025-01-09"; py "2025-01-10"]
  /\ Fs.mem (py "2024 Q4 Lesson 1.mp3") (files (snd run)) = false
  /\ Fs.mem (py "2025-01-07.mp3") (files (snd run)) = true.
Proof. vm_compute. repeat split; reflexivity. Qed.

(** With the API key missing the script stops before any work. *)
Example script_without_key :
  script silent_platform None (mkdatetime 2025 1 7 8 0 0 0) (mkdatetime 2025 1 7 8 0 5 0)
    empty_world
  = (Raise EnvironmentError, empty_world).
Proof. reflexivity. Qed.

(* ================================================================== *)
(** * Part III: further properties of the script                       *)
(* ================================================================== *)

(** ** The plain-file downloader: what it writes *)

Lemma calls_nil_forall (kind : event -> bool) (evs : list event) :
  calls kind evs = [] -> forall ev, In ev evs -> kind ev = false.
Proof.
  unfold calls. induction evs as [|e evs IH]; cbn; intros H ev Hin; [contradiction|].
  destruct (kind e) eqn:E; [discriminate|].
  destruct Hin as [<-|Hin]; [exact E | now apply IH].
Qed.

(** [download_file] adds to the trace only events that a kind leaves out, as
    soon as the kind leaves out the printed lines and the GET of its URL. *)
Lemma download_file_emits (P : platform) (url : pystr) (kind : event -> bool) :
  (forall text, kind (Print text) = false) ->
  (forall text e, kind (PrintExn text e) = false) ->
  kind (HttpGet url) = false ->
  quiet kind (download_file P url).
Proof.
  intros Hprint Hexn Hget. unfold download_file.
  apply quiet_bind; [apply quiet_os_path_exists|]. intros [|].
  - apply quiet_emit. apply Hprint.
  - apply quiet_try.
    + apply quiet_bind; [apply quiet_emit; apply Hprint | intros _].
      apply quiet_bind; [apply quiet_emit; exact Hget | intros _].
      apply quiet_bind; [apply quiet_lift | intros response].
      apply quiet_bind.
      { destruct ((400 <=? status_code response) && (status_code response <? 600));
          [apply quiet_raise | apply quiet_ret]. }
      intros _. apply quiet_bind; [apply quiet_open_write | intros _].
      apply quiet_bind.
      { apply quiet_for_each. intros [|c chunk];
          [apply quiet_ret | apply quiet_open_append]. }
      intros _. destruct (broken response);
        [apply quiet_raise | apply quiet_emit; apply Hprint].
    + intros e. destruct e as [| | | | | |[]|]; apply quiet_emit;
        first [apply Hprint | apply Hexn].
Qed.

(** X1: [download_file] never raises, whatever the provider does: every
    failure is caught and printed; and all it adds to the trace are printed
    lines and the GET of its own URL. *)
Theorem download_file_contained (P : platform) (url : pystr) (w : world) :
  exists w' evs,
    download_file P url w = (Ok tt, w')
    /\ trace w' = trace w ++ evs
    /\ (forall ev, In ev evs ->
          (exists text, ev = Print text)
          \/ (exists text e, ev = PrintExn text e)
          \/ ev = HttpGet url).
Proof.
  pose proof (download_file_ok P url w) as Hok.
  destruct (download_file_emits P url (foreign_to_download url)) with (w := w)
    as (evs & Htr & Hq); try reflexivity.
  { cbn. now rewrite str_eqb_refl. }
  destruct (download_file P url w) as [r w']. cbn [fst snd] in *. subst r.
  exists w', evs. split; [reflexivity | split; [exact Htr|]].
  intros ev Hin. pose proof (calls_nil_forall _ _ Hq ev Hin) as Hk.
  destruct ev; cbn in Hk; try discriminate; eauto.
  right. right. apply negb_false_iff, str_eqb_eq in Hk. now subst.
Qed.

(** The chunks of a response are appended in order; empty ones are skipped. *)
Lemma chunk_loop (local : pystr) (chunks : list pystr) :
  local <> [] ->
  forall (fs : Fs.dir) (c : pystr) (tr : list event),
    Fs.mem local fs = false ->
    for_each chunks
      (fun chunk => match chunk with
                    | [] => ret tt
                    | _ => open_append local chunk
                    end)
      (mkworld (fs ++ [(local, c)]) tr)
    = (Ok tt, mkworld (fs ++ [(local, c ++ List.concat chunks)]) tr).
Proof.
  intros Hne. induction chunks as [|chunk chunks IH]; intros fs c tr Hmem.
  - cbn. now rewrite app_nil_r.
  - cbn [for_each List.concat]. unfold bind at 1.
    destruct chunk as [|x chunk].
    + unfold ret at 1. rewrite IH by assumption. reflexivity.
    + unfold open_append at 1. destruct local as [|l0 local]; [congruence|].
      cbn [files trace]. rewrite update_last by assumption.
      rewrite IH by assumption. now rewrite <- app_assoc.
Qed.

(** [download_file] up to the answer of the provider, when the local file
    is absent. *)
Lemma download_file_absent (P : platform) (url : pystr) (w : world) :
  let local := Str.last (Str.split Str.SLASH url) in
  Fs.mem local (files w) = false ->
  download_file P url w
  = match requests_get P url with
    | Raise e =>
      (Ok tt,
       mkworld (files w)
         (trace w ++ [Print (py "Downloading " ++ url); HttpGet url;
                      match e with
                      | RequestsError Timeout => Print (py "Request timed out: " ++ url)
                      | RequestsError ConnectionError =>
                        Print (py "Connection error occurred for: " ++ url)
                      | RequestsError HTTPError =>
                        PrintExn (py "HTTP error occurred: ") e
                      | _ => PrintExn (py "Error downloading " ++ url ++ py ": ") e
                      end]))
    | Ok response =>
      if (400 <=? status_code response) && (status_code response <? 600) then
        (Ok tt,
         mkworld (files w)
           (trace w ++ [Print (py "Downloading " ++ url); HttpGet url;
                        PrintExn (py "HTTP error occurred: ") (RequestsError HTTPError)]))
      else
        match local with
        | [] =>
          (Ok tt,
           mkworld (files w)
             (trace w ++ [Print (py "Downloading " ++ url); HttpGet url;
                          PrintExn (py "Error downloading " ++ url ++ py ": ")
                                   (FileNotFoundError [])]))
        | _ =>
          (Ok tt,
           mkworld (files w ++ [(local, List.concat (chunks response))])
             (trace w ++ [Print (py "Downloading " ++ url); HttpGet url;
                          match broken response with
                          | Some e =>
                            match e with
                            | RequestsError Timeout =>
                              Print (py "Request timed out: " ++ url)
                            | RequestsError ConnectionError =>
                              Print (py "Connection error occurred for: " ++ url)
                            | RequestsError HTTPError =>
                              PrintExn (py "HTTP error occurred: ") e
                            | _ => PrintExn (py "Error downloading " ++ url ++ py ": ") e
                            end
                          | None => Print (py "Downloaded: " ++ local)
                          end]))
        end
    end.
Proof.
  intros local Hmem. unfold download_file. fold local.
  unfold bind at 1. unfold os_path_exists at 1. rewrite Hmem.
  unfold try_except. unfold bind at 1. unfold print at 1, emit at 1.
  unfold bind at 1. unfold emit at 1. cbn [files trace].
  unfold bind at 1. unfold lift at 1.
  destruct (requests_get P url) as [response|e].
  2: { unfold Exception. destruct e as [| | | | | |[]|];
         unfold print, print_exn, emit; cbn [files trace];
         rewrite <- !app_assoc; reflexivity. }
  unfold bind at 1.
  destruct ((400 <=? status_code response) && (status_code response <? 600)).
  { unfold raise, Exception, print_exn, emit. cbn [files trace].
    rewrite <- !app_assoc. reflexivity. }
  unfold ret at 1. unfold bind at 1. unfold open_write at 1.
  destruct local as [|l0 local'] eqn:Hlocal.
  { unfold Exception, print_exn, emit. cbn [files trace].
    rewrite <- !app_assoc. reflexivity. }
  rewrite <- Hlocal in *. cbn [files trace].
  rewrite update_absent by assumption.
  unfold bind at 1. rewrite chunk_loop by (assumption || congruence).
  cbn [app].
  destruct (broken response) as [e|].
  - unfold raise, Exception. destruct e as [| | | | | |[]|];
      unfold print, print_exn, emit; cbn [files trace];
      rewrite <- !app_assoc; reflexivity.
  - unfold print, emit. cbn [files trace]. rewrite <- !app_assoc. reflexivity.
Qed.

Lemma mem_app_last (name : pystr) (fs : Fs.dir) (c : pystr) :
  Fs.mem name (fs ++ [(name, c)]) = true.
Proof.
  unfold Fs.mem. rewrite existsb_app. cbn. rewrite str_eqb_refl.
  now rewrite orb_true_r.
Qed.

Lemma lookup_app_last (name : pystr) (fs : Fs.dir) (c : pystr) :
  Fs.mem name fs = false -> Fs.lookup name (fs ++ [(name, c)]) = Some c.
Proof.
  intros H. rewrite lookup_app_absent by assumption. cbn. now rewrite str_eqb_refl.
Qed.

(** X2: when the local file is absent, the request answers with a status
    outside 400..599 and the stream ends normally, [download_file] creates
    the file named as the last path segment of the URL, holding the chunks
    in order, with one GET. *)
Theorem download_file_saves (P : platform) (url : pystr) (w : world)
    (status : Z) (received : list pystr) :
  let local := Str.last (Str.split Str.SLASH url) in
  local <> [] ->
  Fs.mem local (files w) = false ->
  requests_get P url = Ok (mkresponse status received None) ->
  status < 400 \/ 600 <= status ->
  download_file P url w
  = (Ok tt,
     mkworld (files w ++ [(local, List.concat received)])
       (trace w ++ [Print (py "Downloading " ++ url); HttpGet url;
                    Print (py "Downloaded: " ++ local)]))
  /\ Fs.lookup local (files (snd (download_file P url w))) = Some (List.concat received).
Proof.
  intros local Hne Hmem Hget Hstatus.
  assert (Hrun : download_file P url w
                 = (Ok tt,
                    mkworld (files w ++ [(local, List.concat received)])
                      (trace w ++ [Print (py "Downloading " ++ url); HttpGet url;
                                   Print (py "Downloaded: " ++ local)]))).
  { rewrite (download_file_absent P url w Hmem). fold local. rewrite Hget.
    cbn [status_code chunks broken].
    replace ((400 <=? status) && (status <? 600)) with false
      by (symmetry; apply andb_false_iff; rewrite Z.leb_gt, Z.ltb_ge; lia).
    destruct local; [congruence | reflexivity]. }
  split; [exact Hrun|]. rewrite Hrun. cbn [snd files].
  now apply lookup_app_last.
Qed.

Lemma download_file_saves_witness :
  download_file (sample_platform title_3abn)
    (py "https://d7dlhz1yjc01y.cloudfront.net/audio/en/lessons/2025-01-04.mp3")
    empty_world
  = (Ok tt,
     mkworld ([] ++ [(py "2025-01-04.mp3", List.concat [py "ID3"; []; py "data"])])
       ([] ++ [Print (py "Downloading "
                      ++ py "https://d7dlhz1yjc01y.cloudfront.net/audio/en/lessons/2025-01-04.mp3");
               HttpGet (py "https://d7dlhz1yjc01y.cloudfront.net/audio/en/lessons/2025-01-04.mp3");
               Print (py "Downloaded: " ++ py "2025-01-04.mp3")])).
Proof.
  apply (fun H1 H2 H3 H4 => proj1
           (download_file_saves (sample_platform title_3abn)
              (py "https://d7dlhz1yjc01y.cloudfront.net/audio/en/lessons/2025-01-04.mp3")
              empty_world 200 [py "ID3"; []; py "data"] H1 H2 H3 H4)).
  - discriminate.
  - reflexivity.
  - reflexivity.
  - left. lia.
Defined.

(** X3: when the request fails or answers with a status in 400..599,
    [download_file] returns normally and leaves the working directory as it
    was: no file is created for a failed download. *)
Theorem download_file_failure_writes_nothing (P : platform) (url : pystr) (w : world) :
  (exists e, requests_get P url = Raise e)
  \/ (exists r, requests_get P url = Ok r /\ 400 <= status_code r < 600) ->
  fst (download_file P url w) = Ok tt
  /\ files (snd (download_file P url w)) = files w.
Proof.
  intros Hfail. split; [apply download_file_ok|].
  destruct (Fs.mem (Str.last (Str.split Str.SLASH url)) (files w)) eqn:Hmem.
  - unfold download_file, bind, os_path_exists. rewrite Hmem. reflexivity.
  - rewrite (download_file_absent P url w Hmem).
    destruct Hfail as [[e He]|(r & Hr & Hstatus)].
    + rewrite He. reflexivity.
    + rewrite Hr.
      replace ((400 <=? status_code r) && (status_code r <? 600)) with true
        by (symmetry; rewrite andb_true_iff, Z.leb_le, Z.ltb_lt; lia).
      reflexivity.
Qed.

Lemma download_file_failure_writes_nothing_witness :
  fst (download_file silent_platform (py "https://host/audio/2025-01-04.mp3")
         (mkworld stale_directory [])) = Ok tt
  /\ files (snd (download_file silent_platform (py "https://host/audio/2025-01-04.mp3")
                   (mkworld stale_directory []))) = stale_directory.
Proof.
  apply (download_file_failure_writes_nothing silent_platform
           (py "https://host/audio/2025-01-04.mp3") (mkworld stale_directory [])).
  left. eexists. reflexivity.
Defined.

(** X4: when the stream breaks after some chunks, [download_file] returns
    normally and the local file stays with the chunks received; from then on
    every call for that URL finds the file and makes no request, whatever
    the provider would answer: a truncated file is never fetched again. *)
Theorem download_file_keeps_partial (P : platform) (url : pystr) (w : world)
    (status : Z) (received : list pystr) (e : exn) :
  let local := Str.last (Str.split Str.SLASH url) in
  local <> [] ->
  Fs.mem local (files w) = false ->
  requests_get P url = Ok (mkresponse status received (Some e)) ->
  status < 400 \/ 600 <= status ->
  let w1 := snd (download_file P url w) in
  fst (download_file P url w) = Ok tt
  /\ Fs.lookup local (files w1) = Some (List.concat received)
  /\ forall P' : platform,
       download_file P' url w1
       = (Ok tt,
          mkworld (files w1)
            (trace w1 ++ [Print (py "File " ++ local
                                 ++ py " already exists. Skipping download.")])).
Proof.
  intros local Hne Hmem Hget Hstatus w1. subst w1.
  split; [apply download_file_ok|].
  rewrite (download_file_absent P url w Hmem). fold local. rewrite Hget.
  cbn [status_code chunks broken].
  replace ((400 <=? status) && (status <? 600)) with false
    by (symmetry; apply andb_false_iff; rewrite Z.leb_gt, Z.ltb_ge; lia).
  destruct local as [|l0 local'] eqn:Hlocal; [congruence|]. rewrite <- Hlocal in *.
  cbn [snd files trace]. split.
  - now apply lookup_app_last.
  - intros P'. unfold download_file. fold local. rewrite Hlocal.
    unfold bind, os_path_exists. cbn [files trace]. rewrite <- Hlocal.
    rewrite mem_app_last. reflexivity.
Qed.

Lemma download_file_keeps_partial_witness :
  let url := py "https://d7dlhz1yjc01y.cloudfront.net/audio/en/lessons/2025-01-04.mp3" in
  let w1 := snd (download_file broken_stream_platform url empty_world) in
  fst (download_file broken_stream_platform url empty_world) = Ok tt
  /\ Fs.lookup (Str.last (Str.split Str.SLASH url)) (files w1)
     = Some (List.concat [py "ID3"; py "da"])
  /\ forall P' : platform,
       download_file P' url w1
       = (Ok tt,
          mkworld (files w1)
            (trace w1 ++ [Print (py "File " ++ Str.last (Str.split Str.SLASH url)
                                 ++ py " already exists. Skipping download.")])).
Proof.
  apply (download_file_keeps_partial broken_stream_platform
           (py "https://d7dlhz1yjc01y.cloudfront.net/audio/en/lessons/2025-01-04.mp3")
           empty_world 200 [py "ID3"; py "da"] (RequestsError ConnectionError)).
  - discriminate.
  - reflexivity.
  - reflexivity.
  - left. lia.
Defined.

(** ** The daily fetcher: what it downloads *)

Lemma probe_day_probed (P : platform) (last_saturday : datetime) (i : Z) :
  quiet (unprobed_get P) (probe_day P last_saturday i).
Proof.
  unfold probe_day.
  apply quiet_bind; [apply quiet_lift | intros download_date].
  cbv zeta.
  remember (py "https://d7dlhz1yjc01y.cloudfront.net/audio/en/lessons/"
            ++ strftime_Ymd P download_date ++ py ".mp3") as url eqn:Hurl.
  apply quiet_try.
  - apply quiet_bind; [apply quiet_emit; reflexivity | intros _].
    destruct (requests_head P url) as [status|e] eqn:Hhead; [|apply quiet_raise].
    destruct (status =? 200) eqn:Hstatus; [|apply quiet_emit; reflexivity].
    apply quiet_bind; [apply quiet_os_path_exists | intros ex].
    destruct (negb ex); [|apply quiet_emit; reflexivity].
    apply download_file_emits; try reflexivity.
    cbn. unfold head_ok. now rewrite Hhead, Hstatus.
  - intros e. apply quiet_emit. reflexivity.
Qed.

(** X5: the daily fetcher issues a GET only for a URL whose probe answered
    200: a date that is not available, or whose probe failed, is never
    downloaded. *)
Theorem daily_fetcher_gets_only_probed (P : platform) (today : datetime) (w : world) :
  exists evs,
    trace (snd (download_daily_lesson_audio_files P today w)) = trace w ++ evs
    /\ forall url, In (HttpGet url) evs -> requests_head P url = Ok 200.
Proof.
  assert (Hq : quiet (unprobed_get P) (download_daily_lesson_audio_files P today)).
  { unfold download_daily_lesson_audio_files.
    apply quiet_bind; [apply quiet_lift | intros last_saturday].
    apply quiet_for_each. intros i. apply probe_day_probed. }
  destruct (Hq w) as (evs & Htr & Hcalls). exists evs. split; [exact Htr|].
  intros url Hin. pose proof (calls_nil_forall _ _ Hcalls _ Hin) as Hk.
  cbn in Hk. apply negb_false_iff in Hk. unfold head_ok in Hk.
  destruct (requests_head P url) as [status|e]; [|discriminate].
  apply Z.eqb_eq in Hk. now subst.
Qed.

(** ** The download orchestrator: every outcome *)

(** One URL of the store, whatever the provider does: a known URL is
    skipped; an unknown one is attempted once and recorded only when the
    provider completes. *)
Lemma download_one_run (P : platform) (known : list pystr) (url : pystr)
    (w : world) (content : pystr) :
  Fs.lookup (py "downloaded.txt") (files w) = Some content ->
  exists w' evs,
    download_one P (py "downloaded.txt") known url w = (Ok tt, w')
    /\ Fs.lookup (py "downloaded.txt") (files w')
       = Some (content ++ if negb (existsb (Str.eqb url) known) && download_succeeds P url
                          then url ++ [Str.LF] else [])
    /\ Fs.lookup (py "urls.txt") (files w') = Fs.lookup (py "urls.txt") (files w)
    /\ trace w' = trace w ++ evs
    /\ calls is_download evs
       = if existsb (Str.eqb url) known then [] else [YdlDownload url].
Proof.
  intros Hledger. unfold download_one, download_succeeds.
  destruct (existsb (Str.eqb url) known) eqn:Hknown; cbn [negb andb].
  - eexists _, [_]. unfold print, emit. split; [reflexivity|]. cbn [files trace].
    rewrite app_nil_r. repeat split; try reflexivity; assumption.
  - unfold ydl_download_call. run_monad.
    destruct (ydl_download P url) as [stem|e].
    + unfold open_write.
      destruct (stem ++ py ".m4a") as [|c name] eqn:E.
      { apply app_eq_nil in E. destruct E as [_ E]. discriminate. }
      rewrite <- E. cbn [files trace]. unfold open_append.
      change (py "downloaded.txt") with (100%N :: py "ownloaded.txt") at 1.
      cbv beta iota. cbn [files trace].
      eexists _, [_; _]. split; [reflexivity|]. cbn [files trace].
      split; [|split; [|split]].
      * rewrite lookup_update_same.
        rewrite lookup_update_other by (apply m4a_not_state_file; now left).
        rewrite Hledger. reflexivity.
      * rewrite lookup_update_other by discriminate.
        apply lookup_update_other. apply m4a_not_state_file. now right.
      * rewrite <- app_assoc. reflexivity.
      * reflexivity.
    + eexists _, [_; _; _]. split; [reflexivity|]. cbn [files trace].
      rewrite app_nil_r, <- !app_assoc. repeat split; try reflexivity; assumption.
Qed.

Lemma download_loop_run (P : platform) (known us : list pystr) :
  forall (w : world) (content : pystr),
    Fs.lookup (py "downloaded.txt") (files w) = Some content ->
    exists w' evs,
      for_each us (download_one P (py "downloaded.txt") known) w = (Ok tt, w')
      /\ Fs.lookup (py "downloaded.txt") (files w')
         = Some (content
                 ++ text_of_lines
                      (filter (fun u => negb (existsb (Str.eqb u) known)
                                        && download_succeeds P u) us))
      /\ Fs.lookup (py "urls.txt") (files w') = Fs.lookup (py "urls.txt") (files w)
      /\ trace w' = trace w ++ evs
      /\ calls is_download evs
         = map YdlDownload (filter (fun u => negb (existsb (Str.eqb u) known)) us).
Proof.
  induction us as [|u us IH]; intros w content Hledger.
  - exists w, []. cbn. rewrite !app_nil_r. auto.
  - cbn [for_each filter]. unfold bind at 1.
    destruct (download_one_run P known u w content Hledger)
      as (w1 & evs1 & Hrun1 & Hl1 & Hs1 & Ht1 & Hc1).
    rewrite Hrun1.
    destruct (IH w1 _ Hl1) as (w' & evs2 & Hrun & Hl & Hs & Ht & Hc).
    exists w', (evs1 ++ evs2). split; [exact Hrun|].
    split; [|split; [congruence|split]].
    + rewrite Hl, <- app_assoc. f_equal. f_equal.
      destruct (negb (existsb (Str.eqb u) known) && download_succeeds P u);
        [|reflexivity].
      unfold text_of_lines. cbn [map List.concat]. now rewrite <- app_assoc.
    + rewrite Ht, Ht1, app_assoc. reflexivity.
    + unfold calls in *. rewrite filter_app, Hc1, Hc.
      destruct (existsb (Str.eqb u) known); reflexivity.
Qed.

(** X6: with the URL store present, [download_audio_from_urls] returns
    normally whatever the provider does.  It attempts, in store order and
    once per line, exactly the URLs that are not in the ledger read at the
    start (a URL listed twice is attempted twice); it only appends to the
    ledger, one line per attempt that completes, and leaves the store as it
    is. *)
Theorem download_audio_from_urls_run (P : platform) (w : world) (store : pystr) :
  Fs.lookup (py "urls.txt") (files w) = Some store ->
  let old := match Fs.lookup (py "downloaded.txt") (files w) with
             | Some content => content
             | None => []
             end in
  let unknown := fun u => negb (existsb (Str.eqb u) (read_lines old)) in
  exists w' evs,
    download_audio_from_urls P (py "urls.txt") (py "downloaded.txt") w = (Ok tt, w')
    /\ trace w' = trace w ++ evs
    /\ calls is_download evs = map YdlDownload (filter unknown (read_lines store))
    /\ Fs.lookup (py "downloaded.txt") (files w')
       = Some (old ++ text_of_lines
                        (filter (fun u => unknown u && download_succeeds P u)
                                (read_lines store)))
    /\ Fs.lookup (py "urls.txt") (files w') = Some store.
Proof.
  intros Hstore old unknown. subst old unknown.
  rewrite (download_audio_from_urls_eq P w store Hstore).
  destruct (Fs.lookup (py "downloaded.txt") (files w)) as [content|] eqn:Hledger.
  - destruct (download_loop_run P (read_lines content) (read_lines store) w content Hledger)
      as (w' & evs & Hrun & Hl & Hs & Ht & Hc).
    exists w', evs. repeat split; try assumption. congruence.
  - destruct (download_loop_run P [] (read_lines store)
                (mkworld (Fs.update (py "downloaded.txt") (fun _ => []) (files w))
                         (trace w)) [])
      as (w' & evs & Hrun & Hl & Hs & Ht & Hc).
    { cbn [files]. now rewrite lookup_update_same. }
    exists w', evs. change (read_lines []) with (@nil pystr).
    repeat split; try assumption.
    rewrite Hs. cbn [files]. rewrite lookup_update_other by discriminate. exact Hstore.
Qed.

Lemma download_audio_from_urls_run_witness :
  let w := mkworld unterminated_ledger [] in
  let P := silent_platform in
  let store := py "https://www.youtube.com/watch?v=UCtWyo" ++ [Str.LF] in
  let old := match Fs.lookup (py "downloaded.txt") (files w) with
             | Some content => content
             | None => []
             end in
  let unknown := fun u => negb (existsb (Str.eqb u) (read_lines old)) in
  exists w' evs,
    download_audio_from_urls P (py "urls.txt") (py "downloaded.txt") w = (Ok tt, w')
    /\ trace w' = trace w ++ evs
    /\ calls is_download evs = map YdlDownload (filter unknown (read_lines store))
    /\ Fs.lookup (py "downloaded.txt") (files w')
       = Some (old ++ text_of_lines
                        (filter (fun u => unknown u && download_succeeds P u)
                                (read_lines store)))
    /\ Fs.lookup (py "urls.txt") (files w') = Some store.
Proof.
  apply (download_audio_from_urls_run silent_platform (mkworld unterminated_ledger [])).
  reflexivity.
Defined.

Lemma text_of_lines_app (a b : list pystr) :
  text_of_lines (a ++ b) = text_of_lines a ++ text_of_lines b.
Proof. unfold text_of_lines. now rewrite map_app, concat_app. Qed.

(** X7: a URL of the store that is not in the ledger and whose download
    fails is not recorded, and the next run attempts it again (the ledger
    being absent or made of lines each ended by a line feed). *)
Theorem failed_download_is_retried (P : platform) (w : world)
    (lines : list pystr) (store url : pystr) (e : exn) :
  ledger_of (files w) lines ->
  Fs.lookup (py "urls.txt") (files w) = Some store ->
  In url (read_lines store) -> ~ In url lines ->
  ydl_download P url = Raise e ->
  exists w1 w2 ledger1 evs2,
    download_audio_from_urls P (py "urls.txt") (py "downloaded.txt") w = (Ok tt, w1)
    /\ Fs.lookup (py "downloaded.txt") (files w1) = Some ledger1
    /\ ~ In url (read_lines ledger1)
    /\ download_audio_from_urls P (py "urls.txt") (py "downloaded.txt") w1 = (Ok tt, w2)
    /\ trace w2 = trace w1 ++ evs2
    /\ In (YdlDownload url) evs2.
Proof.
  intros [Hlines Hledger] Hstore Hurl Hnew Hfail.
  set (urls := read_lines store) in *.
  set (succ := filter (fun u => negb (existsb (Str.eqb u) lines) && download_succeeds P u)
                      urls).
  assert (Hsucc_lines : forallb is_line (lines ++ succ) = true).
  { rewrite forallb_app, Hlines. cbn [andb].
    apply forallb_forall. intros u Hu. subst succ. apply filter_In in Hu.
    destruct Hu as [Hu _].
    pose proof (splitlines_lines (Str.universal_newlines store)) as Hall.
    rewrite forallb_forall in Hall. now apply Hall. }
  assert (Hnot : ~ In url (lines ++ succ)).
  { intros Hin. apply in_app_or in Hin. destruct Hin as [Hin|Hin]; [contradiction|].
    subst succ. apply filter_In in Hin. destruct Hin as [_ Hin].
    apply andb_true_iff in Hin. destruct Hin as [_ Hin].
    unfold download_succeeds in Hin. rewrite Hfail in Hin. discriminate. }
  assert (Hfirst : exists w1,
             download_audio_from_urls P (py "urls.txt") (py "downloaded.txt") w
             = (Ok tt, w1)
             /\ Fs.lookup (py "downloaded.txt") (files w1)
                = Some (text_of_lines (lines ++ succ))
             /\ Fs.lookup (py "urls.txt") (files w1) = Some store).
  { rewrite (download_audio_from_urls_eq P w store Hstore). fold urls.
    destruct (Fs.lookup (py "downloaded.txt") (files w)) as [content|] eqn:E.
    - subst content. rewrite (read_lines_text_of_lines lines Hlines).
      destruct (download_loop_run P lines urls w _ E)
        as (w1 & evs & Hrun & Hl & Hs & _).
      exists w1. rewrite text_of_lines_app.
      split; [exact Hrun | split; [exact Hl | congruence]].
    - subst lines.
      destruct (download_loop_run P [] urls
                  (mkworld (Fs.update (py "downloaded.txt") (fun _ => []) (files w))
                           (trace w)) [])
        as (w1 & evs & Hrun & Hl & Hs & _).
      { cbn [files]. now rewrite lookup_update_same. }
      exists w1. split; [exact Hrun | split; [exact Hl|]].
      rewrite Hs. cbn [files]. rewrite lookup_update_other by discriminate.
      exact Hstore. }
  destruct Hfirst as (w1 & Hrun1 & Hledger1 & Hstore1).
  pose proof (read_lines_text_of_lines _ Hsucc_lines) as Hread.
  destruct (download_loop_run P (lines ++ succ) urls w1 _ Hledger1)
    as (w2 & evs2 & Hrun2 & _ & _ & Ht2 & Hc2).
  exists w1, w2, (text_of_lines (lines ++ succ)), evs2.
  split; [exact Hrun1|]. split; [exact Hledger1|].
  split; [now rewrite Hread|].
  split; [rewrite (download_audio_from_urls_eq P w1 store Hstore1), Hledger1, Hread;
          exact Hrun2|].
  split; [exact Ht2|].
  assert (Hin : In (YdlDownload url) (calls is_download evs2)).
  { rewrite Hc2. apply in_map. apply filter_In. split; [exact Hurl|].
    apply negb_true_iff.
    destruct (existsb (Str.eqb url) (lines ++ succ)) eqn:E; [|reflexivity].
    apply existsb_eqb_In in E. contradiction. }
  unfold calls in Hin. apply filter_In in Hin. tauto.
Qed.

Lemma failed_download_is_retried_witness :
  exists w1 w2 ledger1 evs2,
    download_audio_from_urls silent_platform (py "urls.txt") (py "downloaded.txt")
      (mkworld terminated_ledger []) = (Ok tt, w1)
    /\ Fs.lookup (py "downloaded.txt") (files w1) = Some ledger1
    /\ ~ In (py "https://www.youtube.com/watch?v=UCtWyo") (read_lines ledger1)
    /\ download_audio_from_urls silent_platform (py "urls.txt") (py "downloaded.txt") w1
       = (Ok tt, w2)
    /\ trace w2 = trace w1 ++ evs2
    /\ In (YdlDownload (py "https://www.youtube.com/watch?v=UCtWyo")) evs2.
Proof.
  apply (failed_download_is_retried silent_platform (mkworld terminated_ledger [])
           [py "https://www.youtube.com/watch?v=UCvJRu"]
           (text_of_lines [py "https://www.youtube.com/watch?v=UCtWyo";
                           py "https://www.youtube.com/watch?v=UCvJRu"])
           (py "https://www.youtube.com/watch?v=UCtWyo") OtherException).
  - split; reflexivity.
  - reflexivity.
  - left. reflexivity.
  - intros [H|[]]. discriminate H.
  - reflexivity.
Defined.

(** ** The period calculator: how the week moves *)

(** X8: inside a quarter the week number changes exactly on Saturdays: from
    one day to the next it grows by one when the next day is a Saturday and
    stays the same otherwise. *)
Theorem week_advances_on_saturday (d d' : datetime) (q w : Z) :
  valid_datetime d = true -> valid_datetime d' = true ->
  year d' = year d -> (month d' + 2) / 3 = (month d + 2) / 3 ->
  toordinal d' = toordinal d + 1 ->
  get_quarter_and_week d = Ok (q, w) ->
  get_quarter_and_week d' = Ok (q, w + if weekday d' =? 5 then 1 else 0).
Proof.
  intros Hv Hv' Hy Hq Hnext.
  rewrite (get_quarter_and_week_eq d Hv), (get_quarter_and_week_eq d' Hv').
  pose proof (get_quarter_and_week_facts d Hv)
    as (_ & _ & _ & Hsat & Hws & Hoff & _).
  cbv zeta in *. rewrite Hy, Hq.
  set (qs := ymd2ord (year d) (3 * ((month d + 2) / 3) - 2) 1) in *.
  set (ws := qs - (weekday_of_ordinal qs - 5) mod 7) in *.
  destruct (0 <? ws); [|discriminate].
  intros [= <- <-]. f_equal. f_equal. rewrite Hnext.
  unfold weekday. rewrite Hnext. unfold weekday_of_ordinal in *.
  destruct (Z.eqb_spec ((toordinal d + 1 + 6) mod 7) 5);
    Z.div_mod_to_equations; lia.
Qed.

Lemma week_advances_on_saturday_witness :
  get_quarter_and_week (mkdatetime 2025 2 8 0 0 0 0)
  = Ok (1, 6 + if weekday (mkdatetime 2025 2 8 0 0 0 0) =? 5 then 1 else 0).
Proof.
  apply (week_advances_on_saturday (mkdatetime 2025 2 7 23 59 59 0)
           (mkdatetime 2025 2 8 0 0 0 0) 1 6); reflexivity.
Defined.

(** X9: the first day of a quarter is in week 1 and its last day is in week
    13 or 14. *)
Theorem quarter_first_and_last_week (date : datetime) (q w : Z) :
  valid_datetime date = true ->
  get_quarter_and_week date = Ok (q, w) ->
  (month date = 3 * q - 2 -> day date = 1 -> w = 1)
  /\ (month date = 3 * q -> day date = days_in_month (year date) (month date) ->
      w = 13 \/ w = 14).
Proof.
  intros Hv. rewrite (get_quarter_and_week_eq date Hv).
  pose proof (get_quarter_and_week_facts date Hv)
    as (Hq & Hin & _ & Hsat & Hws & Hoff & _).
  cbv zeta in *.
  set (q0 := (month date + 2) / 3) in *. clearbody q0.
  set (qs := ymd2ord (year date) (3 * q0 - 2) 1) in *.
  set (ws := qs - (weekday_of_ordinal qs - 5) mod 7) in *.
  destruct (0 <? ws); [|discriminate].
  intros [= <- <-]. split.
  - intros Hm Hd. unfold toordinal. rewrite Hm, Hd. fold qs.
    Z.div_mod_to_equations; lia.
  - intros Hm Hd.
    assert (Hlen : 89 <= toordinal date - qs <= 91).
    { subst qs. unfold toordinal. rewrite Hd.
      unfold ymd2ord, days_before_month, days_in_month.
      assert (Hcases : (month date = 3 /\ 3 * q0 - 2 = 1)
                       \/ (month date = 6 /\ 3 * q0 - 2 = 4)
                       \/ (month date = 9 /\ 3 * q0 - 2 = 7)
                       \/ (month date = 12 /\ 3 * q0 - 2 = 10)) by lia.
      destruct Hcases as [[-> ->]|[[-> ->]|[[-> ->]|[-> ->]]]];
        calc_closed; destruct (is_leap (year date)); calc_closed; lia. }
    Z.div_mod_to_equations; lia.
Qed.

Lemma quarter_first_and_last_week_witness :
  (9 = 3 * 3 - 2 -> 30 = 1 -> 14 = 1)
  /\ (9 = 3 * 3 -> 30 = days_in_month 2023 9 -> 14 = 13 \/ 14 = 14).
Proof.
  apply (quarter_first_and_last_week (mkdatetime 2023 9 30 12 0 0 0) 3 14); reflexivity.
Defined.

(** ** The cleanup: when nothing is stale, and after a purge *)

Lemma compare_loop_fresh (P : platform) (cy cq cl : Z) (l : list pystr) :
  (forall g, In g l -> stale P cy cq cl g = false) ->
  forall w,
    compare_lesson_files P l cy cq cl w
    = (Ok tt, mkworld (files w) (trace w ++ map (compared_message P) l)).
Proof.
  induction l as [|g l IH]; intros Hfresh w.
  - cbn. rewrite app_nil_r. now destruct w.
  - cbn [compare_lesson_files map].
    assert (Hg := Hfresh g (or_introl eq_refl)).
    unfold stale, parsed_lesson in Hg. unfold compared_message at 1, parsed_lesson.
    destruct (Re.search (unicode_decimal P) g) as [[[g1 g2] g3]|].
    + rewrite Hg. run_monad. rewrite IH by (intros; apply Hfresh; now right).
      cbn [files trace]. rewrite <- !app_assoc. reflexivity.
    + run_monad. rewrite IH by (intros; apply Hfresh; now right).
      cbn [files trace]. rewrite <- !app_assoc. reflexivity.
Qed.

(** X10: when no scanned file is stale, [compare_and_cleanup_lesson_files]
    deletes nothing: the directory is left as it was, each scanned file is
    reported, or the absence of lesson files is.  A file that carries the
    current lesson is not stale. *)
Theorem cleanup_keeps_fresh_directory (P : platform) (cy cq cl : Z) (w : world) :
  (forall g, In g (lesson_files (files w)) -> stale P cy cq cl g = false) ->
  compare_and_cleanup_lesson_files P cy cq cl w
  = (Ok tt,
     mkworld (files w)
       (trace w ++ match lesson_files (files w) with
                   | [] => [Print (py "No previous lesson files found.")]
                   | l => map (compared_message P) l
                   end))
  /\ (forall g, parsed_lesson P g = Some (cy, cq, cl) -> stale P cy cq cl g = false).
Proof.
  intros Hfresh. split.
  - unfold compare_and_cleanup_lesson_files.
    unfold bind at 1. unfold glob at 1. cbn [files trace].
    unfold bind at 1. unfold glob at 1. cbn [files trace].
    fold (lesson_files (files w)).
    destruct (lesson_files (files w)) as [|g l] eqn:E.
    + reflexivity.
    + now rewrite compare_loop_fresh.
  - intros g Hg. unfold stale. rewrite Hg. unfold older.
    rewrite !Z.ltb_irrefl, !Z.eqb_refl. reflexivity.
Qed.

Lemma cleanup_keeps_fresh_directory_witness :
  let w := mkworld stale_directory [] in
  compare_and_cleanup_lesson_files silent_platform 2024 4 1 w
  = (Ok tt,
     mkworld (files w)
       (trace w ++ match lesson_files (files w) with
                   | [] => [Print (py "No previous lesson files found.")]
                   | l => map (compared_message silent_platform) l
                   end))
  /\ (forall g, parsed_lesson silent_platform g = Some (2024, 4, 1) ->
                stale silent_platform 2024 4 1 g = false).
Proof.
  apply (cleanup_keeps_fresh_directory silent_platform 2024 4 1
           (mkworld stale_directory [])).
  intros g Hg. cbn in Hg. destruct Hg as [<-|[<-|[]]]; reflexivity.
Defined.

(** A star matches any prefix of the name. *)
Lemma fnmatch_star (pat name : pystr) :
  Str.fnmatch (Str.STAR :: pat) name = true
  <-> exists a b, name = a ++ b /\ Str.fnmatch pat b = true.
Proof.
  induction name as [|c name IH].
  - rewrite fnmatch_star_nil. split.
    + intros H. now exists [], [].
    + intros (a & b & Hab & H). symmetry in Hab. apply app_eq_nil in Hab.
      destruct Hab as [_ ->]. exact H.
  - rewrite fnmatch_star_cons, orb_true_iff, IH. split.
    + intros [H|(a & b & -> & H)].
      * now exists [], (c :: name).
      * now exists (c :: a), b.
    + intros ([|d a] & b & Hab & H); cbn in Hab.
      * left. now subst b.
      * right. injection Hab as -> ->. now exists a, b.
Qed.

(** A literal character matches itself at the head of the name. *)
Lemma fnmatch_char (p : char) (pat name : pystr) :
  p <> Str.STAR ->
  Str.fnmatch (p :: pat) name = true
  <-> exists rest, name = p :: rest /\ Str.fnmatch pat rest = true.
Proof.
  intros Hp. cbn [Str.fnmatch].
  replace (p =? Str.STAR)%N with false by (symmetry; now apply N.eqb_neq).
  destruct name as [|c name].
  - split; [discriminate | intros (rest & H & _); discriminate].
  - rewrite andb_true_iff. unfold Str.char_eqb. rewrite N.eqb_eq. split.
    + intros [-> H]. now exists name.
    + intros (rest & [= -> ->] & H). auto.
Qed.

(** Every file that the cleanup scans is a file that the purge lists. *)
Lemma lesson_pattern_is_audio (ext name : pystr) :
  ~ In Str.STAR ext ->
  Str.fnmatch (py "*Lesson*" ++ ext) name = true ->
  Str.fnmatch (Str.STAR :: ext) name = true.
Proof.
  intros Hext H.
  change (py "*Lesson*" ++ ext) with (Str.STAR :: py "Lesson" ++ Str.STAR :: ext) in H.
  apply fnmatch_star in H. destruct H as (a & b & -> & H).
  change (py "Lesson") with [76; 101; 115; 115; 111; 110]%N in H. cbn [app] in H.
  do 6 (apply fnmatch_char in H; [|discriminate]; destruct H as (? & -> & H)).
  apply fnmatch_star_suffix in H; [|exact Hext]. destruct H as [stem ->].
  apply fnmatch_star_suffix; [exact Hext|].
  exists (a ++ [76; 101; 115; 115; 111; 110]%N ++ stem).
  now rewrite <- !app_assoc.
Qed.

Lemma filter_none {A} (p : A -> bool) (l : list A) :
  (forall x, In x l -> p x = false) -> filter p l = [].
Proof.
  induction l as [|x l IH]; intros H; cbn; [reflexivity|].
  rewrite (H x (or_introl eq_refl)). apply IH. intros; apply H; now right.
Qed.


(** ** The search orchestrator: both outcomes of the title lookup *)

Lemma search_and_save_urls_falsy (P : platform) (n q y : Z) (url_file : pystr)
    (title : option pystr) (evs : list event) :
  (forall w, get_lesson_title P n q y w
             = (Ok title, mkworld (files w) (trace w ++ evs))) ->
  Str.truthy title = false ->
  forall w, exists evs',
    search_and_save_urls P n q y url_file w
    = (Ok tt, mkworld (Fs.delete url_file (files w)) (trace w ++ evs'))
    /\ calls is_api_search evs' = [].
Proof.
  intros Htitle Hfalsy w.
  assert (Hno : calls is_api_search evs = []).
  { apply no_api_search_calls.
    destruct (get_lesson_title_run P n q y) as (title' & evs0 & Hrun & Hno).
    specialize (Hrun empty_world). rewrite Htitle in Hrun. cbn in Hrun.
    injection Hrun as _ <-. exact Hno. }
  unfold search_and_save_urls. run_monad. unfold os_remove. cbn [files trace].
  destruct (Fs.mem url_file (files w)) eqn:Hmem.
  - rewrite Hmem. rewrite Htitle. cbn [files trace]. rewrite Hfalsy. cbn [negb].
    cbn [files trace]. eexists. split.
    + rewrite <- !app_assoc. reflexivity.
    + unfold calls in *. cbn [app filter is_api_search].
      rewrite filter_app, Hno. reflexivity.
  - rewrite Htitle. rewrite Hfalsy. cbn [negb files trace].
    rewrite delete_absent by assumption. eexists. split.
    + rewrite <- !app_assoc. reflexivity.
    + unfold calls in *. rewrite filter_app, Hno. reflexivity.
Qed.

Lemma search_and_save_urls_truthy (P : platform) (n q y : Z) (url_file title : pystr)
    (evs : list event) :
  url_file <> [] ->
  (forall w, get_lesson_title P n q y w
             = (Ok (Some title), mkworld (files w) (trace w ++ evs))) ->
  title <> [] ->
  forall w, exists evs',
    search_and_save_urls P n q y url_file w
    = (Ok tt,
       mkworld (with_lines (Fs.delete url_file (files w)) url_file
                           (found_urls P (channel_queries n q y title)))
               (trace w ++ evs')).
Proof.
  intros Hname Htitle Hne w.
  assert (Htruthy : Str.truthy (Some title) = true)
    by (destruct title; [congruence | reflexivity]).
  pose proof (mem_delete url_file (files w)) as Hbase.
  set (del := if Fs.mem url_file (files w)
              then [Print (py "Deleting existing " ++ url_file ++ py "...")] else []).
  destruct (channel_loop P n q y title url_file CHANNEL_IDS Hname
              (Fs.delete url_file (files w)) [] (trace w ++ del ++ evs) Hbase)
    as (evs2 & Hloop & _).
  cbv zeta in Hloop. fold (channel_queries n q y title) in Hloop.
  cbn [app] in Hloop. unfold with_lines at 1 in Hloop. rewrite app_nil_r in Hloop.
  exists (del ++ evs ++ evs2).
  unfold search_and_save_urls. run_monad. unfold os_remove. cbn [files trace].
  subst del.
  destruct (Fs.mem url_file (files w)) eqn:Hmem.
  - rewrite Hmem. rewrite Htitle. cbn [files trace]. rewrite Htruthy. cbn [negb].
    rewrite <- !app_assoc in *. cbn [app] in *. exact Hloop.
  - rewrite Htitle. rewrite Htruthy. cbn [negb files trace].
    rewrite (delete_absent _ _ Hmem) in *.
    rewrite <- !app_assoc in *. cbn [app] in *. exact Hloop.
Qed.

Lemma lookup_with_lines_other (base : Fs.dir) (name other : pystr) (lines : list pystr) :
  other <> name ->
  Fs.lookup name (with_lines base other lines) = Fs.lookup name base.
Proof.
  intros Hneq. unfold with_lines. induction base as [|[n c] base IH]; cbn.
  - destruct lines; cbn; [reflexivity|].
    apply str_eqb_neq in Hneq. now rewrite Hneq.
  - destruct (Str.eqb n name); [reflexivity | exact IH].
Qed.

Lemma lookup_delete_other (name other : pystr) (fs : Fs.dir) :
  other <> name -> Fs.lookup name (Fs.delete other fs) = Fs.lookup name fs.
Proof.
  intros Hneq. unfold Fs.delete.
  apply (lookup_filter_names (fun n => negb (Str.eqb n other))).
  apply negb_true_iff, str_eqb_neq. congruence.
Qed.

Lemma lookup_delete_same (name : pystr) (fs : Fs.dir) :
  Fs.lookup name (Fs.delete name fs) = None.
Proof.
  pose proof (mem_delete name fs) as H. rewrite mem_lookup in H.
  destruct (Fs.lookup name (Fs.delete name fs)); [discriminate | reflexivity].
Qed.

(** X12: the URL store is rebuilt by every run of [search_and_save_urls]:
    what it holds afterwards (or that it is absent) does not depend on the
    directory before the run, so no URL of an earlier run survives; every
    other file is left as it was; and the function returns normally. *)
Theorem search_and_save_urls_rebuilds_store (P : platform) (n q y : Z)
    (url_file : pystr) :
  url_file <> [] ->
  (forall w, fst (search_and_save_urls P n q y url_file w) = Ok tt)
  /\ (forall w1 w2,
         Fs.lookup url_file (files (snd (search_and_save_urls P n q y url_file w1)))
         = Fs.lookup url_file (files (snd (search_and_save_urls P n q y url_file w2))))
  /\ (forall w name,
         name <> url_file ->
         Fs.lookup name (files (snd (search_and_save_urls P n q y url_file w)))
         = Fs.lookup name (files w)).
Proof.
  intros Hname.
  destruct (get_lesson_title_run P n q y) as (title & evs & Hrun & _).
  destruct (Str.truthy title) eqn:Htruthy.
  - destruct title as [[|c title]|]; try discriminate.
    assert (Hne : c :: title <> []) by discriminate.
    pose proof (search_and_save_urls_truthy P n q y url_file _ evs Hname Hrun Hne) as H.
    split; [|split].
    + intros w. destruct (H w) as [evs' ->]. reflexivity.
    + intros w1 w2. destruct (H w1) as [evs1 ->]. destruct (H w2) as [evs2 ->].
      cbn [snd files]. rewrite !lookup_with_lines by apply mem_delete. reflexivity.
    + intros w name Hneq. destruct (H w) as [evs' ->]. cbn [snd files].
      rewrite lookup_with_lines_other by congruence.
      apply lookup_delete_other. congruence.
  - pose proof (search_and_save_urls_falsy P n q y url_file _ evs Hrun Htruthy) as H.
    split; [|split].
    + intros w. destruct (H w) as (evs' & -> & _). reflexivity.
    + intros w1 w2. destruct (H w1) as (evs1 & -> & _).
      destruct (H w2) as (evs2 & -> & _). cbn [snd files].
      now rewrite !lookup_delete_same.
    + intros w name Hneq. destruct (H w) as (evs' & -> & _). cbn [snd files].
      apply lookup_delete_other. congruence.
Qed.

Lemma search_and_save_urls_rebuilds_store_witness :
  (forall w, fst (search_and_save_urls (sample_platform title_3abn) 5 1 2025
                    (py "urls.txt") w) = Ok tt)
  /\ (forall w1 w2,
         Fs.lookup (py "urls.txt")
           (files (snd (search_and_save_urls (sample_platform title_3abn) 5 1 2025
                          (py "urls.txt") w1)))
         = Fs.lookup (py "urls.txt")
             (files (snd (search_and_save_urls (sample_platform title_3abn) 5 1 2025
                            (py "urls.txt") w2))))
  /\ (forall w name,
         name <> py "urls.txt" ->
         Fs.lookup name
           (files (snd (search_and_save_urls (sample_platform title_3abn) 5 1 2025
                          (py "urls.txt") w)))
         = Fs.lookup name (files w)).
Proof.
  apply (search_and_save_urls_rebuilds_store (sample_platform title_3abn) 5 1 2025
           (py "urls.txt")).
  discriminate.
Defined.



Lemma lstrip_by_all (p : char -> bool) (s : pystr) :
  forallb p s = true -> Str.lstrip_by p s = [].
Proof.
  induction s as [|c s IH]; cbn; [reflexivity|].
  rewrite andb_true_iff. intros [-> H]. now apply IH.
Qed.

(** X14: when the raw title has only whitespace before its first pipe (a
    title that starts with a pipe), the extracted title is empty and
    [search_and_save_urls] treats it as no title: no channel is searched and
    no URL store is written. *)
Theorem search_and_save_urls_blank_title (P : platform) (n q y : Z)
    (url_file blank tail : pystr) (rest : list (option pystr)) (w : world) :
  forallb Str.isspace blank = true ->
  extract_info P (title_query n q y) = Ok (Some (Some (blank ++ Str.PIPE :: tail) :: rest)) ->
  fst (get_lesson_title P n q y w) = Ok (Some [])
  /\ exists evs,
       search_and_save_urls P n q y url_file w
       = (Ok tt, mkworld (Fs.delete url_file (files w)) (trace w ++ evs))
       /\ calls is_api_search evs = []
       /\ Fs.lookup url_file (Fs.delete url_file (files w)) = None.
Proof.
  intros Hblank HP.
  assert (Hnopipe : ~ In Str.PIPE blank).
  { intros Hin. rewrite forallb_forall in Hblank. specialize (Hblank _ Hin).
    discriminate. }
  assert (Hrun : forall w0,
             get_lesson_title P n q y w0
             = (Ok (Some []),
                mkworld (files w0)
                  (trace w0 ++ [YtSearch (title_query n q y);
                                Print (py "Found video title: " ++ blank ++ Str.PIPE :: tail);
                                Print (py "Extracted lesson title: ")]))).
  { intros w0. unfold get_lesson_title. rewrite title_query_eq, HP. run_monad.
    replace (Str.contains Str.PIPE (blank ++ Str.PIPE :: tail)) with true.
    2: { symmetry. unfold Str.contains. apply existsb_exists. exists Str.PIPE.
         split; [apply in_elt | reflexivity]. }
    rewrite split_first by assumption.
    assert (Hstrip : Str.strip blank = []).
    { unfold Str.strip, Str.strip_by. now rewrite lstrip_by_all. }
    rewrite Hstrip. cbn [files trace]. rewrite <- !app_assoc. reflexivity. }
  split; [now rewrite Hrun|].
  destruct (search_and_save_urls_falsy P n q y url_file (Some []) _ Hrun eq_refl w)
    as (evs & Hs & Hc).
  exists evs. split; [exact Hs | split; [exact Hc | apply lookup_delete_same]].
Qed.

Lemma search_and_save_urls_blank_title_witness :
  fst (get_lesson_title (sample_platform (py "  | Sabbath School Panel")) 5 1 2025
         empty_world) = Ok (Some [])
  /\ exists evs,
       search_and_save_urls (sample_platform (py "  | Sabbath School Panel")) 5 1 2025
         (py "urls.txt") empty_world
       = (Ok tt,
          mkworld (Fs.delete (py "urls.txt") (files empty_world))
                  (trace empty_world ++ evs))
       /\ calls is_api_search evs = []
       /\ Fs.lookup (py "urls.txt") (Fs.delete (py "urls.txt") (files empty_world)) = None.
Proof.
  apply (search_and_save_urls_blank_title
           (sample_platform (py "  | Sabbath School Panel")) 5 1 2025
           (py "urls.txt") (py "  ") (py " Sabbath School Panel") []).
  - reflexivity.
  - reflexivity.
Defined.

(** ** A first run of the main block *)

Lemma bind_fst_ok {A B} (m : M A) (k : A -> M B) (w : world) (a : A) :
  fst (m w) = Ok a -> bind m k w = k a (snd (m w)).
Proof.
  unfold bind. destruct (m w) as [[a'|e] w1]; cbn [fst snd]; intros H.
  - now injection H as ->.
  - discriminate.
Qed.

Lemma bind_fst_raise {A B} (m : M A) (k : A -> M B) (w : world) (e : exn) :
  fst (m w) = Raise e -> fst (bind m k w) = Raise e.
Proof.
  unfold bind. destruct (m w) as [[a'|e'] w1]; cbn; intros H.
  - discriminate.
  - now injection H as ->.
Qed.

(** With the URL store present the download orchestrator returns normally. *)
Lemma download_audio_from_urls_ok (P : platform) (w : world) (store : pystr) :
  Fs.lookup (py "urls.txt") (files w) = Some store ->
  fst (download_audio_from_urls P (py "urls.txt") (py "downloaded.txt") w) = Ok tt.
Proof.
  intros Hstore. rewrite (download_audio_from_urls_eq P w store Hstore).
  destruct (Fs.lookup (py "downloaded.txt") (files w)) as [content|] eqn:Hledger.
  - destruct (download_loop_run P (read_lines content) (read_lines store) w content Hledger)
      as (w' & evs & -> & _).
    reflexivity.
  - destruct (download_loop_run P [] (read_lines store)
                (mkworld (Fs.update (py "downloaded.txt") (fun _ => []) (files w))
                         (trace w)) [])
      as (w' & evs & -> & _); [|reflexivity].
    cbn [files]. apply lookup_update_same.
Qed.

Lemma download_daily_lesson_audio_files_ok (P : platform) (today : datetime) (w : world) :
  valid_datetime today = true ->
  6 <= toordinal today ->
  probe_contained P ->
  fst (download_daily_lesson_audio_files P today w) = Ok tt.
Proof.
  intros Hv Hlate Hprobe.
  destruct (week_of today Hv Hlate) as (saturday & dates & Hadd & Hdates & _).
  destruct (daily_run P today saturday dates w Hprobe Hadd Hdates) as (w' & evs & -> & _).
  reflexivity.
Qed.

(** X16: a first run, in an empty working directory.  When the date
    arithmetic succeeds, the clock of the daily fetcher reads a valid date
    from 0001-01-06 on and the probe raises network errors only, the main
    block completes if the title lookup gives a non-empty title and at least
    one channel search finds a video, and it stops with [FileNotFoundError]
    for urls.txt in every other case, whatever the providers answer. *)
Theorem main_first_run (P : platform) (today today' : datetime) (q n : Z)
    (title : option pystr) (w : world) :
  files w = [] ->
  get_quarter_and_week today = Ok (q, n) ->
  fst (get_lesson_title P n q (year today) w) = Ok title ->
  valid_datetime today' = true ->
  6 <= toordinal today' ->
  probe_contained P ->
  fst (main P today today' w)
  = if finds_a_url P n q (year today) title
    then Ok tt
    else Raise (FileNotFoundError (py "urls.txt")).
Proof.
  intros Hfiles Hqw Htitle Hv' Hlate Hprobe.
  destruct (get_lesson_title_run P n q (year today)) as (title' & evs & Hrun & _).
  rewrite Hrun in Htitle. cbn [fst] in Htitle. injection Htitle as ->.
  destruct w as [fs tr]. cbn [files] in Hfiles. subst fs.
  unfold main.
  rewrite (bind_fst_ok _ _ _ (q, n)) by exact Hqw.
  cbv beta iota zeta.
  rewrite (bind_fst_ok _ _ _ tt) by reflexivity.
  rewrite (bind_fst_ok _ _ _ tt) by reflexivity.
  match goal with
  | |- context [snd (compare_and_cleanup_lesson_files ?a ?b ?c ?d ?w0)] =>
    change (snd (compare_and_cleanup_lesson_files a b c d w0))
      with (mkworld [] (trace w0 ++ [Print (py "No previous lesson files found.")]))
  end.
  set (w1 := mkworld [] _).
  assert (Hmissing : forall w2 : world,
             files w2 = [] ->
             fst (download_audio_from_urls P (py "urls.txt") (py "downloaded.txt") w2)
             = Raise (FileNotFoundError (py "urls.txt"))).
  { intros w2 Hw2. apply download_audio_from_urls_missing_store;
      [discriminate | discriminate | now rewrite Hw2]. }
  destruct (Str.truthy title) eqn:Htruthy.
  - destruct title as [[|c t]|]; try discriminate.
    destruct (search_and_save_urls_truthy P n q (year today) (py "urls.txt") (c :: t) evs
                ltac:(discriminate) Hrun ltac:(discriminate) w1) as [evs' Hsearch].
    rewrite (bind_fst_ok _ _ _ tt) by (rewrite Hsearch; reflexivity).
    rewrite Hsearch. cbn [snd]. subst w1. cbn [files Fs.delete filter].
    unfold finds_a_url.
    destruct (found_urls P (channel_queries n q (year today) (c :: t))) as [|u us] eqn:Hfound.
    + apply bind_fst_raise. apply Hmissing. reflexivity.
    + set (w2 := mkworld _ _).
      assert (Hstore : Fs.lookup (py "urls.txt") (files w2)
                       = Some (text_of_lines (u :: us))).
      { subst w2. cbn [files]. now rewrite lookup_with_lines by reflexivity. }
      rewrite (bind_fst_ok _ _ _ tt) by exact (download_audio_from_urls_ok P w2 _ Hstore).
      now apply download_daily_lesson_audio_files_ok.
  - destruct (search_and_save_urls_falsy P n q (year today) (py "urls.txt") title evs
                Hrun Htruthy w1) as (evs' & Hsearch & _).
    rewrite (bind_fst_ok _ _ _ tt) by (rewrite Hsearch; reflexivity).
    rewrite Hsearch. cbn [snd].
    replace (finds_a_url P n q (year today) title) with false
      by (destruct title as [[|c t]|]; try reflexivity; discriminate).
    apply bind_fst_raise. apply Hmissing. reflexivity.
Qed.

Lemma main_first_run_witness :
  fst (main (sample_platform title_3abn) (mkdatetime 2025 2 3 0 0 0 0)
         (mkdatetime 2025 2 3 0 0 0 0) empty_world) = Ok tt.
Proof.
  change (fst (main (sample_platform title_3abn) (mkdatetime 2025 2 3 0 0 0 0)
                 (mkdatetime 2025 2 3 0 0 0 0) empty_world)
          = if finds_a_url (sample_platform title_3abn) 6 1
                 (year (mkdatetime 2025 2 3 0 0 0 0)) (Some (py "Lesson 5"))
            then Ok tt
            else Raise (FileNotFoundError (py "urls.txt"))).
  apply (main_first_run (sample_platform title_3abn) (mkdatetime 2025 2 3 0 0 0 0)
           (mkdatetime 2025 2 3 0 0 0 0) 1 6 (Some (py "Lesson 5")) empty_world).
  - reflexivity.
  - vm_compute. reflexivity.
  - vm_compute. reflexivity.
  - reflexivity.
  - vm_compute. discriminate.
  - intros url e H. discriminate H.
Defined.

(** ** Printing a lesson and reading it back *)

Section RoundTrip.

Variable decimal : char -> option Z.
Hypothesis decimal_ascii :
  forall c : char, (48 <= c <= 57)%N -> decimal c = Some (Z.of_N c - 48).

Lemma uint_digits_ascii (u : Decimal.uint) :
  Forall (fun c : char => (48 <= c <= 57)%N) (Str.uint_digits u).
Proof. induction u; cbn [Str.uint_digits]; constructor; (lia || assumption). Qed.

Lemma int_step (acc : Z) (c : char) (g : pystr) :
  (48 <= c <= 57)%N ->
  fold_left (fun acc c => acc * 10 + match decimal c with Some v => v | None => 0 end)
            (c :: g) acc
  = fold_left (fun acc c => acc * 10 + match decimal c with Some v => v | None => 0 end)
              g (acc * 10 + (Z.of_N c - 48)).
Proof. intros Hc. cbn [fold_left]. now rewrite decimal_ascii. Qed.

Lemma int_uint_acc (u : Decimal.uint) (acc : positive) :
  fold_left (fun acc c => acc * 10 + match decimal c with Some v => v | None => 0 end)
            (Str.uint_digits u) (Z.pos acc)
  = Z.pos (Pos.of_uint_acc u acc).
Proof.
  revert acc. induction u; intros acc; cbn [Str.uint_digits Pos.of_uint_acc];
    [reflexivity | rewrite int_step by lia; rewrite <- IHu; f_equal; lia ..].
Qed.

Lemma int_uint (u : Decimal.uint) :
  Re.int decimal (Str.uint_digits u) = Z.of_uint u.
Proof.
  unfold Re.int, Z.of_uint.
  induction u; cbn [Str.uint_digits Pos.of_uint];
    [reflexivity | rewrite int_step by lia; cbn [Z.mul Z.add Z.of_N Z.sub Z.opp Z.pos_sub];
                   first [exact IHu | apply (int_uint_acc u)] ..].
Qed.

Lemma int_of_Z (n : Z) : 0 <= n -> Re.int decimal (Str.of_Z n) = n.
Proof.
  intros Hn. unfold Str.of_Z.
  pose proof (DecimalZ.of_to n) as H.
  destruct (Z.to_int n) as [u|u] eqn:E.
  - rewrite int_uint. exact H.
  - destruct n; cbn in E; try discriminate. lia.
Qed.

Lemma isdigit_ascii (c : char) : (48 <= c <= 57)%N -> Re.isdigit decimal c = true.
Proof. intros Hc. unfold Re.isdigit. now rewrite decimal_ascii. Qed.

Lemma digits_exactly_app (ds s : pystr) :
  Forall (fun c : char => (48 <= c <= 57)%N) ds ->
  Re.digits_exactly decimal (List.length ds) (ds ++ s) = Some (ds, s).
Proof.
  induction 1 as [|c ds Hc _ IH]; cbn [List.length Re.digits_exactly app]; [reflexivity|].
  now rewrite isdigit_ascii, IH.
Qed.

Lemma digits_many_app (ds rest : pystr) :
  Forall (fun c : char => (48 <= c <= 57)%N) ds ->
  match rest with [] => True | c :: _ => decimal c = None end ->
  Re.digits_many decimal (ds ++ rest) = ds.
Proof.
  intros Hds Hrest. induction Hds as [|c ds Hc _ IH]; cbn [Re.digits_many app].
  - destruct rest as [|c rest]; [reflexivity|]. cbn [Re.digits_many].
    unfold Re.isdigit. now rewrite Hrest.
  - now rewrite isdigit_ascii, IH.
Qed.

Lemma literal_app (lit s : pystr) : Re.literal lit (lit ++ s) = Some s.
Proof.
  induction lit as [|l lit IH]; cbn [Re.literal app]; [reflexivity|].
  unfold Str.char_eqb. now rewrite N.eqb_refl.
Qed.

Lemma search_skip (before s : pystr) (g : pystr * pystr * pystr) :
  forallb (fun c => negb (Re.isdigit decimal c)) before = true ->
  Re.match_here decimal s = Some g ->
  Re.search decimal (before ++ s) = Some g.
Proof.
  intros Hbefore Hs. induction before as [|c before IH]; cbn [app].
  - destruct s; cbn [Re.search]; now rewrite Hs.
  - cbn [forallb] in Hbefore. apply andb_true_iff in Hbefore. destruct Hbefore as [Hc Hb].
    apply negb_true_iff in Hc.
    cbn [Re.search]. unfold Re.match_here at 1. cbn [Re.digits_exactly]. rewrite Hc.
    now apply IH.
Qed.

Lemma of_Z_digits (n : Z) :
  0 <= n ->
  Forall (fun c : char => (48 <= c <= 57)%N) (Str.of_Z n)
  /\ exists c ds, Str.of_Z n = c :: ds /\ (48 <= c <= 57)%N.
Proof.
  intros Hn. unfold Str.of_Z. destruct n as [|p|p]; [| |lia]; cbn [Z.to_int].
  - split; [repeat constructor; lia | exists 48%N, []; split; [reflexivity | lia]].
  - pose proof (uint_digits_ascii (Pos.to_uint p)) as Hall.
    split; [exact Hall|].
    pose proof (DecimalPos.Unsigned.to_uint_nonnil p) as Hnil.
    destruct (Pos.to_uint p); [congruence | ..]; cbn [Str.uint_digits] in *;
      inversion Hall; subst; eexists _, _; (split; [reflexivity | assumption]).
Qed.

End RoundTrip.

Lemma of_Z_one (q : Z) : 0 <= q <= 9 -> List.length (Str.of_Z q) = 1%nat.
Proof.
  intros Hq.
  assert (H : q = 0 \/ q = 1 \/ q = 2 \/ q = 3 \/ q = 4 \/ q = 5 \/ q = 6 \/ q = 7
              \/ q = 8 \/ q = 9) by lia.
  destruct H as [->|[->|[->|[->|[->|[->|[->|[->|[->| ->]]]]]]]]]; reflexivity.
Qed.

Lemma spaces_space (s : pystr) : Re.spaces (32%N :: s) = Re.spaces s.
Proof. reflexivity. Qed.

Lemma spaces_stop (c : char) (s : pystr) :
  Str.isspace c = false -> Re.spaces (c :: s) = c :: s.
Proof. intros H. unfold Re.spaces. cbn [Str.lstrip_by]. now rewrite H. Qed.

Lemma isspace_digit (c : char) : (48 <= c <= 57)%N -> Str.isspace c = false.
Proof.
  intros Hc. unfold Str.isspace.
  repeat match goal with
         | |- context [(?a <=? ?b)%N] => destruct (N.leb_spec a b)
         | |- context [(?a =? ?b)%N] => destruct (N.eqb_spec a b)
         end; try lia; reflexivity.
Qed.

Lemma lesson_name_match (decimal : char -> option Z) (y q n : Z) (rest : pystr) :
  (forall c : char, (48 <= c <= 57)%N -> decimal c = Some (Z.of_N c - 48)) ->
  1000 <= y <= 9999 -> 0 <= q <= 9 -> 0 <= n ->
  match rest with [] => True | c :: _ => decimal c = None end ->
  Re.match_here decimal
    (Str.of_Z y ++ py " Q" ++ Str.of_Z q ++ py " Lesson " ++ Str.of_Z n ++ rest)
  = Some (Str.of_Z y, Str.of_Z q, Str.of_Z n).
Proof.
  intros Hdec Hy Hq Hn Hrest.
  destruct (of_Z_digits y ltac:(lia)) as [Hyd _].
  destruct (of_Z_digits q ltac:(lia)) as [Hqd _].
  destruct (of_Z_digits n Hn) as (Hnd & c & ds & Hnc & Hc).
  unfold Re.match_here.
  rewrite <- (of_Z_four y Hy), (digits_exactly_app decimal Hdec _ _ Hyd).
  change (Re.spaces (py " Q" ++ ?s)) with (py "Q" ++ s).
  rewrite literal_app.
  rewrite <- (of_Z_one q Hq), (digits_exactly_app decimal Hdec _ _ Hqd).
  change (Re.spaces (py " Lesson " ++ ?s)) with (py "Lesson" ++ 32%N :: s).
  rewrite literal_app, spaces_space.
  rewrite Hnc in *. cbn [app].
  rewrite spaces_stop by now apply isspace_digit.
  change (c :: ds ++ rest) with ((c :: ds) ++ rest).
  rewrite (digits_many_app decimal Hdec _ _ Hnd Hrest).
  reflexivity.
Qed.

Lemma ascii_decimal_digit (c : char) :
  (48 <= c <= 57)%N -> ascii_decimal c = Some (Z.of_N c - 48).
Proof.
  intros Hc. unfold ascii_decimal.
  destruct (N.leb_spec 48 c), (N.leb_spec c 57); try lia. reflexivity.
Qed.

Lemma no_digit_ascii (P : platform) (before : pystr) :
  (forall c : char, (c < 128)%N -> unicode_decimal P c = ascii_decimal c) ->
  forallb (fun c => (c <? 128)%N && negb (Re.isdigit ascii_decimal c)) before = true ->
  forallb (fun c => negb (Re.isdigit (unicode_decimal P) c)) before = true.
Proof.
  intros Hagree H. rewrite forallb_forall in *. intros c Hin.
  specialize (H c Hin). apply andb_true_iff in H. destruct H as [Hlt Hc].
  apply N.ltb_lt in Hlt. unfold Re.isdigit in *. now rewrite Hagree.
Qed.

Lemma lesson_name_parsed (P : platform) (y q n : Z) (before rest : pystr) :
  (forall c : char, (c < 128)%N -> unicode_decimal P c = ascii_decimal c) ->
  1000 <= y <= 9999 -> 0 <= q <= 9 -> 0 <= n ->
  forallb (fun c => (c <? 128)%N && negb (Re.isdigit ascii_decimal c)) before = true ->
  match rest with
  | [] => True
  | c :: _ => (c <? 128)%N && negb (Re.isdigit ascii_decimal c) = true
  end ->
  parsed_lesson P
    (before ++ Str.of_Z y ++ py " Q" ++ Str.of_Z q ++ py " Lesson " ++ Str.of_Z n ++ rest)
  = Some (y, q, n).
Proof.
  intros Hagree Hy Hq Hn Hbefore Hrest.
  assert (Hdec : forall c : char, (48 <= c <= 57)%N ->
                                  unicode_decimal P c = Some (Z.of_N c - 48)).
  { intros c Hc. rewrite Hagree by lia. now apply ascii_decimal_digit. }
  unfold parsed_lesson.
  rewrite (search_skip (unicode_decimal P) before _ (Str.of_Z y, Str.of_Z q, Str.of_Z n)).
  - now rewrite !(int_of_Z (unicode_decimal P) Hdec) by lia.
  - now apply no_digit_ascii.
  - apply lesson_name_match; try assumption.
    destruct rest as [|c rest]; [exact I|].
    apply andb_true_iff in Hrest. destruct Hrest as [Hlt Hc].
    apply N.ltb_lt in Hlt. rewrite Hagree by exact Hlt.
    apply negb_true_iff in Hc. unfold Re.isdigit in Hc.
    now destruct (ascii_decimal c).
Qed.

(** X18: print and parse of a lesson.  The queries of the channels
    itiswritten, claudiocarneiro and egwhiteaudio print the year, the quarter
    and the lesson number in the order of the lesson pattern of the cleanup.
    A file name made of such a query (with any title and any extension) is
    read back by [compare_and_cleanup_lesson_files] as exactly that year,
    quarter and lesson number, for a four-digit year, a one-digit quarter and
    any lesson number; so the file is stale exactly for the lessons that are
    later in the lexicographic order. *)
Theorem lesson_query_parses_back (P : platform) (y q n : Z) (title ext : pystr)
    (channel_name : pystr) (channel_data : channel) :
  (forall c : char, (c < 128)%N -> unicode_decimal P c = ascii_decimal c) ->
  1000 <= y <= 9999 -> 0 <= q <= 9 -> 0 <= n ->
  In (channel_name, channel_data) CHANNEL_IDS ->
  channel_name = py "itiswritten" \/ channel_name = py "claudiocarneiro"
  \/ channel_name = py "egwhiteaudio" ->
  parsed_lesson P (format (query_format channel_data) n q y title ++ ext) = Some (y, q, n)
  /\ forall cy cq cl,
       stale P cy cq cl (format (query_format channel_data) n q y title ++ ext) = true
       <-> lex_lt (y, q, n) (cy, cq, cl).
Proof.
  intros Hagree Hy Hq Hn Hin Hname.
  assert (Hparsed : parsed_lesson P (format (query_format channel_data) n q y title ++ ext)
                    = Some (y, q, n)).
  { unfold CHANNEL_IDS in Hin. cbn [In] in Hin.
    destruct Hin as [H|[H|[H|[H|[H|[H|[]]]]]]]; injection H as <- <-;
      try (exfalso; destruct Hname as [Hc|[Hc|Hc]]; vm_compute in Hc; discriminate);
      unfold format; cbn [map List.concat query_format];
      rewrite ?app_nil_r, <- ?app_assoc.
    - apply lesson_name_parsed; try assumption; reflexivity.
    - apply (lesson_name_parsed P y q n []); try assumption; reflexivity.
    - apply (lesson_name_parsed P y q n []); try assumption; reflexivity. }
  split; [exact Hparsed|].
  intros cy cq cl. unfold stale. rewrite Hparsed. apply older_lex_lt.
Qed.

Lemma lesson_query_parses_back_witness :
  parsed_lesson (sample_platform title_3abn)
    (py "Sabbath School - 2025 Q1 Lesson 6: Lesson 5.m4a") = Some (2025, 1, 6)
  /\ forall cy cq cl,
       stale (sample_platform title_3abn) cy cq cl
         (py "Sabbath School - 2025 Q1 Lesson 6: Lesson 5.m4a") = true
       <-> lex_lt (2025, 1, 6) (cy, cq, cl).
Proof.
  refine (lesson_query_parses_back (sample_platform title_3abn) 2025 1 6
            (py "Lesson 5") (py ".m4a") (py "itiswritten")
            (mkchannel (py "UCtWyoUrGPAkZgnp2486Ir4w")
               [Lit (py "Sabbath School - "); year_field; Lit (py " Q"); quarter_field;
                Lit (py " Lesson "); lesson_number_field; Lit (py ": ");
                lesson_title_field])
            _ _ _ _ _ _).
  - intros c _. reflexivity.
  - lia.
  - lia.
  - lia.
  - right. left. reflexivity.
  - left. reflexivity.
Defined.

(** X19: the two lookups are contained.  [search_videos_on_youtube] never
    raises, whatever the API client does: it makes one API call, leaves the
    directory as it was, and returns the watch URL of the first item when
    that item has a video id, and [None] in every other case (an error of
    the client included).  [get_lesson_title] never raises either and leaves
    the directory as it was. *)
Theorem lookups_are_contained (P : platform) :
  (forall (query channel_name channel_id : pystr) (w : world),
      exists (r : option pystr) (evs : list event),
        search_videos_on_youtube P query channel_name channel_id w
        = (Ok r, mkworld (files w) (trace w ++ evs))
        /\ calls is_api_search evs = [ApiSearch query channel_id]
        /\ match youtube_search P query channel_id with
           | Ok (Some video_id :: _) =>
             r = Some (py "https://www.youtube.com/watch?v=" ++ video_id)
           | _ => r = None
           end)
  /\ (forall (n q y : Z) (w : world),
         exists (r : option pystr) (evs : list event),
           get_lesson_title P n q y w = (Ok r, mkworld (files w) (trace w ++ evs))
           /\ calls is_api_search evs = []).
Proof.
  split.
  - intros query channel_name channel_id w.
    destruct (search_videos_on_youtube_run P query channel_name channel_id)
      as (evs & Hrun & Hcalls).
    exists (found_url P query channel_id), evs.
    split; [apply Hrun|]. split; [exact Hcalls|].
    unfold found_url.
    destruct (youtube_search P query channel_id) as [[|[video_id|] rest]|e]; reflexivity.
  - intros n q y w.
    destruct (get_lesson_title_run P n q y) as (title & evs & Hrun & Hno).
    exists title, evs. split; [apply Hrun|].
    now apply no_api_search_calls.
Qed.
